(** * CreditAI Global: the dynamic pricing agent

    A shallow embedding of [agent/pricing_agent.py] (class
    [DynamicPricingAgent]) and the properties its design document states
    about it.

    Conventions of the embedding.
    - Python values are the inductive [pyval]; a [dict] is the ordered list
      of its items (Python dicts keep insertion order, and [json] writes and
      reads members in that order).
    - Python's [int] is [Z].  Python's [float] is idealised as an exact
      rational [Q]: binary64 rounding, overflow, infinities and nan are
      outside the model.  [round(x, n)] rounds the exact value to [n]
      decimals, ties to even.
    - A raised exception is the [Raise] outcome of [result]; methods that
      mutate the agent thread it explicitly, so that the state an exception
      leaves behind is part of the outcome.
    - [datetime.now().isoformat()] is an input [now] of [calculate_rate].
    - The [json] module is modelled on documents (trees), not on their text;
      a file holds the document its text denotes.
    - Module [Overflow] repeats [calculate_rate] with ints kept apart from
      floats: an int too large for a float raises [OverflowError] where
      Python converts it.  The two runs agree when the ints are within
      range.
    - Module [Binary64] repeats the arithmetic of a price on IEEE binary64
      numbers, to check the rational model against the machine's numbers
      on the example run. *)

From Stdlib Require Import ZArith QArith Qround Lqa Lia List String Ascii Bool.
From Stdlib Require Import Floats DecimalString.
From stdpp Require Import gmap strings.
Import ListNotations.

Open Scope string_scope.
Open Scope list_scope.
Open Scope Q_scope.

(* ================================================================== *)
(** * Python values and exceptions *)

Module Py.

#[warnings="-register-all"]
Inductive pyval : Type :=
| PNone
| PBool (b : bool)
| PInt (z : Z)
| PFloat (q : Q)
| PStr (s : string)
| PList (items : list pyval)
| PTuple (items : list pyval)
| PDict (d : list (string * pyval)).

Definition dict : Type := list (string * pyval).

(** The exceptions the module can raise.  [NanResult] is not an exception
    of Python: [np.mean([])] returns nan (with a warning), which a rational
    cannot hold, so that outcome is reported separately. *)
Inductive exn : Type :=
| KeyError (key : string)
| TypeError
| AttributeError
| ZeroDivisionError
| OverflowError
| FileNotFoundError (path : string)
| JSONDecodeError
| NanResult.

(** The class name of an exception, as [type(e).__name__] gives it. *)
Definition exn_name (e : exn) : string :=
  match e with
  | KeyError _ => "KeyError"
  | TypeError => "TypeError"
  | AttributeError => "AttributeError"
  | ZeroDivisionError => "ZeroDivisionError"
  | OverflowError => "OverflowError"
  | FileNotFoundError _ => "FileNotFoundError"
  | JSONDecodeError => "JSONDecodeError"
  | NanResult => "nan"
  end.

(** [isinstance(e, ArithmeticError)]. *)
Definition is_arithmetic_error (e : exn) : bool :=
  match e with
  | ZeroDivisionError | OverflowError => true
  | _ => false
  end.

Inductive result (A : Type) : Type :=
| Ok (a : A)
| Raise (e : exn).
Arguments Ok {A} a.
Arguments Raise {A} e.

Definition bind {A B : Type} (m : result A) (f : A -> result B) : result B :=
  match m with
  | Ok a => f a
  | Raise e => Raise e
  end.

(** ** Dictionaries *)

(** [d.get(k)] *)
Fixpoint dict_get (k : string) (d : dict) : option pyval :=
  match d with
  | [] => None
  | (k', v) :: rest => if String.eqb k' k then Some v else dict_get k rest
  end.

(** [d[k]] *)
Definition getitem (d : dict) (k : string) : result pyval :=
  match dict_get k d with
  | Some v => Ok v
  | None => Raise (KeyError k)
  end.

(** [d.get(k, default)] *)
Definition get_default (d : dict) (k : string) (default : pyval) : pyval :=
  match dict_get k d with
  | Some v => v
  | None => default
  end.

(** [d[k] = v]: an existing key keeps its position. *)
Fixpoint dict_set (k : string) (v : pyval) (d : dict) : dict :=
  match d with
  | [] => [(k, v)]
  | (k', v') :: rest =>
      if String.eqb k' k then (k', v) :: rest else (k', v') :: dict_set k v rest
  end.

Definition keys (d : dict) : list string := map fst d.

(** [v[k]] for a string [k]: only a dict can be indexed by a string. *)
Definition subscript (v : pyval) (k : string) : result pyval :=
  match v with
  | PDict d => getitem d k
  | _ => Raise TypeError
  end.

(** [v == s] for a string literal [s]. *)
Definition eq_str (v : pyval) (s : string) : bool :=
  match v with
  | PStr t => String.eqb t s
  | _ => false
  end.

(** Whether [hash(v)] succeeds. *)
Fixpoint hashable (v : pyval) : bool :=
  match v with
  | PList _ | PDict _ => false
  | PTuple items => forallb hashable items
  | _ => true
  end.

(** [bool(v)] *)
Definition truthy (v : pyval) : bool :=
  match v with
  | PNone => false
  | PBool b => b
  | PInt z => negb (Z.eqb z 0)
  | PFloat q => negb (Qeq_bool q 0)
  | PStr s => negb (String.eqb s "")
  | PList items | PTuple items => negb (Nat.eqb (List.length items) 0)
  | PDict d => negb (Nat.eqb (List.length d) 0)
  end.

(** ** Numbers *)

(** The numeric value an arithmetic operator or an ordering comparison
    sees; anything that is not a number makes it raise [TypeError]. *)
Definition to_num (v : pyval) : result Q :=
  match v with
  | PInt z => Ok (inject_Z z)
  | PFloat q => Ok q
  | PBool b => Ok (inject_Z (Z.b2z b))
  | _ => Raise TypeError
  end.

Definition Qltb (x y : Q) : bool :=
  match Qcompare x y with
  | Lt => true
  | _ => false
  end.

(** [x >= y] *)
Definition Qgeb (x y : Q) : bool := negb (Qltb x y).

(** [max(a, b)]: the first argument unless the second is greater. *)
Definition py_max (a b : Q) : Q := if Qltb a b then b else a.

(** [min(a, b)]: the first argument unless the second is smaller. *)
Definition py_min (a b : Q) : Q := if Qltb b a then b else a.

(** [x / y] *)
Definition py_div (x y : Q) : result Q :=
  if Qeq_bool y 0 then Raise ZeroDivisionError else Ok (x / y).

Fixpoint pow10 (n : nat) : positive :=
  match n with
  | O => 1%positive
  | S k => (10 * pow10 k)%positive
  end.

(** The integer nearest to [x], ties to the even one. *)
Definition round_half_even (x : Q) : Z :=
  let f := Qfloor x in
  match Qcompare (x - inject_Z f) (1 # 2) with
  | Lt => f
  | Gt => (f + 1)%Z
  | Eq => if Z.even f then f else (f + 1)%Z
  end.

(** [round(x, ndigits)] on a float. *)
Definition py_round (x : Q) (ndigits : nat) : Q :=
  round_half_even (x * inject_Z (Zpos (pow10 ndigits))) # pow10 ndigits.

Definition Qsum (xs : list Q) : Q := fold_left Qplus xs 0.

(** [np.mean(xs)] on numbers. *)
Definition mean (xs : list Q) : result Q :=
  match xs with
  | [] => Raise NanResult
  | _ => Ok (Qsum xs / inject_Z (Z.of_nat (List.length xs)))
  end.

Fixpoint mapM {A B : Type} (f : A -> result B) (l : list A) : result (list B) :=
  match l with
  | [] => Ok []
  | a :: rest =>
      bind (f a) (fun b => bind (mapM f rest) (fun bs => Ok (b :: bs)))
  end.

(** [np.mean([d[key] for d in ds])].  The comprehension runs first and
    stops at the first item without the key; numpy then rejects entries
    that are not numbers (how numpy reshapes nested lists is not
    modelled: such entries raise here). *)
Definition np_mean_of (key : string) (ds : list pyval) : result Q :=
  bind (mapM (fun d => subscript d key) ds) (fun vs =>
  bind (mapM to_num vs) mean).

(** [l[-n:]] on a list. *)
Definition last_n {A : Type} (n : nat) (l : list A) : list A :=
  skipn (List.length l - n) l.

End Py.
Export Py.

Notation "'let!' x ':=' c1 'in' c2" := (bind c1 (fun x => c2))
  (at level 10, x name, c1 at level 100, c2 at level 200).

(* ================================================================== *)
(** * The [json] module, on documents *)

Module Json.

(** A JSON document.  Python's reader tells an integer literal from one
    with a fraction or an exponent, so the two kinds of number are kept
    apart. *)
#[warnings="-register-all"]
Inductive json : Type :=
| JNull
| JBool (b : bool)
| JInt (z : Z)
| JFloat (q : Q)
| JString (s : string)
| JArray (elements : list json)
| JObject (members : list (string * json)).

(** [json.dump(v, f)]: lists and tuples both become arrays; a dict
    becomes an object with its items in order. *)
Fixpoint dump (v : pyval) : json :=
  match v with
  | PNone => JNull
  | PBool b => JBool b
  | PInt z => JInt z
  | PFloat q => JFloat q
  | PStr s => JString s
  | PList items => JArray (map dump items)
  | PTuple items => JArray (map dump items)
  | PDict d => JObject (map (fun kv => (fst kv, dump (snd kv))) d)
  end.

(** The dict Python builds from the members of an object: members are
    stored one after the other, so a repeated name keeps its first place
    and its last value. *)
Definition dict_of_members (members : dict) : dict :=
  fold_left (fun d kv => dict_set (fst kv) (snd kv) d) members [].

(** [json.load(f)]: arrays become lists, objects become dicts. *)
Fixpoint load (j : json) : pyval :=
  match j with
  | JNull => PNone
  | JBool b => PBool b
  | JInt z => PInt z
  | JFloat q => PFloat q
  | JString s => PStr s
  | JArray elements => PList (map load elements)
  | JObject members =>
      PDict (dict_of_members (map (fun kv => (fst kv, load (snd kv))) members))
  end.

(** What a file holds: text that parses to a document, or text that
    does not parse. *)
Inductive file : Type :=
| JsonText (doc : json)
| OtherText.

Definition files : Type := gmap string file.

End Json.
Export Json.

(* ================================================================== *)
(** * class DynamicPricingAgent *)

Module DynamicPricingAgent.

(** [self.stats]: a dict created once with four keys, of which only the
    values are ever updated. *)
Record stats_t : Type := {
  total_decisions : Z;
  avg_adjustment : Q;
  total_profit : Q;
  default_rate : Q
}.

(** The attributes of an agent that a caller chooses or a method
    assigns.  [base_rates], [min_rate] and [max_rate] are assigned by the
    constructor only and are constants below.  [decision_history] is a
    [pyval]: [load_decisions] stores whatever the file holds. *)
Record agent : Type := {
  config : dict;
  decision_history : pyval;
  stats : stats_t
}.

Definition base_rates : list (string * Q) := [("USA", 0.12); ("India", 0.18)].
Definition min_rate : Q := 0.08.
Definition max_rate : Q := 0.36.

Definition _default_config : dict :=
  [("risk_weight", PFloat 0.6); ("market_weight", PFloat 0.3);
   ("profit_weight", PFloat 0.1); ("learning_rate", PFloat 0.01)].

(** [config or self._default_config()]: [None] and the empty dict are
    both falsy. *)
Definition __init__ (config : option dict) : agent :=
  {| config := match config with
               | Some (item :: items) => item :: items
               | _ => _default_config
               end;
     decision_history := PList [];
     stats := {| total_decisions := 0; avg_adjustment := 0.0;
                 total_profit := 0.0; default_rate := 0.0 |} |}.

(** ** State: methods that assign attributes *)

Definition M (A : Type) : Type := agent -> result A * agent.

Definition ret {A : Type} (a : A) : M A := fun self => (Ok a, self).

Definition bindM {A B : Type} (m : M A) (f : A -> M B) : M B :=
  fun self =>
    match m self with
    | (Ok a, self') => f a self'
    | (Raise e, self') => (Raise e, self')
    end.

Definition lift {A : Type} (r : result A) : M A := fun self => (r, self).
Definition gets {A : Type} (f : agent -> A) : M A := fun self => (Ok (f self), self).
Definition modify (f : agent -> agent) : M unit := fun self => (Ok tt, f self).

Notation "'do!' x ':=' c1 'in' c2" := (bindM c1 (fun x => c2))
  (at level 10, x name, c1 at level 100, c2 at level 200).

Definition set_decision_history (h : pyval) (self : agent) : agent :=
  {| config := config self; decision_history := h; stats := stats self |}.

Definition set_stats (f : stats_t -> stats_t) (self : agent) : agent :=
  {| config := config self; decision_history := decision_history self;
     stats := f (stats self) |}.

(** ** The rate components *)

(** [self.base_rates.get(country, default)]: the key is hashed first. *)
Definition base_rates_get (country : pyval) (default : Q) : result Q :=
  if hashable country then
    Ok (match country with
        | PStr c =>
            match find (fun entry => String.eqb (fst entry) c) base_rates with
            | Some entry => snd entry
            | None => default
            end
        | _ => default
        end)
  else Raise TypeError.

(** [max(applicant['income'], 1)] *)
Definition income_or_one (applicant : dict) : result Q :=
  let! income := getitem applicant "income" in
  let! income := to_num income in
  Ok (py_max income 1).

(** The credit score on the scale of its country: FICO 300-850 for
    'USA', CIBIL 300-900 otherwise. *)
Definition normalize (credit_score country : pyval) : result Q :=
  if eq_str country "USA" then
    let! credit_score := to_num credit_score in
    py_div (credit_score - 300) (850 - 300)
  else
    let! credit_score := to_num credit_score in
    py_div (credit_score - 300) (900 - 300).

(** [applicant.get('existing_debt', 0) / max(applicant['income'], 1)] *)
Definition debt_to_income (applicant : dict) : result Q :=
  let existing_debt := get_default applicant "existing_debt" (PInt 0) in
  let! income := income_or_one applicant in
  let! existing_debt := to_num existing_debt in
  py_div existing_debt income.

Definition _calculate_risk_adjustment (applicant : dict) : result Q :=
  let! credit_score := getitem applicant "credit_score" in
  let! country := getitem applicant "country" in
  let! normalized_score := normalize credit_score country in
  let! dti := debt_to_income applicant in
  let! loan_amount := getitem applicant "loan_amount" in
  let! income := income_or_one applicant in
  let! loan_amount := to_num loan_amount in
  let! lti := py_div loan_amount income in
  let risk_score :=
    (1 - normalized_score) * 0.5 + py_min dti 1.0 * 0.3 + py_min lti 1.0 * 0.2 in
  let adjustment := - 0.03 + risk_score * 0.11 in
  Ok adjustment.

Definition _calculate_market_adjustment (applicant : dict) : result Q :=
  let! credit_score := getitem applicant "credit_score" in
  let! country := getitem applicant "country" in
  if eq_str country "USA" then
    let! credit_score := to_num credit_score in
    if Qgeb credit_score 750 then Ok (- 0.02)
    else if Qgeb credit_score 700 then Ok (- 0.01)
    else Ok 0.0
  else
    let! credit_score := to_num credit_score in
    if Qgeb credit_score 800 then Ok (- 0.02)
    else if Qgeb credit_score 750 then Ok (- 0.01)
    else Ok 0.0.

Definition _calculate_profit_adjustment (applicant : dict) : result Q :=
  let! loan_amount := getitem applicant "loan_amount" in
  let! loan_amount := to_num loan_amount in
  if Qgeb loan_amount 25000 then Ok (- 0.005)
  else if Qgeb loan_amount 15000 then Ok (- 0.0025)
  else Ok 0.0.

Definition _estimate_default_probability (applicant : dict) : result Q :=
  let! credit_score := getitem applicant "credit_score" in
  let! country := getitem applicant "country" in
  let! normalized := normalize credit_score country in
  let default_prob := 0.25 * (1 - normalized) in
  let! dti := debt_to_income applicant in
  let default_prob := default_prob + dti * 0.1 in
  Ok (py_min default_prob 0.99).

Definition _calculate_expected_profit
    (loan_amount : pyval) (rate default_prob : Q) : result Q :=
  let! loan_amount := to_num loan_amount in
  let interest_income := loan_amount * rate in
  let loss_if_default := loan_amount * 0.4 in
  let expected_profit :=
    interest_income * (1 - default_prob) - loss_if_default * default_prob in
  Ok expected_profit.

(** The reasons, in the order risk, market, profit, credit score. *)
Definition _generate_reasoning
    (risk_adj market_adj profit_adj : Q) (applicant : dict) : result (list string) :=
  let reasons := [] in
  let reasons :=
    if Qltb risk_adj (- 0.01) then
      reasons ++ ["‚úÖ Excellent credit profile - reduced risk premium"]
    else if Qltb 0.05 risk_adj then
      reasons ++ ["‚ö†Ô∏è Higher risk profile - increased rate for protection"]
    else
      reasons ++ ["Standard risk assessment"] in
  let reasons :=
    if Qltb market_adj 0 then
      reasons ++ ["üéØ Competitive rate to win quality applicant"]
    else reasons in
  let reasons :=
    if Qltb profit_adj 0 then
      reasons ++ ["üí∞ Volume discount for larger loan amount"]
    else reasons in
  let! score := getitem applicant "credit_score" in
  let! country := getitem applicant "country" in
  if eq_str country "USA" then
    let! score := to_num score in
    if Qgeb score 750 then Ok (reasons ++ ["Excellent FICO score (750+)"])
    else if Qltb score 650 then Ok (reasons ++ ["Below-average FICO score"])
    else Ok reasons
  else
    let! score := to_num score in
    if Qgeb score 800 then Ok (reasons ++ ["Excellent CIBIL score (800+)"])
    else if Qltb score 700 then Ok (reasons ++ ["Below-average CIBIL score"])
    else Ok reasons.

(** ** The ledger *)

(** [l.append(x)]: only a list has the method. *)
Definition append (l x : pyval) : result pyval :=
  match l with
  | PList items => Ok (PList (items ++ [x]))
  | _ => Raise AttributeError
  end.

(** [for d in h], and [h[-100:]] before it: the items of a list or
    tuple.  Every other value [json.load] can store ends in [TypeError]:
    a number or [True] cannot be sliced or iterated, the characters of a
    string cannot be indexed by a string, and a dict cannot be sliced
    (CPython 3.12 raises [KeyError] for the slice instead). *)
Definition items_of (h : pyval) : result (list pyval) :=
  match h with
  | PList items | PTuple items => Ok items
  | _ => Raise TypeError
  end.

Definition _log_decision (decision : dict) : M unit :=
  do! history := gets decision_history in
  do! history := lift (append history (PDict decision)) in
  do! _ := modify (set_decision_history history) in
  do! _ := modify (set_stats (fun st =>
    {| total_decisions := total_decisions st + 1;
       avg_adjustment := avg_adjustment st;
       total_profit := total_profit st;
       default_rate := default_rate st |})) in
  do! history := gets decision_history in
  do! avg := lift (let! ds := items_of history in np_mean_of "total_adjustment" ds) in
  do! _ := modify (set_stats (fun st =>
    {| total_decisions := total_decisions st;
       avg_adjustment := avg;
       total_profit := total_profit st;
       default_rate := default_rate st |})) in
  do! expected_profit := lift (let! p := getitem decision "expected_profit" in to_num p) in
  modify (set_stats (fun st =>
    {| total_decisions := total_decisions st;
       avg_adjustment := avg_adjustment st;
       total_profit := total_profit st + expected_profit;
       default_rate := default_rate st |})).

(** [calculate_rate(applicant)], with the clock reading [now].  Nothing
    is assigned before [_log_decision] runs. *)
Definition calculate_rate (applicant : dict) (now : string) : M dict :=
  do! self_config := gets config in
  do! decision := lift (
    let! country := getitem applicant "country" in
    let! base_rate := base_rates_get country 0.15 in
    let! risk_adjustment := _calculate_risk_adjustment applicant in
    let! market_adjustment := _calculate_market_adjustment applicant in
    let! profit_adjustment := _calculate_profit_adjustment applicant in
    let! risk_weight := getitem self_config "risk_weight" in
    let! risk_weight := to_num risk_weight in
    let! market_weight := getitem self_config "market_weight" in
    let! market_weight := to_num market_weight in
    let! profit_weight := getitem self_config "profit_weight" in
    let! profit_weight := to_num profit_weight in
    let total_adjustment :=
      risk_adjustment * risk_weight +
      market_adjustment * market_weight +
      profit_adjustment * profit_weight in
    let final_rate := base_rate + total_adjustment in
    let final_rate := py_max min_rate (py_min max_rate final_rate) in
    let! default_prob := _estimate_default_probability applicant in
    let! loan_amount := getitem applicant "loan_amount" in
    let! expected_profit :=
      _calculate_expected_profit loan_amount final_rate default_prob in
    let applicant_id := get_default applicant "id" (PStr "unknown") in
    let! country := getitem applicant "country" in
    let! credit_score := getitem applicant "credit_score" in
    let! loan_amount := getitem applicant "loan_amount" in
    let! reasoning :=
      _generate_reasoning risk_adjustment market_adjustment profit_adjustment
        applicant in
    Ok [("timestamp", PStr now);
        ("applicant_id", applicant_id);
        ("country", country);
        ("credit_score", credit_score);
        ("loan_amount", loan_amount);
        ("base_rate", PFloat (py_round base_rate 4));
        ("risk_adjustment", PFloat (py_round risk_adjustment 4));
        ("market_adjustment", PFloat (py_round market_adjustment 4));
        ("profit_adjustment", PFloat (py_round profit_adjustment 4));
        ("total_adjustment", PFloat (py_round total_adjustment 4));
        ("final_rate", PFloat (py_round final_rate 4));
        ("default_probability", PFloat (py_round default_prob 4));
        ("expected_profit", PFloat (py_round expected_profit 2));
        ("reasoning", PList (map PStr reasoning))]) in
  do! _ := _log_decision decision in
  ret decision.

(** [self.stats], as the dict it is. *)
Definition stats_dict (st : stats_t) : dict :=
  [("total_decisions", PInt (total_decisions st));
   ("avg_adjustment", PFloat (avg_adjustment st));
   ("total_profit", PFloat (total_profit st));
   ("default_rate", PFloat (default_rate st))].

(** [h[-100:]] followed by the loops over it. *)
Definition recent (h : pyval) : result (list pyval) :=
  let! ds := items_of h in
  Ok (last_n 100 ds).

Definition get_statistics (self : agent) : result dict :=
  if negb (truthy (decision_history self)) then Ok (stats_dict (stats self))
  else
    let! recent_decisions := recent (decision_history self) in
    let! avg_rate_adjustment := np_mean_of "total_adjustment" recent_decisions in
    let! avg_final_rate := np_mean_of "final_rate" recent_decisions in
    let! avg_default_probability :=
      np_mean_of "default_probability" recent_decisions in
    Ok [("total_decisions", PInt (total_decisions (stats self)));
        ("avg_rate_adjustment", PFloat (py_round avg_rate_adjustment 4));
        ("avg_final_rate", PFloat (py_round avg_final_rate 4));
        ("total_expected_profit", PFloat (py_round (total_profit (stats self)) 2));
        ("avg_default_probability", PFloat (py_round avg_default_probability 4))].

(** A placeholder: [pass]. *)
Definition learn_from_outcome (decision_id : string) (actual_outcome : dict) : M unit :=
  ret tt.

(** [json.dump(self.decision_history, f, indent=2)] into a file opened
    for writing, which creates or replaces it. *)
Definition export_decisions (self : agent) (filepath : string) (fs : files)
    : result unit * files :=
  (Ok tt, <[filepath := JsonText (dump (decision_history self))]> fs).

(** [self.decision_history = json.load(f)] from a file opened for
    reading. *)
Definition load_decisions (filepath : string) (fs : files) : M unit :=
  match fs !! filepath with
  | None => lift (Raise (FileNotFoundError filepath))
  | Some OtherText => lift (Raise JSONDecodeError)
  | Some (JsonText doc) => modify (set_decision_history (load doc))
  end.

End DynamicPricingAgent.
Export DynamicPricingAgent.

(* ================================================================== *)
(** * Ints apart from floats

    [calculate_rate] once more, with an int kept apart from a float.
    An int is exact and of any size.  Where it meets a float in [-], [*]
    or [/] Python converts it to a float, and where it is divided by an
    int the quotient becomes a float: both raise [OverflowError] when
    the result is beyond the binary64 range.  The comparisons, [max] and
    [min] compare an int with a float exactly and never raise.  Floats
    stay exact rationals, and arithmetic on floats raises nothing (in
    binary64 it gives inf or nan instead).

    What is not repeated here reads no int as a float and is taken from
    [DynamicPricingAgent]: the market and profit adjustments and the
    reasons compare only, and [_log_decision] adds up the floats that
    were logged. *)

Module Overflow.

(** The least int that [float(n)] rejects: 2^1024 - 2^970, halfway
    between the largest binary64 number and 2^1024. *)
Definition float_limit : Q := inject_Z (2 ^ 1024 - 2 ^ 970).

(** [x] rounds to a finite binary64 number. *)
Definition fits (x : Q) : bool := Qltb (- float_limit) x && Qltb x float_limit.

(** A number: an int ([bool] included) or a float, and its value. *)
Record num : Type := {
  is_int : bool;
  value : Q
}.

Definition int (z : Z) : num := {| is_int := true; value := inject_Z z |}.
Definition flt (q : Q) : num := {| is_int := false; value := q |}.

(** The operand of an arithmetic operator; anything that is not a number
    makes it raise [TypeError]. *)
Definition to_number (v : pyval) : result num :=
  match v with
  | PInt z => Ok (int z)
  | PFloat q => Ok (flt q)
  | PBool b => Ok (int (Z.b2z b))
  | _ => Raise TypeError
  end.

(** The conversion of an operand that meets a float. *)
Definition to_float (n : num) : result Q :=
  if is_int n && negb (fits (value n)) then Raise OverflowError
  else Ok (value n).

(** [a - b] *)
Definition sub (a b : num) : result num :=
  if is_int a && is_int b then
    Ok {| is_int := true; value := value a - value b |}
  else
    let! x := to_float a in
    let! y := to_float b in
    Ok (flt (x - y)).

(** [a / b]: of two ints, the quotient rounded to a float; otherwise
    both are converted first. *)
Definition true_div (a b : num) : result Q :=
  if is_int a && is_int b then
    if Qeq_bool (value b) 0 then Raise ZeroDivisionError
    else if fits (value a / value b) then Ok (value a / value b)
    else Raise OverflowError
  else
    let! x := to_float a in
    let! y := to_float b in
    py_div x y.

(** [max(a, 1)]: [a], or the int 1. *)
Definition max_one (a : num) : num :=
  if Qltb (value a) 1 then int 1 else a.

(** The operand [v] of a product with a float. *)
Definition as_float (v : pyval) : result Q :=
  let! n := to_number v in
  to_float n.

(** [max(applicant['income'], 1)] *)
Definition income_or_one (applicant : dict) : result num :=
  let! income := getitem applicant "income" in
  let! income := to_number income in
  Ok (max_one income).

Definition normalize (credit_score country : pyval) : result Q :=
  if eq_str country "USA" then
    let! credit_score := to_number credit_score in
    let! above := sub credit_score (int 300) in
    let! width := sub (int 850) (int 300) in
    true_div above width
  else
    let! credit_score := to_number credit_score in
    let! above := sub credit_score (int 300) in
    let! width := sub (int 900) (int 300) in
    true_div above width.

(** [applicant.get('existing_debt', 0) / max(applicant['income'], 1)] *)
Definition debt_to_income (applicant : dict) : result Q :=
  let existing_debt := get_default applicant "existing_debt" (PInt 0) in
  let! income := income_or_one applicant in
  let! existing_debt := to_number existing_debt in
  true_div existing_debt income.

Definition _calculate_risk_adjustment (applicant : dict) : result Q :=
  let! credit_score := getitem applicant "credit_score" in
  let! country := getitem applicant "country" in
  let! normalized_score := normalize credit_score country in
  let! dti := debt_to_income applicant in
  let! loan_amount := getitem applicant "loan_amount" in
  let! income := income_or_one applicant in
  let! loan_amount := to_number loan_amount in
  let! lti := true_div loan_amount income in
  let risk_score :=
    (1 - normalized_score) * 0.5 + py_min dti 1.0 * 0.3 + py_min lti 1.0 * 0.2 in
  let adjustment := - 0.03 + risk_score * 0.11 in
  Ok adjustment.

Definition _estimate_default_probability (applicant : dict) : result Q :=
  let! credit_score := getitem applicant "credit_score" in
  let! country := getitem applicant "country" in
  let! normalized := normalize credit_score country in
  let default_prob := 0.25 * (1 - normalized) in
  let! dti := debt_to_income applicant in
  let default_prob := default_prob + dti * 0.1 in
  Ok (py_min default_prob 0.99).

(** Both products convert the loan amount. *)
Definition _calculate_expected_profit
    (loan_amount : pyval) (rate default_prob : Q) : result Q :=
  let! loan_amount := as_float loan_amount in
  let interest_income := loan_amount * rate in
  let loss_if_default := loan_amount * 0.4 in
  let expected_profit :=
    interest_income * (1 - default_prob) - loss_if_default * default_prob in
  Ok expected_profit.

(** Each weight is the operand of a product with an adjustment, which
    is a float. *)
Definition calculate_rate (applicant : dict) (now : string) : M dict :=
  do! self_config := gets config in
  do! decision := lift (
    let! country := getitem applicant "country" in
    let! base_rate := base_rates_get country 0.15 in
    let! risk_adjustment := _calculate_risk_adjustment applicant in
    let! market_adjustment := _calculate_market_adjustment applicant in
    let! profit_adjustment := _calculate_profit_adjustment applicant in
    let! risk_weight := getitem self_config "risk_weight" in
    let! risk_weight := as_float risk_weight in
    let! market_weight := getitem self_config "market_weight" in
    let! market_weight := as_float market_weight in
    let! profit_weight := getitem self_config "profit_weight" in
    let! profit_weight := as_float profit_weight in
    let total_adjustment :=
      risk_adjustment * risk_weight +
      market_adjustment * market_weight +
      profit_adjustment * profit_weight in
    let final_rate := base_rate + total_adjustment in
    let final_rate := py_max min_rate (py_min max_rate final_rate) in
    let! default_prob := _estimate_default_probability applicant in
    let! loan_amount := getitem applicant "loan_amount" in
    let! expected_profit :=
      _calculate_expected_profit loan_amount final_rate default_prob in
    let applicant_id := get_default applicant "id" (PStr "unknown") in
    let! country := getitem applicant "country" in
    let! credit_score := getitem applicant "credit_score" in
    let! loan_amount := getitem applicant "loan_amount" in
    let! reasoning :=
      _generate_reasoning risk_adjustment market_adjustment profit_adjustment
        applicant in
    Ok [("timestamp", PStr now);
        ("applicant_id", applicant_id);
        ("country", country);
        ("credit_score", credit_score);
        ("loan_amount", loan_amount);
        ("base_rate", PFloat (py_round base_rate 4));
        ("risk_adjustment", PFloat (py_round risk_adjustment 4));
        ("market_adjustment", PFloat (py_round market_adjustment 4));
        ("profit_adjustment", PFloat (py_round profit_adjustment 4));
        ("total_adjustment", PFloat (py_round total_adjustment 4));
        ("final_rate", PFloat (py_round final_rate 4));
        ("default_probability", PFloat (py_round default_prob 4));
        ("expected_profit", PFloat (py_round expected_profit 2));
        ("reasoning", PList (map PStr reasoning))]) in
  do! _ := _log_decision decision in
  ret decision.

End Overflow.

(* ================================================================== *)
(** * The arithmetic of a price in binary64

    The same expressions on IEEE binary64 numbers, for a record whose
    numbers are floats, or ints that convert to floats exactly, under the
    default weights.  An ordering comparison with nan is false, as in
    Python; no divisor can be zero, since [max(income, 1)] is the income
    (at least 1, or nan) or 1. *)

Module Binary64.

Set Warnings "-inexact-float".

Definition py_max (a b : float) : float := if (a <? b)%float then b else a.
Definition py_min (a b : float) : float := if (b <? a)%float then b else a.

Definition normalize (usa : bool) (credit_score : float) : float :=
  if usa then ((credit_score - 300) / (850 - 300))%float
  else ((credit_score - 300) / (900 - 300))%float.

Definition debt_to_income (income existing_debt : float) : float :=
  (existing_debt / py_max income 1)%float.

Definition _calculate_risk_adjustment
    (usa : bool) (credit_score income loan_amount existing_debt : float) : float :=
  let normalized_score := normalize usa credit_score in
  let dti := debt_to_income income existing_debt in
  let lti := (loan_amount / py_max income 1)%float in
  let risk_score :=
    ((1 - normalized_score) * 0.5 + py_min dti 1.0 * 0.3 + py_min lti 1.0 * 0.2)%float in
  (-0.03 + risk_score * 0.11)%float.

Definition _calculate_market_adjustment (usa : bool) (credit_score : float) : float :=
  if usa then
    if (750 <=? credit_score)%float then (-0.02)%float
    else if (700 <=? credit_score)%float then (-0.01)%float
    else 0.0%float
  else
    if (800 <=? credit_score)%float then (-0.02)%float
    else if (750 <=? credit_score)%float then (-0.01)%float
    else 0.0%float.

Definition _calculate_profit_adjustment (loan_amount : float) : float :=
  if (25000 <=? loan_amount)%float then (-0.005)%float
  else if (15000 <=? loan_amount)%float then (-0.0025)%float
  else 0.0%float.

Definition total_adjustment (risk market profit : float) : float :=
  (risk * 0.6 + market * 0.3 + profit * 0.1)%float.

Definition final_rate (base_rate total : float) : float :=
  py_max 0.08 (py_min 0.36 (base_rate + total)%float).

Definition _estimate_default_probability
    (usa : bool) (credit_score income existing_debt : float) : float :=
  let normalized := normalize usa credit_score in
  let default_prob := (0.25 * (1 - normalized))%float in
  let dti := debt_to_income income existing_debt in
  let default_prob := (default_prob + dti * 0.1)%float in
  py_min default_prob 0.99.

Definition _calculate_expected_profit (loan_amount rate default_prob : float) : float :=
  let interest_income := (loan_amount * rate)%float in
  let loss_if_default := (loan_amount * 0.4)%float in
  (interest_income * (1 - default_prob) - loss_if_default * default_prob)%float.

(** The rational a finite binary64 number is (0 for the others). *)
Definition to_Q (x : float) : Q :=
  match Prim2SF x with
  | S754_finite negative mantissa exponent =>
      let v := inject_Z (Zpos mantissa) * Qpower 2 exponent in
      if negative then - v else v
  | _ => 0
  end.

End Binary64.

(* ================================================================== *)
(** * agent_tab.py: the handlers of the pricing tab

    The module holds one agent, [pricing_agent], made by
    [DynamicPricingAgent()] when the module is loaded; the handlers run
    on it, so they are computations on an agent.  The five arguments are
    the numbers the sliders and number boxes pass.  The two texts a
    handler returns are formatted from the decision and the statistics;
    the formatting is left out, and a handler returns the values it
    reads for the first text and for the second, in the order of the
    text. *)

Module AgentTab.

(** A byte that continues a UTF-8 sequence. *)
Definition continuation (c : ascii) : bool :=
  match c with
  | Ascii _ _ _ _ _ _ b6 b7 => b7 && negb b6
  end.

Definition starts_inside (s : string) : bool :=
  match s with
  | String c _ => continuation c
  | EmptyString => false
  end.

(** The characters of a str. *)
Fixpoint code_points (s : string) : list string :=
  match s with
  | EmptyString => []
  | String c rest =>
      match code_points rest with
      | p :: ps =>
          if starts_inside rest then String c p :: ps else String c EmptyString :: p :: ps
      | [] => [String c EmptyString]
      end
  end.

(** [len(v)] *)
Definition py_len (v : pyval) : result Z :=
  match v with
  | PList items | PTuple items => Ok (Z.of_nat (List.length items))
  | PDict d => Ok (Z.of_nat (List.length d))
  | PStr s => Ok (Z.of_nat (List.length (code_points s)))
  | _ => Raise TypeError
  end.

(** [for x in v] *)
Definition py_iter (v : pyval) : result (list pyval) :=
  match v with
  | PList items | PTuple items => Ok items
  | PDict d => Ok (map PStr (keys d))
  | PStr s => Ok (map PStr (code_points s))
  | _ => Raise TypeError
  end.

(** [int(x)] on a number: towards zero. *)
Definition py_int (x : Q) : Z := Z.quot (Qnum x) (Z.pos (Qden x)).

(** [str(n)] on an int, as an f-string writes it. *)
Definition str (n : Z) : string := NilZero.string_of_int (Z.to_int n).

(** The values the first text is formatted from: seven fields of the
    decision, then the reasons. *)
Definition decision_values (decision : dict) : result (list pyval) :=
  let! base_rate := getitem decision "base_rate" in
  let! risk_adjustment := getitem decision "risk_adjustment" in
  let! market_adjustment := getitem decision "market_adjustment" in
  let! profit_adjustment := getitem decision "profit_adjustment" in
  let! final_rate := getitem decision "final_rate" in
  let! expected_profit := getitem decision "expected_profit" in
  let! default_probability := getitem decision "default_probability" in
  let! reasoning := getitem decision "reasoning" in
  let! reasons := py_iter reasoning in
  Ok ([base_rate; risk_adjustment; market_adjustment; profit_adjustment;
       final_rate; expected_profit; default_probability] ++ reasons).

(** The values the second text is formatted from. *)
Definition stats_values (stats : dict) : result (list pyval) :=
  let! total_decisions := getitem stats "total_decisions" in
  let! avg_rate_adjustment := getitem stats "avg_rate_adjustment" in
  let! avg_final_rate := getitem stats "avg_final_rate" in
  let! total_expected_profit := getitem stats "total_expected_profit" in
  Ok [total_decisions; avg_rate_adjustment; avg_final_rate; total_expected_profit].

(** What the two handlers share; they differ in the prefix of the id,
    in the country, and in the currency sign of the texts. *)
Definition pricing_handler (prefix country : string)
    (credit_score annual_income loan_amount existing_debt employment_years : Q)
    (now : string) : M (list pyval * list pyval) :=
  do! history := gets decision_history in
  do! n := lift (py_len history) in
  let applicant :=
    [("id", PStr (String.append prefix (str (n + 1))));
     ("country", PStr country);
     ("credit_score", PInt (py_int credit_score));
     ("income", PFloat annual_income);
     ("loan_amount", PFloat loan_amount);
     ("existing_debt", PFloat existing_debt);
     ("employment_years", PInt (py_int employment_years))] in
  do! decision := calculate_rate applicant now in
  do! output := lift (decision_values decision) in
  do! stats := gets get_statistics in
  do! stats := lift stats in
  do! stats_output := lift (stats_values stats) in
  ret (output, stats_output).

Definition agent_pricing_usa := pricing_handler "USA_" "USA".

Definition agent_pricing_india := pricing_handler "IND_" "India".

(** The agents the tab can hold: the new one, and the one a handler
    leaves, whether it returned or raised. *)
Inductive tab_agent : agent -> Prop :=
| tab_new : tab_agent (__init__ None)
| tab_usa (self self' : agent) (a b c d e : Q) (now : string)
    (outcome : result (list pyval * list pyval)) :
    tab_agent self ->
    agent_pricing_usa a b c d e now self = (outcome, self') ->
    tab_agent self'
| tab_india (self self' : agent) (a b c d e : Q) (now : string)
    (outcome : result (list pyval * list pyval)) :
    tab_agent self ->
    agent_pricing_india a b c d e now self = (outcome, self') ->
    tab_agent self'.

End AgentTab.
Export AgentTab.

(* ================================================================== *)
(** * Vocabulary of the properties *)

(** ** Applicant records *)

Definition is_number (v : pyval) : bool :=
  match v with
  | PInt _ | PFloat _ => true
  | _ => false
  end.

Definition is_str (v : pyval) : bool :=
  match v with
  | PStr _ => true
  | _ => false
  end.

(** The key is present and its value passes [check]. *)
Definition has (check : pyval -> bool) (key : string) (d : dict) : bool :=
  match dict_get key d with
  | Some v => check v
  | None => false
  end.

(** The key is absent, or its value passes [check]. *)
Definition has_opt (check : pyval -> bool) (key : string) (d : dict) : bool :=
  match dict_get key d with
  | Some v => check v
  | None => true
  end.

Definition required_fields : list string :=
  ["country"; "credit_score"; "income"; "loan_amount"].

(** The first required field the record lacks, in the order
    [calculate_rate] looks them up. *)
Definition first_missing (applicant : dict) : option string :=
  find (fun key => negb (has (fun _ => true) key applicant)) required_fields.

(** Every field that pricing reads and that is there has the type the
    data model gives it. *)
Definition typed_where_present (applicant : dict) : bool :=
  has_opt is_str "country" applicant &&
  has_opt is_number "credit_score" applicant &&
  has_opt is_number "income" applicant &&
  has_opt is_number "loan_amount" applicant &&
  has_opt is_number "existing_debt" applicant.

(** The required fields are present, the country is a string and the
    others are numbers; [existing_debt] is a number when it is there. *)
Definition numeric_applicant (applicant : dict) : bool :=
  has is_str "country" applicant &&
  has is_number "credit_score" applicant &&
  has is_number "income" applicant &&
  has is_number "loan_amount" applicant &&
  has_opt is_number "existing_debt" applicant.

(** [applicant[key]] read as a number. *)
Definition num_field (key : string) (d : dict) : result Q :=
  let! v := getitem d key in
  to_num v.

(** The range of scores a country declares. *)
Definition score_range (country : pyval) : Q * Q :=
  if eq_str country "USA" then (300, 850) else (300, 900).

(** A valid applicant: the score lies in the range of the country,
    income and existing debt are not negative. *)
Definition valid_applicant (applicant : dict) : bool :=
  match dict_get "country" applicant,
        num_field "credit_score" applicant,
        num_field "income" applicant,
        to_num (get_default applicant "existing_debt" (PInt 0)) with
  | Some country, Ok score, Ok income, Ok debt =>
      Qle_bool (fst (score_range country)) score &&
      Qle_bool score (snd (score_range country)) &&
      Qle_bool 0 income &&
      Qle_bool 0 debt
  | _, _, _, _ => false
  end.

(** The applicant of the module's own example run. *)
Definition usa_applicant : dict :=
  [("id", PStr "USA_001");
   ("country", PStr "USA");
   ("credit_score", PInt 720);
   ("income", PInt 85000);
   ("loan_amount", PInt 15000);
   ("employment_years", PInt 5);
   ("existing_debt", PInt 12000)].

(** An applicant at the edge of the domain: no income, no debt, no loan,
    and a score above the CIBIL range. *)
Definition edge_applicant : dict :=
  [("country", PStr "India");
   ("credit_score", PInt 950);
   ("income", PInt 0);
   ("loan_amount", PInt 0);
   ("existing_debt", PInt 0)].

(** The example applicant without its income. *)
Definition applicant_without_income : dict :=
  [("id", PStr "USA_001");
   ("country", PStr "USA");
   ("credit_score", PInt 720);
   ("loan_amount", PInt 15000);
   ("employment_years", PInt 5);
   ("existing_debt", PInt 12000)].

(** The example applicant in a country without a base rate. *)
Definition brazil_applicant : dict :=
  [("id", PStr "BRA_001");
   ("country", PStr "Brazil");
   ("credit_score", PInt 720);
   ("income", PInt 85000);
   ("loan_amount", PInt 15000);
   ("existing_debt", PInt 12000)].

(** A clock reading for the example runs. *)
Definition example_now : string := "2025-01-01T09:00:00".

(** ** What pricing computes *)

(** The quantities [calculate_rate] computes before it rounds them into
    the decision. *)
Record pricing : Type := {
  p_country : pyval;
  p_credit_score : pyval;
  p_loan_amount : pyval;
  p_base_rate : Q;
  p_risk : Q;
  p_market : Q;
  p_profit : Q;
  p_risk_weight : Q;
  p_market_weight : Q;
  p_profit_weight : Q;
  p_default_prob : Q;
  p_expected_profit : Q;
  p_reasoning : list string
}.

Definition p_total (p : pricing) : Q :=
  p_risk p * p_risk_weight p +
  p_market p * p_market_weight p +
  p_profit p * p_profit_weight p.

Definition p_final (p : pricing) : Q :=
  py_max min_rate (py_min max_rate (p_base_rate p + p_total p)).

Definition priced (cfg applicant : dict) (p : pricing) : Prop :=
  getitem applicant "country" = Ok (p_country p) /\
  getitem applicant "credit_score" = Ok (p_credit_score p) /\
  getitem applicant "loan_amount" = Ok (p_loan_amount p) /\
  base_rates_get (p_country p) 0.15 = Ok (p_base_rate p) /\
  _calculate_risk_adjustment applicant = Ok (p_risk p) /\
  _calculate_market_adjustment applicant = Ok (p_market p) /\
  _calculate_profit_adjustment applicant = Ok (p_profit p) /\
  num_field "risk_weight" cfg = Ok (p_risk_weight p) /\
  num_field "market_weight" cfg = Ok (p_market_weight p) /\
  num_field "profit_weight" cfg = Ok (p_profit_weight p) /\
  _estimate_default_probability applicant = Ok (p_default_prob p) /\
  _calculate_expected_profit (p_loan_amount p) (p_final p) (p_default_prob p)
    = Ok (p_expected_profit p) /\
  _generate_reasoning (p_risk p) (p_market p) (p_profit p) applicant
    = Ok (p_reasoning p).

(** The decision record built from them. *)
Definition decision_of (now : string) (applicant_id : pyval) (p : pricing) : dict :=
  [("timestamp", PStr now);
   ("applicant_id", applicant_id);
   ("country", p_country p);
   ("credit_score", p_credit_score p);
   ("loan_amount", p_loan_amount p);
   ("base_rate", PFloat (py_round (p_base_rate p) 4));
   ("risk_adjustment", PFloat (py_round (p_risk p) 4));
   ("market_adjustment", PFloat (py_round (p_market p) 4));
   ("profit_adjustment", PFloat (py_round (p_profit p) 4));
   ("total_adjustment", PFloat (py_round (p_total p) 4));
   ("final_rate", PFloat (py_round (p_final p) 4));
   ("default_probability", PFloat (py_round (p_default_prob p) 4));
   ("expected_profit", PFloat (py_round (p_expected_profit p) 2));
   ("reasoning", PList (map PStr (p_reasoning p)))].

(** [d[key]] when it is a float. *)
Definition float_field (key : string) (d : dict) : option Q :=
  match dict_get key d with
  | Some (PFloat q) => Some q
  | _ => None
  end.

(** [d[key]] is a float of value [q]. *)
Definition field_equals (key : string) (d : dict) (q : Q) : Prop :=
  exists x, float_field key d = Some x /\ x == q.

(** [x] is [v] to four decimals: within half a unit of the fourth. *)
Definition approx (x v : Q) : Prop :=
  v - 0.00005 <= x <= v + 0.00005.

(** [x] and [y] differ by at most 10^-15. *)
Definition close (x y : Q) : Prop :=
  - (1 # 1000000000000000) <= x - y <= 1 # 1000000000000000.

(** ** Outcomes *)

(** The outcome is an exception of the class called [name]. *)
Definition raises_class {A S : Type} (outcome : result A * S) (name : string) : Prop :=
  exists e s, outcome = (Raise e, s) /\ exn_name e = name.

(** A computation that raises no [ArithmeticError]. *)
Definition no_arithmetic_error {A : Type} (r : result A) : Prop :=
  forall e, r = Raise e -> is_arithmetic_error e = false.

(** ** The ledger *)

(** [v] is a dict whose [key] holds a number. *)
Definition numeric_at (key : string) (v : pyval) : bool :=
  match v with
  | PDict d => has is_number key d
  | _ => false
  end.

(** The number [v[key]] holds (0 when it holds none). *)
Definition value_at (key : string) (v : pyval) : Q :=
  match v with
  | PDict d =>
      match dict_get key d with
      | Some (PInt z) => inject_Z z
      | Some (PFloat q) => q
      | _ => 0
      end
  | _ => 0
  end.

Definition values_at (key : string) (ds : list pyval) : list Q :=
  map (value_at key) ds.

(** A dict with the four numbers the ledger reads from a decision. *)
Definition ledger_entry (v : pyval) : bool :=
  numeric_at "total_adjustment" v &&
  numeric_at "final_rate" v &&
  numeric_at "default_probability" v &&
  numeric_at "expected_profit" v.

(** An agent on which pricing can be logged: the three weights are
    numbers and the history is a list of ledger entries. *)
Definition agent_ready (self : agent) : bool :=
  has is_number "risk_weight" (config self) &&
  has is_number "market_weight" (config self) &&
  has is_number "profit_weight" (config self) &&
  match decision_history self with
  | PList h => forallb ledger_entry h
  | _ => false
  end.

(** [_log_decision] on each decision in turn. *)
Fixpoint log_all (decisions : list dict) : M unit :=
  match decisions with
  | [] => ret tt
  | d :: rest => do! _ := _log_decision d in log_all rest
  end.

(** [calculate_rate] on each applicant in turn, with the clock reading
    of each call; the decisions returned, in order. *)
Fixpoint price_all (requests : list (dict * string)) : M (list dict) :=
  match requests with
  | [] => ret []
  | (applicant, now) :: rest =>
      do! decision := calculate_rate applicant now in
      do! decisions := price_all rest in
      ret (decision :: decisions)
  end.

(** The example agent after pricing the example applicant once. *)
Definition agent_after_one : agent :=
  snd (calculate_rate usa_applicant example_now (__init__ None)).

(** The decision of the example run. *)
Definition decision_A : dict :=
  match fst (calculate_rate usa_applicant example_now (__init__ None)) with
  | Ok decision => decision
  | Raise _ => []
  end.

(** The file a new agent exports: an empty array. *)
Definition empty_ledger : files :=
  snd (export_decisions (__init__ None) "ledger.json" ∅).

(** The file the example agent exports after one decision. *)
Definition ledger_of_one : files :=
  snd (export_decisions agent_after_one "ledger.json" ∅).

(** The example agent after it then loaded the empty ledger. *)
Definition agent_emptied : agent :=
  snd (load_decisions "ledger.json" empty_ledger agent_after_one).

(** ** JSON-shaped values *)

Fixpoint distinct (l : list string) : bool :=
  match l with
  | [] => true
  | k :: rest => negb (existsb (String.eqb k) rest) && distinct rest
  end.

(** Values that [json] writes and reads back unchanged: no tuple
    anywhere, and every dict is a proper one (no key twice). *)
Fixpoint json_shaped (v : pyval) : bool :=
  match v with
  | PTuple _ => false
  | PList items => forallb json_shaped items
  | PDict d => distinct (map fst d) && forallb (fun kv => json_shaped (snd kv)) d
  | _ => true
  end.

(** The applicant fields copied into a decision are JSON-shaped, as
    they are in the data model (strings and numbers). *)
Definition json_applicant (applicant : dict) : bool :=
  has_opt json_shaped "id" applicant &&
  has_opt json_shaped "country" applicant &&
  has_opt json_shaped "credit_score" applicant &&
  has_opt json_shaped "loan_amount" applicant.

(** ** Induction on values and documents

    A value holds lists of values; the induction hypothesis has to
    cover their items. *)

Section PyvalInduction.

Variable P : pyval -> Prop.
Hypothesis HNone : P PNone.
Hypothesis HBool : forall b, P (PBool b).
Hypothesis HInt : forall z, P (PInt z).
Hypothesis HFloat : forall q, P (PFloat q).
Hypothesis HStr : forall s, P (PStr s).
Hypothesis HList : forall items, List.Forall P items -> P (PList items).
Hypothesis HTuple : forall items, List.Forall P items -> P (PTuple items).
Hypothesis HDict : forall d, List.Forall (fun kv => P (snd kv)) d -> P (PDict d).

Fixpoint pyval_induction (v : pyval) : P v :=
  match v with
  | PNone => HNone
  | PBool b => HBool b
  | PInt z => HInt z
  | PFloat q => HFloat q
  | PStr s => HStr s
  | PList items =>
      HList items
        ((fix all (l : list pyval) : List.Forall P l :=
            match l with
            | [] => @List.Forall_nil _ P
            | x :: rest => @List.Forall_cons _ P x rest (pyval_induction x) (all rest)
            end) items)
  | PTuple items =>
      HTuple items
        ((fix all (l : list pyval) : List.Forall P l :=
            match l with
            | [] => @List.Forall_nil _ P
            | x :: rest => @List.Forall_cons _ P x rest (pyval_induction x) (all rest)
            end) items)
  | PDict d =>
      HDict d
        ((fix all (l : list (string * pyval))
            : List.Forall (fun kv => P (snd kv)) l :=
            match l with
            | [] => @List.Forall_nil _ _
            | kv :: rest =>
                @List.Forall_cons _ (fun kv => P (snd kv)) kv rest
                  (pyval_induction (snd kv)) (all rest)
            end) d)
  end.

End PyvalInduction.

Section JsonInduction.

Variable P : json -> Prop.
Hypothesis HNull : P JNull.
Hypothesis HBool : forall b, P (JBool b).
Hypothesis HInt : forall z, P (JInt z).
Hypothesis HFloat : forall q, P (JFloat q).
Hypothesis HString : forall s, P (JString s).
Hypothesis HArray : forall elements, List.Forall P elements -> P (JArray elements).
Hypothesis HObject :
  forall members, List.Forall (fun kv => P (snd kv)) members -> P (JObject members).

Fixpoint json_induction (j : json) : P j :=
  match j with
  | JNull => HNull
  | JBool b => HBool b
  | JInt z => HInt z
  | JFloat q => HFloat q
  | JString s => HString s
  | JArray elements =>
      HArray elements
        ((fix all (l : list json) : List.Forall P l :=
            match l with
            | [] => @List.Forall_nil _ P
            | x :: rest => @List.Forall_cons _ P x rest (json_induction x) (all rest)
            end) elements)
  | JObject members =>
      HObject members
        ((fix all (l : list (string * json))
            : List.Forall (fun kv => P (snd kv)) l :=
            match l with
            | [] => @List.Forall_nil _ _
            | kv :: rest =>
                @List.Forall_cons _ (fun kv => P (snd kv)) kv rest
                  (json_induction (snd kv)) (all rest)
            end) members)
  end.

End JsonInduction.

(** ** The agents a program can come to hold

    A new agent, then any sequence of [calculate_rate] on records whose
    copied fields are JSON-shaped and of [load_decisions], whatever
    their outcomes. *)
Inductive reachable : agent -> Prop :=
| reachable_init (cfg : option dict) :
    reachable (__init__ cfg)
| reachable_calculate_rate (self self' : agent) (applicant : dict)
    (now : string) (outcome : result dict) :
    reachable self ->
    json_applicant applicant = true ->
    calculate_rate applicant now self = (outcome, self') ->
    reachable self'
| reachable_load_decisions (self self' : agent) (filepath : string)
    (fs : files) (outcome : result unit) :
    reachable self ->
    load_decisions filepath fs self = (outcome, self') ->
    reachable self'.

(* ================================================================== *)
(** * Further vocabulary *)

(** ** The reasons of a decision *)

Definition risk_reasons : list string :=
  ["‚úÖ Excellent credit profile - reduced risk premium";
   "‚ö†Ô∏è Higher risk profile - increased rate for protection";
   "Standard risk assessment"].

Definition market_reason : string :=
  "üéØ Competitive rate to win quality applicant".

Definition profit_reason : string :=
  "üí∞ Volume discount for larger loan amount".

(** ** Records that differ in one field *)

(** The two records hold the same value, or both none, under every key
    but [key]. *)
Definition same_but (key : string) (a1 a2 : dict) : Prop :=
  forall k, k <> key -> dict_get k a1 = dict_get k a2.

(** ** Agents and configs at the edges *)

Definition is_list (v : pyval) : bool :=
  match v with
  | PList _ => true
  | _ => false
  end.

Definition weights : list string :=
  ["risk_weight"; "market_weight"; "profit_weight"].

(** The first weight the config lacks, in the order [calculate_rate]
    reads them. *)
Definition first_missing_weight (cfg : dict) : option string :=
  find (fun key => negb (has (fun _ => true) key cfg)) weights.

(** Every weight that is there is a number. *)
Definition weights_typed_where_present (cfg : dict) : bool :=
  has_opt is_number "risk_weight" cfg &&
  has_opt is_number "market_weight" cfg &&
  has_opt is_number "profit_weight" cfg.

(** [v[key]] is no bool, which numpy would count as a number, and no
    array, which numpy would reshape. *)
Definition flat_at (key : string) (v : pyval) : bool :=
  match subscript v key with
  | Ok (PBool _) | Ok (PList _) | Ok (PTuple _) => false
  | _ => true
  end.

(** The agent [_log_decision] leaves when it appended the decision and
    counted it, and then raised. *)
Definition half_logged (decision : dict) (h : list pyval) (self : agent) : agent :=
  {| config := config self;
     decision_history := PList (h ++ [PDict decision]);
     stats :=
       {| total_decisions := total_decisions (stats self) + 1;
          avg_adjustment := avg_adjustment (stats self);
          total_profit := total_profit (stats self);
          default_rate := default_rate (stats self) |} |}.

(** A ledger with one entry that has no field at all. *)
Definition broken_ledger : files :=
  {["ledger.json" := JsonText (JArray [JObject []])]}.

(** A file that holds an object, not an array. *)
Definition object_ledger : files :=
  {["ledger.json" := JsonText (JObject [("version", JInt 1)])]}.

(** A new agent after it loaded the broken ledger. *)
Definition agent_with_broken_entry : agent :=
  snd (load_decisions "ledger.json" broken_ledger (__init__ None)).

(** A new agent after it loaded the object. *)
Definition agent_with_object : agent :=
  snd (load_decisions "ledger.json" object_ledger (__init__ None)).

(** A config without the market weight. *)
Definition config_without_market : dict :=
  [("risk_weight", PFloat 0.6); ("profit_weight", PFloat 0.1)].

(** ** Documents with proper objects *)

(** No object of the document repeats a name. *)
Fixpoint json_proper (j : json) : bool :=
  match j with
  | JArray elements => forallb json_proper elements
  | JObject members =>
      distinct (map fst members) && forallb (fun kv => json_proper (snd kv)) members
  | _ => true
  end.


(** ** What the tab formats *)

(** The values of the two texts can be formatted: seven numbers, then
    one to four reasons that are strings; then the count, which is
    [count], and three numbers. *)
Definition formattable (output stats_output : list pyval) (count : Z) : Prop :=
  forallb is_number (firstn 7 output) = true /\
  forallb is_str (skipn 7 output) = true /\
  (8 <= List.length output <= 11)%nat /\
  exists x y z,
    stats_output = [PInt count; PFloat x; PFloat y; PFloat z].

(** The handler returns its two texts, and logs one decision, of the
    given id and country. *)
Definition handled (outcome : result (list pyval * list pyval) * agent)
    (h : list pyval) (applicant_id country : string) : Prop :=
  exists output stats_output decision self',
    outcome = (Ok (output, stats_output), self') /\
    formattable output stats_output (Z.of_nat (List.length h) + 1) /\
    decision_history self' = PList (h ++ [PDict decision]) /\
    dict_get "applicant_id" decision = Some (PStr applicant_id) /\
    dict_get "country" decision = Some (PStr country).
(** ** Ints within the range of a float *)

(** The value is no int too large for a float. *)
Definition in_range (v : pyval) : bool :=
  match v with
  | PInt z => Overflow.fits (inject_Z z)
  | _ => true
  end.

(** The ints that pricing converts, of the record and of the config,
    are within range. *)
Definition ints_in_range (applicant cfg : dict) : bool :=
  has_opt in_range "credit_score" applicant &&
  has_opt in_range "income" applicant &&
  has_opt in_range "loan_amount" applicant &&
  has_opt in_range "existing_debt" applicant &&
  has_opt in_range "risk_weight" cfg &&
  has_opt in_range "market_weight" cfg &&
  has_opt in_range "profit_weight" cfg.

Definition is_float (v : pyval) : bool :=
  match v with
  | PFloat _ => true
  | _ => false
  end.

(** [v] is a dict whose [key] holds a float. *)
Definition holds_float (key : string) (v : pyval) : bool :=
  match v with
  | PDict d => has is_float key d
  | _ => false
  end.

(** The total adjustments of a history that is a list are floats, as
    those are that [calculate_rate] logs: [np.mean] then adds up floats.
    What numpy does with ints beyond its own integer types is not
    modelled. *)
Definition float_ledger (self : agent) : bool :=
  match decision_history self with
  | PList h => forallb (holds_float "total_adjustment") h
  | _ => true
  end.

(** The run with ints apart agrees with the run on exact numbers, or
    raises [OverflowError]; it agrees when [within] holds. *)
Definition refines {A : Type} (within : Prop) (r' r : result A) : Prop :=
  (within -> r' = r) /\ (r' = r \/ r' = Raise OverflowError).

(** The example applicant with a credit score of 10^400. *)
Definition huge_score_applicant : dict :=
  dict_set "credit_score" (PInt (10 ^ 400)) usa_applicant.

(** The example applicant with a tuple for an id. *)
Definition tuple_id_applicant : dict :=
  dict_set "id" (PTuple [PStr "USA"; PInt 1]) usa_applicant.

(** The new agent after pricing it. *)
Definition agent_with_tuple : agent :=
  snd (calculate_rate tuple_id_applicant example_now (__init__ None)).

(* ================================================================== *)
(** * Comparisons, clamping and rounding *)

Lemma Qltb_lt (x y : Q) : Qltb x y = true <-> x < y.
Proof.
  unfold Qltb. rewrite Qlt_alt.
  destruct (Qcompare x y); split; congruence.
Qed.

Lemma Qltb_ge (x y : Q) : Qltb x y = false <-> y <= x.
Proof.
  split; intro H.
  - apply Qnot_lt_le. intro Hlt. apply Qltb_lt in Hlt. congruence.
  - destruct (Qltb x y) eqn:E; trivial.
    apply Qltb_lt in E. exfalso. exact (Qle_not_lt _ _ H E).
Qed.

Lemma Qgeb_ge (x y : Q) : Qgeb x y = true <-> y <= x.
Proof.
  unfold Qgeb. rewrite negb_true_iff. apply Qltb_ge.
Qed.

Lemma Qgeb_lt (x y : Q) : Qgeb x y = false <-> x < y.
Proof.
  unfold Qgeb. rewrite negb_false_iff. apply Qltb_lt.
Qed.

Lemma py_max_cases (a b : Q) :
  (a < b /\ py_max a b = b) \/ (b <= a /\ py_max a b = a).
Proof.
  unfold py_max. destruct (Qltb a b) eqn:E.
  - left. split; trivial. now apply Qltb_lt.
  - right. split; trivial. now apply Qltb_ge.
Qed.

Lemma py_min_cases (a b : Q) :
  (b < a /\ py_min a b = b) \/ (a <= b /\ py_min a b = a).
Proof.
  unfold py_min. destruct (Qltb b a) eqn:E.
  - left. split; trivial. now apply Qltb_lt.
  - right. split; trivial. now apply Qltb_ge.
Qed.

Lemma py_max_lb (a b : Q) : a <= py_max a b /\ b <= py_max a b.
Proof.
  destruct (py_max_cases a b) as [[H ->] | [H ->]]; lra.
Qed.

Lemma py_min_ub (a b : Q) : py_min a b <= a /\ py_min a b <= b.
Proof.
  destruct (py_min_cases a b) as [[H ->] | [H ->]]; lra.
Qed.

(** [max(lo, min(hi, x))] is a clamp whenever [lo <= hi]. *)
Lemma clamp_bounds (lo hi x : Q) :
  lo <= hi -> lo <= py_max lo (py_min hi x) <= hi.
Proof.
  intro Hle.
  destruct (py_max_cases lo (py_min hi x)) as [[H ->] | [H ->]];
    pose proof (py_min_ub hi x); lra.
Qed.

Lemma round_half_even_lower (x : Q) (n : Z) :
  inject_Z n <= x -> (n <= round_half_even x)%Z.
Proof.
  intro H. unfold round_half_even.
  assert (Hf : (n <= Qfloor x)%Z).
  { rewrite <- (Qfloor_Z n). now apply Qfloor_resp_le. }
  destruct (Qcompare _ _); [destruct (Z.even _) | | ]; lia.
Qed.

Lemma round_half_even_upper (x : Q) (n : Z) :
  x <= inject_Z n -> (round_half_even x <= n)%Z.
Proof.
  intro H. unfold round_half_even.
  pose proof (Qfloor_le x) as Hfl.
  assert (Hf : (Qfloor x <= n)%Z) by (rewrite Zle_Qle; lra).
  destruct (Qcompare (x - inject_Z (Qfloor x)) (1 # 2)) eqn:E.
  - apply Qeq_alt in E.
    assert (Hlt : (Qfloor x < n)%Z) by (rewrite Zlt_Qlt; lra).
    destruct (Z.even _); lia.
  - lia.
  - apply Qgt_alt in E.
    assert (Hlt : (Qfloor x < n)%Z) by (rewrite Zlt_Qlt; lra).
    lia.
Qed.

Lemma scaled_le_l (n : Z) (p : positive) (x : Q) :
  n # p <= x <-> inject_Z n <= x * inject_Z (Zpos p).
Proof.
  unfold Qle, Qmult, inject_Z. simpl.
  rewrite !Z.mul_1_r, Pos.mul_1_r.
  split; intro H; nia.
Qed.

Lemma scaled_le_r (n : Z) (p : positive) (x : Q) :
  x <= n # p <-> x * inject_Z (Zpos p) <= inject_Z n.
Proof.
  unfold Qle, Qmult, inject_Z. simpl.
  rewrite !Z.mul_1_r, Pos.mul_1_r.
  split; intro H; nia.
Qed.

(** Rounding to [d] decimals never crosses a number that has at most
    [d] decimals. *)
Lemma py_round_lower (x : Q) (n : Z) (d : nat) :
  n # pow10 d <= x -> n # pow10 d <= py_round x d.
Proof.
  intro H. apply scaled_le_l in H. apply round_half_even_lower in H.
  unfold py_round, Qle. simpl. nia.
Qed.

Lemma py_round_upper (x : Q) (n : Z) (d : nat) :
  x <= n # pow10 d -> py_round x d <= n # pow10 d.
Proof.
  intro H. apply scaled_le_r in H. apply round_half_even_upper in H.
  unfold py_round, Qle. simpl. nia.
Qed.

Lemma py_round_rate_bounds (x : Q) :
  min_rate <= x <= max_rate -> min_rate <= py_round x 4 <= max_rate.
Proof.
  intros [Hlo Hhi]. split.
  - assert (E : min_rate == 800 # pow10 4) by reflexivity.
    rewrite E in *. now apply py_round_lower.
  - assert (E : max_rate == 3600 # pow10 4) by reflexivity.
    rewrite E in *. now apply py_round_upper.
Qed.

(** Rounding sees the value of a rational, not its representation. *)
Lemma round_half_even_comp (x y : Q) :
  x == y -> round_half_even x = round_half_even y.
Proof.
  intro E. unfold round_half_even.
  rewrite (Qfloor_comp _ _ E).
  assert (Ec : Qcompare (x - inject_Z (Qfloor y)) (1 # 2) =
               Qcompare (y - inject_Z (Qfloor y)) (1 # 2)).
  { apply Qcompare_comp; [ rewrite E | ]; reflexivity. }
  now rewrite Ec.
Qed.

Lemma py_round_comp (x y : Q) (d : nat) :
  x == y -> py_round x d = py_round y d.
Proof.
  intro E. unfold py_round. f_equal.
  apply round_half_even_comp. now rewrite E.
Qed.

(* ================================================================== *)
(** * Outcomes of the rate components *)

Ltac bind_inv H :=
  match type of H with
  | bind ?m _ = _ =>
      let E := fresh "E" in
      destruct m eqn:E; cbn [bind] in H; [ | discriminate H ]
  end.

Lemma num_field_inv (key : string) (d : dict) (q : Q) :
  num_field key d = Ok q <->
  exists v, getitem d key = Ok v /\ to_num v = Ok q.
Proof.
  unfold num_field. split.
  - intro H. bind_inv H. eauto.
  - intros (v & -> & H). exact H.
Qed.

Lemma has_inv (check : pyval -> bool) (key : string) (d : dict) :
  has check key d = true ->
  exists v, dict_get key d = Some v /\ getitem d key = Ok v /\ check v = true.
Proof.
  unfold has, getitem. destruct (dict_get key d) as [v|]; [ | discriminate ].
  intro H. eauto.
Qed.

Lemma to_num_number (v : pyval) :
  is_number v = true -> exists q, to_num v = Ok q.
Proof.
  destruct v; try discriminate; simpl; eauto.
Qed.

Lemma has_number_field (key : string) (d : dict) :
  has is_number key d = true -> exists q, num_field key d = Ok q.
Proof.
  intro H. apply has_inv in H as (v & _ & Hg & Hv).
  apply to_num_number in Hv as [q Hq].
  exists q. apply num_field_inv. eauto.
Qed.

Lemma py_div_ok (x y : Q) : ~ y == 0 -> py_div x y = Ok (x / y).
Proof.
  intro H. unfold py_div.
  destruct (Qeq_bool y 0) eqn:E; trivial.
  apply Qeq_bool_iff in E. contradiction.
Qed.

Lemma py_div_inv (x y q : Q) : py_div x y = Ok q -> q = x / y /\ ~ y == 0.
Proof.
  unfold py_div. destruct (Qeq_bool y 0) eqn:E; [ discriminate | ].
  intro H. injection H as <-. split; trivial. now apply Qeq_bool_neq.
Qed.

(** [max(applicant['income'], 1)] is the income, or 1 when the income is
    below 1; in both cases it is at least 1. *)
Lemma income_or_one_inv (applicant : dict) (m : Q) :
  income_or_one applicant = Ok m ->
  exists income,
    num_field "income" applicant = Ok income /\
    m = py_max income 1 /\ 1 <= m /\ (income <= 1 -> m == 1).
Proof.
  unfold income_or_one. intro H. do 2 bind_inv H. injection H as <-.
  exists a0. split; [ apply num_field_inv; eauto | ].
  split; trivial.
  destruct (py_max_cases a0 1) as [[Hlt ->] | [Hle ->]]; split; lra.
Qed.

Lemma income_or_one_ok (applicant : dict) (income : Q) :
  num_field "income" applicant = Ok income ->
  income_or_one applicant = Ok (py_max income 1).
Proof.
  intro H. apply num_field_inv in H as (v & Hg & Hv).
  unfold income_or_one. rewrite Hg. cbn [bind]. rewrite Hv. reflexivity.
Qed.

Lemma normalize_ok (credit_score country : pyval) (score : Q) :
  to_num credit_score = Ok score ->
  normalize credit_score country =
    Ok ((score - 300) / (if eq_str country "USA" then 850 - 300 else 900 - 300)).
Proof.
  intro H. unfold normalize. rewrite H. cbn [bind].
  destruct (eq_str country "USA"); reflexivity.
Qed.

Lemma normalize_inv (credit_score country : pyval) (n : Q) :
  normalize credit_score country = Ok n ->
  exists score,
    to_num credit_score = Ok score /\
    n = (score - 300) / (if eq_str country "USA" then 850 - 300 else 900 - 300).
Proof.
  intro H. unfold normalize in H.
  destruct (eq_str country "USA"); bind_inv H;
    apply py_div_inv in H as [-> _]; eauto.
Qed.

Lemma debt_to_income_inv (applicant : dict) (dti : Q) :
  debt_to_income applicant = Ok dti ->
  exists debt income,
    to_num (get_default applicant "existing_debt" (PInt 0)) = Ok debt /\
    num_field "income" applicant = Ok income /\
    dti = debt / py_max income 1.
Proof.
  unfold debt_to_income. intro H. do 2 bind_inv H.
  apply income_or_one_inv in E as (income & Hi & -> & _).
  apply py_div_inv in H as [-> _]. eauto.
Qed.

Lemma debt_to_income_ok (applicant : dict) (debt income : Q) :
  to_num (get_default applicant "existing_debt" (PInt 0)) = Ok debt ->
  num_field "income" applicant = Ok income ->
  debt_to_income applicant = Ok (debt / py_max income 1).
Proof.
  intros Hd Hi. unfold debt_to_income.
  rewrite (income_or_one_ok _ _ Hi). cbn [bind]. rewrite Hd. cbn [bind].
  apply py_div_ok. pose proof (py_max_lb income 1). lra.
Qed.

Lemma existing_debt_number (applicant : dict) :
  has_opt is_number "existing_debt" applicant = true ->
  exists debt, to_num (get_default applicant "existing_debt" (PInt 0)) = Ok debt.
Proof.
  unfold has_opt, get_default.
  destruct (dict_get "existing_debt" applicant) as [v|].
  - apply to_num_number.
  - intros _. simpl. eauto.
Qed.

Section NumericApplicant.

Variable applicant : dict.
Hypothesis Hnum : numeric_applicant applicant = true.

Lemma numeric_applicant_fields :
  exists c score income loan debt v_score v_loan,
    getitem applicant "country" = Ok (PStr c) /\
    getitem applicant "credit_score" = Ok v_score /\
    to_num v_score = Ok score /\
    num_field "income" applicant = Ok income /\
    getitem applicant "loan_amount" = Ok v_loan /\
    to_num v_loan = Ok loan /\
    to_num (get_default applicant "existing_debt" (PInt 0)) = Ok debt.
Proof.
  unfold numeric_applicant in Hnum.
  repeat (apply andb_true_iff in Hnum as [Hnum ?]).
  apply has_inv in Hnum as (vc & _ & Hc & Hs).
  destruct vc; try discriminate.
  apply has_inv in H2 as (vs & _ & Hgs & Hns).
  apply to_num_number in Hns as [score Hscore].
  apply has_number_field in H1 as [income Hincome].
  apply has_inv in H0 as (vl & _ & Hgl & Hnl).
  apply to_num_number in Hnl as [loan Hloan].
  apply existing_debt_number in H as [debt Hdebt].
  exists s, score, income, loan, debt, vs, vl. tauto.
Qed.

Lemma risk_adjustment_ok : exists r, _calculate_risk_adjustment applicant = Ok r.
Proof.
  destruct numeric_applicant_fields
    as (c & score & income & loan & debt & vs & vl & Hc & Hs & Hns & Hi & Hl & Hnl & Hd).
  unfold _calculate_risk_adjustment.
  rewrite Hs, Hc. cbn [bind].
  rewrite (normalize_ok _ (PStr c) _ Hns). cbn [bind].
  rewrite (debt_to_income_ok _ _ _ Hd Hi). cbn [bind].
  rewrite Hl. cbn [bind].
  rewrite (income_or_one_ok _ _ Hi). cbn [bind].
  rewrite Hnl. cbn [bind].
  rewrite py_div_ok by (pose proof (py_max_lb income 1); lra).
  cbn [bind]. eauto.
Qed.

Lemma market_adjustment_ok : exists r, _calculate_market_adjustment applicant = Ok r.
Proof.
  destruct numeric_applicant_fields
    as (c & score & income & loan & debt & vs & vl & Hc & Hs & Hns & Hi & Hl & Hnl & Hd).
  unfold _calculate_market_adjustment.
  rewrite Hs, Hc. cbn [bind]. rewrite Hns. cbn [bind].
  destruct (eq_str (PStr c) "USA");
    repeat match goal with |- context [if ?b then _ else _] => destruct b end;
    eauto.
Qed.

Lemma profit_adjustment_ok : exists r, _calculate_profit_adjustment applicant = Ok r.
Proof.
  destruct numeric_applicant_fields
    as (c & score & income & loan & debt & vs & vl & Hc & Hs & Hns & Hi & Hl & Hnl & Hd).
  unfold _calculate_profit_adjustment.
  rewrite Hl. cbn [bind]. rewrite Hnl. cbn [bind].
  repeat match goal with |- context [if ?b then _ else _] => destruct b end;
    eauto.
Qed.

Lemma default_probability_ok :
  exists r, _estimate_default_probability applicant = Ok r.
Proof.
  destruct numeric_applicant_fields
    as (c & score & income & loan & debt & vs & vl & Hc & Hs & Hns & Hi & Hl & Hnl & Hd).
  unfold _estimate_default_probability.
  rewrite Hs, Hc. cbn [bind].
  rewrite (normalize_ok _ (PStr c) _ Hns). cbn [bind].
  rewrite (debt_to_income_ok _ _ _ Hd Hi). cbn [bind]. eauto.
Qed.

Lemma reasoning_ok (risk market profit : Q) :
  exists r, _generate_reasoning risk market profit applicant = Ok r.
Proof.
  destruct numeric_applicant_fields
    as (c & score & income & loan & debt & vs & vl & Hc & Hs & Hns & Hi & Hl & Hnl & Hd).
  unfold _generate_reasoning.
  rewrite Hs, Hc. cbn [bind]. rewrite Hns. cbn [bind].
  destruct (eq_str (PStr c) "USA");
    repeat match goal with |- context [if ?b then _ else _] => destruct b end;
    eauto.
Qed.

(** Pricing succeeds whenever the three weights are numbers. *)
Lemma priced_exists (cfg : dict) :
  has is_number "risk_weight" cfg = true ->
  has is_number "market_weight" cfg = true ->
  has is_number "profit_weight" cfg = true ->
  exists p, priced cfg applicant p.
Proof.
  intros Hr Hm Hp.
  apply has_number_field in Hr as [rw Hr].
  apply has_number_field in Hm as [mw Hm].
  apply has_number_field in Hp as [pw Hp].
  destruct numeric_applicant_fields
    as (c & score & income & loan & debt & vs & vl & Hc & Hs & Hns & Hi & Hl & Hnl & Hd).
  destruct risk_adjustment_ok as [risk Hrisk].
  destruct market_adjustment_ok as [market Hmarket].
  destruct profit_adjustment_ok as [profit Hprofit].
  destruct default_probability_ok as [dp Hdp].
  destruct (reasoning_ok risk market profit) as [reasons Hreasons].
  assert (Hb : exists b, base_rates_get (PStr c) 0.15 = Ok b)
    by (unfold base_rates_get; simpl; eauto).
  destruct Hb as [b Hb].
  set (final := py_max min_rate (py_min max_rate
                  (b + (risk * rw + market * mw + profit * pw)))).
  exists {| p_country := PStr c; p_credit_score := vs; p_loan_amount := vl;
            p_base_rate := b; p_risk := risk; p_market := market;
            p_profit := profit; p_risk_weight := rw; p_market_weight := mw;
            p_profit_weight := pw; p_default_prob := dp;
            p_expected_profit :=
              loan * final * (1 - dp) - loan * 0.4 * dp;
            p_reasoning := reasons |}.
  unfold priced, p_final, p_total. cbn [p_country p_credit_score p_loan_amount
    p_base_rate p_risk p_market p_profit p_risk_weight p_market_weight
    p_profit_weight p_default_prob p_expected_profit p_reasoning].
  repeat split; trivial.
  unfold _calculate_expected_profit. rewrite Hnl. reflexivity.
Qed.

End NumericApplicant.

(* ================================================================== *)
(** * [calculate_rate]: what a run amounts to *)

(** A successful run priced the applicant, built the decision from the
    pricing and logged it. *)
Lemma calculate_rate_ok_inv (applicant : dict) (now : string)
    (self self' : agent) (decision : dict) :
  calculate_rate applicant now self = (Ok decision, self') ->
  exists p,
    priced (config self) applicant p /\
    decision = decision_of now (get_default applicant "id" (PStr "unknown")) p /\
    _log_decision decision self = (Ok tt, self').
Proof.
  intro H. cbv [calculate_rate bindM gets lift ret] in H.
  match type of H with
  | match ?P with Ok _ => _ | Raise _ => _ end = _ => destruct P as [d|e] eqn:EP
  end; [ | discriminate H ].
  destruct (_log_decision d self) as [[[]|e] s] eqn:EL; [ | discriminate H ].
  injection H as <- <-.
  repeat bind_inv EP.
  injection EP as <-.
  exists {| p_country := a; p_credit_score := a13; p_loan_amount := a11;
            p_base_rate := a0; p_risk := a1; p_market := a2; p_profit := a3;
            p_risk_weight := a5; p_market_weight := a7; p_profit_weight := a9;
            p_default_prob := a10; p_expected_profit := a12;
            p_reasoning := a14 |}.
  unfold priced, decision_of, p_final, p_total, num_field.
  cbn [p_country p_credit_score p_loan_amount p_base_rate p_risk p_market
       p_profit p_risk_weight p_market_weight p_profit_weight p_default_prob
       p_expected_profit p_reasoning].
  rewrite E4, E6, E8. cbn [bind].
  repeat split; trivial.
Qed.

(** Conversely, once the applicant is priced the run is the logging of
    the decision. *)
Lemma calculate_rate_priced (applicant : dict) (now : string) (self : agent)
    (p : pricing) :
  priced (config self) applicant p ->
  calculate_rate applicant now self =
    let decision := decision_of now (get_default applicant "id" (PStr "unknown")) p in
    match _log_decision decision self with
    | (Ok _, self') => (Ok decision, self')
    | (Raise e, self') => (Raise e, self')
    end.
Proof.
  intros (Hc & Hs & Hl & Hb & Hrisk & Hmarket & Hprofit & Hrw & Hmw & Hpw
          & Hdp & Hep & Hre).
  apply num_field_inv in Hrw as (vr & Hgr & Hnr).
  apply num_field_inv in Hmw as (vm & Hgm & Hnm).
  apply num_field_inv in Hpw as (vp & Hgp & Hnp).
  cbv [calculate_rate bindM gets lift ret].
  rewrite Hc. cbn [bind]. rewrite Hb. cbn [bind].
  rewrite Hrisk, Hmarket, Hprofit. cbn [bind].
  rewrite Hgr. cbn [bind]. rewrite Hnr. cbn [bind].
  rewrite Hgm. cbn [bind]. rewrite Hnm. cbn [bind].
  rewrite Hgp. cbn [bind]. rewrite Hnp. cbn [bind].
  rewrite Hdp. cbn [bind]. rewrite Hl. cbn [bind].
  unfold p_final, p_total in Hep. rewrite Hep. cbn [bind].
  rewrite Hs. cbn [bind]. rewrite Hre. cbn [bind].
  cbv zeta. unfold decision_of, p_final, p_total.
  destruct (_log_decision _ self) as [[[]|e] s]; reflexivity.
Qed.

(* ================================================================== *)
(** * The ledger *)

Lemma mapM_ok {A B : Type} (f : A -> result B) (g : A -> B) (l : list A) :
  Forall (fun a => f a = Ok (g a)) l -> mapM f l = Ok (map g l).
Proof.
  induction 1 as [ | a l Ha _ IH ]; simpl; trivial.
  rewrite Ha. cbn [bind]. rewrite IH. reflexivity.
Qed.

Lemma numeric_at_value (key : string) (v : pyval) :
  numeric_at key v = true ->
  exists x, subscript v key = Ok x /\ to_num x = Ok (value_at key v).
Proof.
  destruct v; try discriminate. simpl. unfold has, getitem.
  destruct (dict_get key d) as [x|]; [ | discriminate ].
  destruct x; try discriminate; eauto.
Qed.

Lemma np_mean_of_ok (key : string) (ds : list pyval) :
  forallb (numeric_at key) ds = true ->
  ds <> [] ->
  np_mean_of key ds =
    Ok (Qsum (values_at key ds) / inject_Z (Z.of_nat (List.length ds))).
Proof.
  intros Hall Hne. unfold np_mean_of.
  assert (H1 : mapM (fun d => subscript d key) ds =
               Ok (map (fun d => match subscript d key with
                                 | Ok x => x
                                 | Raise _ => PNone
                                 end) ds)).
  { apply mapM_ok. apply List.Forall_forall. intros v Hv.
    rewrite forallb_forall in Hall.
    destruct (numeric_at_value key v (Hall v Hv)) as (x & -> & _). reflexivity. }
  rewrite H1. cbn [bind].
  assert (H2 : mapM to_num (map (fun d => match subscript d key with
                                          | Ok x => x
                                          | Raise _ => PNone
                                          end) ds) =
               Ok (values_at key ds)).
  { unfold values_at. clear H1 Hne.
    induction ds as [ | v ds IH ]; simpl; trivial.
    simpl in Hall. apply andb_true_iff in Hall as [Hv Hall].
    destruct (numeric_at_value key v Hv) as (x & -> & ->). cbn [bind].
    rewrite (IH Hall). reflexivity. }
  rewrite H2. cbn [bind]. unfold mean, values_at.
  rewrite <- (length_map (value_at key) ds).
  destruct (map (value_at key) ds) eqn:E; trivial.
  destruct ds; [ congruence | discriminate ].
Qed.

(** The agent [_log_decision] leaves when nothing raises. *)
Lemma _log_decision_ok (decision : dict) (self : agent) (h : list pyval) :
  decision_history self = PList h ->
  forallb (numeric_at "total_adjustment") h = true ->
  has is_number "total_adjustment" decision = true ->
  has is_number "expected_profit" decision = true ->
  _log_decision decision self =
    (Ok tt,
     {| config := config self;
        decision_history := PList (h ++ [PDict decision]);
        stats :=
          {| total_decisions := total_decisions (stats self) + 1;
             avg_adjustment :=
               Qsum (values_at "total_adjustment" (h ++ [PDict decision])) /
               inject_Z (Z.of_nat (List.length (h ++ [PDict decision])));
             total_profit :=
               total_profit (stats self) +
               value_at "expected_profit" (PDict decision);
             default_rate := default_rate (stats self) |} |}).
Proof.
  intros Hh Hall Hadj Hprofit.
  cbv [_log_decision bindM gets lift modify ret].
  rewrite Hh. cbn [append]. cbn [decision_history set_stats set_decision_history].
  cbn [items_of bind].
  rewrite np_mean_of_ok.
  - destruct (numeric_at_value "expected_profit" (PDict decision) Hprofit)
      as (x & Hx & Hnx).
    cbn [subscript] in Hx. rewrite Hx. cbn [bind]. rewrite Hnx.
    reflexivity.
  - rewrite forallb_app, Hall. simpl. now rewrite Hadj.
  - destruct h; discriminate.
Qed.

(** ** No arithmetic error *)

Lemma nae_ok {A : Type} (a : A) : no_arithmetic_error (Ok a).
Proof. intros e H. discriminate H. Qed.

Lemma nae_bind {A B : Type} (m : result A) (f : A -> result B) :
  no_arithmetic_error m ->
  (forall a, m = Ok a -> no_arithmetic_error (f a)) ->
  no_arithmetic_error (bind m f).
Proof.
  intros Hm Hf e H. destruct m as [a|e']; cbn [bind] in H.
  - exact (Hf a eq_refl e H).
  - injection H as <-. now apply Hm.
Qed.

Lemma nae_getitem (d : dict) (k : string) : no_arithmetic_error (getitem d k).
Proof.
  intros e. unfold getitem. destruct (dict_get k d); intro H;
    [ discriminate H | injection H as <-; reflexivity ].
Qed.

Lemma nae_to_num (v : pyval) : no_arithmetic_error (to_num v).
Proof.
  intros e. destruct v; cbn [to_num]; intro H;
    first [ discriminate H | injection H as <-; reflexivity ].
Qed.

Lemma nae_subscript (v : pyval) (k : string) : no_arithmetic_error (subscript v k).
Proof.
  destruct v; cbn [subscript]; try apply nae_getitem;
    intros e H; injection H as <-; reflexivity.
Qed.

Lemma nae_mapM {A B : Type} (f : A -> result B) (l : list A) :
  (forall a, no_arithmetic_error (f a)) -> no_arithmetic_error (mapM f l).
Proof.
  intro Hf. induction l as [ | a l IH ]; cbn [mapM].
  - apply nae_ok.
  - apply nae_bind; [ apply Hf | intros b _ ].
    apply nae_bind; [ exact IH | intros bs _; apply nae_ok ].
Qed.

Lemma nae_mean (xs : list Q) : no_arithmetic_error (mean xs).
Proof.
  destruct xs; cbn [mean]; [ | apply nae_ok ].
  intros e H. injection H as <-. reflexivity.
Qed.

Lemma nae_np_mean_of (key : string) (ds : list pyval) :
  no_arithmetic_error (np_mean_of key ds).
Proof.
  unfold np_mean_of.
  apply nae_bind; [ apply nae_mapM; intro; apply nae_subscript | intros vs _ ].
  apply nae_bind; [ apply nae_mapM; apply nae_to_num | intros qs _; apply nae_mean ].
Qed.

Lemma nae_py_div (x y : Q) : ~ y == 0 -> no_arithmetic_error (py_div x y).
Proof.
  intro H. rewrite (py_div_ok _ _ H). apply nae_ok.
Qed.

(** An exception of [_log_decision] is never an arithmetic one. *)
Lemma _log_decision_no_arithmetic_error (decision : dict) (self self' : agent) (e : exn) :
  _log_decision decision self = (Raise e, self') -> is_arithmetic_error e = false.
Proof.
  cbv [_log_decision bindM gets lift modify ret].
  destruct (decision_history self); cbn [append];
    try (intro H; injection H as <- _; reflexivity).
  cbn [decision_history set_stats set_decision_history items_of bind].
  destruct (np_mean_of _ _) as [avg|e1] eqn:E1.
  - destruct (bind (getitem decision "expected_profit") _) as [p|e2] eqn:E2;
      intro H; [ discriminate H | injection H as <- _ ].
    revert E2. apply nae_bind; [ apply nae_getitem | intros; apply nae_to_num ].
  - intro H. injection H as <- _. revert E1. apply nae_np_mean_of.
Qed.

(* ================================================================== *)
(** * The rate bounds *)

Lemma float_field_decision_of (now : string) (applicant_id : pyval) (p : pricing) :
  float_field "base_rate" (decision_of now applicant_id p)
    = Some (py_round (p_base_rate p) 4) /\
  float_field "risk_adjustment" (decision_of now applicant_id p)
    = Some (py_round (p_risk p) 4) /\
  float_field "market_adjustment" (decision_of now applicant_id p)
    = Some (py_round (p_market p) 4) /\
  float_field "profit_adjustment" (decision_of now applicant_id p)
    = Some (py_round (p_profit p) 4) /\
  float_field "total_adjustment" (decision_of now applicant_id p)
    = Some (py_round (p_total p) 4) /\
  float_field "final_rate" (decision_of now applicant_id p)
    = Some (py_round (p_final p) 4) /\
  float_field "default_probability" (decision_of now applicant_id p)
    = Some (py_round (p_default_prob p) 4) /\
  float_field "expected_profit" (decision_of now applicant_id p)
    = Some (py_round (p_expected_profit p) 2).
Proof.
  repeat split; reflexivity.
Qed.

(** C1.  Whenever [calculate_rate] returns a decision, its [final_rate]
    is the base rate plus the weighted sum of the three adjustments,
    clamped to [min_rate, max_rate] = [0.08, 0.36] and then rounded, and
    it lies within these bounds. *)
Theorem final_rate_within_bounds (applicant : dict) (now : string)
    (self self' : agent) (decision : dict) :
  calculate_rate applicant now self = (Ok decision, self') ->
  exists p final_rate,
    priced (config self) applicant p /\
    final_rate =
      py_round (py_max min_rate (py_min max_rate (p_base_rate p + p_total p))) 4 /\
    float_field "final_rate" decision = Some final_rate /\
    min_rate = 0.08 /\ max_rate = 0.36 /\
    min_rate <= final_rate <= max_rate.
Proof.
  intro H. apply calculate_rate_ok_inv in H as (p & Hp & -> & _).
  exists p, (py_round (p_final p) 4).
  split; [ exact Hp | ].
  do 4 (split; [ reflexivity | ]).
  apply py_round_rate_bounds, clamp_bounds. unfold min_rate, max_rate. lra.
Qed.

Lemma final_rate_within_bounds_witness :
  exists decision self',
    calculate_rate usa_applicant example_now (__init__ None) = (Ok decision, self') /\
    exists p final_rate,
      priced (config (__init__ None)) usa_applicant p /\
      final_rate =
        py_round (py_max min_rate (py_min max_rate (p_base_rate p + p_total p))) 4 /\
      float_field "final_rate" decision = Some final_rate /\
      min_rate = 0.08 /\ max_rate = 0.36 /\
      min_rate <= final_rate <= max_rate.
Proof.
  eexists. eexists. split.
  - vm_compute. reflexivity.
  - eapply final_rate_within_bounds. vm_compute. reflexivity.
Defined.

(* ================================================================== *)
(** * Arithmetic is total *)

Ltac solve_nae :=
  repeat first
    [ apply nae_ok
    | apply nae_getitem
    | apply nae_to_num
    | assumption
    | match goal with
      | |- no_arithmetic_error (if ?b then _ else _) => destruct b
      | |- no_arithmetic_error (bind _ _) => apply nae_bind; [ | intros ? ? ]
      end ].

Lemma nae_income_or_one (applicant : dict) :
  no_arithmetic_error (income_or_one applicant).
Proof. unfold income_or_one. solve_nae. Qed.

Lemma nae_normalize (credit_score country : pyval) :
  no_arithmetic_error (normalize credit_score country).
Proof.
  unfold normalize. solve_nae; apply nae_py_div; lra.
Qed.

Lemma nae_debt_to_income (applicant : dict) :
  no_arithmetic_error (debt_to_income applicant).
Proof.
  unfold debt_to_income. cbv zeta.
  apply nae_bind; [ apply nae_income_or_one | intros m Hm ].
  apply nae_bind; [ apply nae_to_num | intros debt _ ].
  apply income_or_one_inv in Hm as (income & _ & _ & Hge & _).
  apply nae_py_div. lra.
Qed.

Lemma nae_risk_adjustment (applicant : dict) :
  no_arithmetic_error (_calculate_risk_adjustment applicant).
Proof.
  unfold _calculate_risk_adjustment.
  apply nae_bind; [ apply nae_getitem | intros credit_score _ ].
  apply nae_bind; [ apply nae_getitem | intros country _ ].
  apply nae_bind; [ apply nae_normalize | intros n _ ].
  apply nae_bind; [ apply nae_debt_to_income | intros dti _ ].
  apply nae_bind; [ apply nae_getitem | intros loan _ ].
  apply nae_bind; [ apply nae_income_or_one | intros m Hm ].
  apply nae_bind; [ apply nae_to_num | intros l _ ].
  apply income_or_one_inv in Hm as (income & _ & _ & Hge & _).
  apply nae_bind; [ apply nae_py_div; lra | intros; apply nae_ok ].
Qed.

Lemma nae_market_adjustment (applicant : dict) :
  no_arithmetic_error (_calculate_market_adjustment applicant).
Proof. unfold _calculate_market_adjustment. solve_nae. Qed.

Lemma nae_profit_adjustment (applicant : dict) :
  no_arithmetic_error (_calculate_profit_adjustment applicant).
Proof. unfold _calculate_profit_adjustment. solve_nae. Qed.

Lemma nae_default_probability (applicant : dict) :
  no_arithmetic_error (_estimate_default_probability applicant).
Proof.
  unfold _estimate_default_probability.
  apply nae_bind; [ apply nae_getitem | intros credit_score _ ].
  apply nae_bind; [ apply nae_getitem | intros country _ ].
  apply nae_bind; [ apply nae_normalize | intros n _ ].
  apply nae_bind; [ apply nae_debt_to_income | intros; apply nae_ok ].
Qed.

Lemma nae_expected_profit (loan_amount : pyval) (rate default_prob : Q) :
  no_arithmetic_error (_calculate_expected_profit loan_amount rate default_prob).
Proof. unfold _calculate_expected_profit. solve_nae. Qed.

Lemma nae_reasoning (risk market profit : Q) (applicant : dict) :
  no_arithmetic_error (_generate_reasoning risk market profit applicant).
Proof. unfold _generate_reasoning. cbv zeta. solve_nae. Qed.

Lemma nae_base_rates_get (country : pyval) (default : Q) :
  no_arithmetic_error (base_rates_get country default).
Proof.
  unfold base_rates_get. destruct (hashable country); [ apply nae_ok | ].
  intros e H. injection H as <-. reflexivity.
Qed.

(** No run of [calculate_rate], on any record and any agent, ends in an
    arithmetic error. *)
Lemma calculate_rate_no_arithmetic_error (applicant : dict) (now : string)
    (self self' : agent) (e : exn) :
  calculate_rate applicant now self = (Raise e, self') ->
  is_arithmetic_error e = false.
Proof.
  intro H. cbv [calculate_rate bindM gets lift ret] in H.
  match type of H with
  | match ?P with Ok _ => _ | Raise _ => _ end = _ =>
      assert (HP : no_arithmetic_error P);
      [ | destruct P as [d|e'] eqn:EP ]
  end.
  - apply nae_bind; [ apply nae_getitem | intros country _ ].
    apply nae_bind; [ apply nae_base_rates_get | intros base _ ].
    apply nae_bind; [ apply nae_risk_adjustment | intros risk _ ].
    apply nae_bind; [ apply nae_market_adjustment | intros market _ ].
    apply nae_bind; [ apply nae_profit_adjustment | intros profit _ ].
    do 6 (apply nae_bind; [ first [ apply nae_getitem | apply nae_to_num ] | intros ? _ ]).
    apply nae_bind; [ apply nae_default_probability | intros dp _ ].
    apply nae_bind; [ apply nae_getitem | intros loan _ ].
    apply nae_bind; [ apply nae_expected_profit | intros ep _ ].
    do 3 (apply nae_bind; [ apply nae_getitem | intros ? _ ]).
    apply nae_bind; [ apply nae_reasoning | intros; apply nae_ok ].
  - destruct (_log_decision d self) as [[[]|e'] s] eqn:EL; [ discriminate H | ].
    injection H as <- <-. exact (_log_decision_no_arithmetic_error _ _ _ _ EL).
  - injection H as <- _. now apply HP.
Qed.

Lemma ledger_entries_total_adjustment (h : list pyval) :
  forallb ledger_entry h = true ->
  forallb (numeric_at "total_adjustment") h = true.
Proof.
  rewrite !forallb_forall. intros H v Hv. specialize (H v Hv).
  unfold ledger_entry in H. repeat (apply andb_true_iff in H as [H _]). exact H.
Qed.

(** On a numeric record and a ready agent the run succeeds, and says
    what it leaves behind. *)
Lemma calculate_rate_succeeds (applicant : dict) (now : string) (self : agent) :
  numeric_applicant applicant = true ->
  agent_ready self = true ->
  exists p h,
    priced (config self) applicant p /\
    decision_history self = PList h /\
    let decision := decision_of now (get_default applicant "id" (PStr "unknown")) p in
    calculate_rate applicant now self =
      (Ok decision,
       {| config := config self;
          decision_history := PList (h ++ [PDict decision]);
          stats :=
            {| total_decisions := total_decisions (stats self) + 1;
               avg_adjustment :=
                 Qsum (values_at "total_adjustment" (h ++ [PDict decision])) /
                 inject_Z (Z.of_nat (List.length (h ++ [PDict decision])));
               total_profit :=
                 total_profit (stats self) +
                 value_at "expected_profit" (PDict decision);
               default_rate := default_rate (stats self) |} |}).
Proof.
  intros Hnum Hready. unfold agent_ready in Hready.
  repeat (apply andb_true_iff in Hready as [Hready ?]).
  destruct (decision_history self) as [ | | | | | h | | ] eqn:Hh; try discriminate.
  destruct (priced_exists applicant Hnum (config self)) as [p Hp]; trivial.
  exists p, h. split; [ exact Hp | ]. split; [ reflexivity | ].
  cbv zeta. rewrite (calculate_rate_priced _ now _ _ Hp). cbv zeta.
  rewrite (_log_decision_ok _ _ h Hh); trivial.
  now apply ledger_entries_total_adjustment.
Qed.

(** The risk adjustment of a numeric record, written out: both ratios
    are divided by [max(income, 1)]. *)
Lemma risk_adjustment_formula (applicant : dict) :
  numeric_applicant applicant = true ->
  exists country score income loan debt,
    getitem applicant "country" = Ok (PStr country) /\
    num_field "credit_score" applicant = Ok score /\
    num_field "income" applicant = Ok income /\
    num_field "loan_amount" applicant = Ok loan /\
    to_num (get_default applicant "existing_debt" (PInt 0)) = Ok debt /\
    debt_to_income applicant = Ok (debt / py_max income 1) /\
    _calculate_risk_adjustment applicant =
      Ok (- 0.03 +
          ((1 - (score - 300) /
                (if eq_str (PStr country) "USA" then 850 - 300 else 900 - 300)) * 0.5 +
           py_min (debt / py_max income 1) 1.0 * 0.3 +
           py_min (loan / py_max income 1) 1.0 * 0.2) * 0.11).
Proof.
  intro Hnum.
  destruct (numeric_applicant_fields applicant Hnum)
    as (c & score & income & loan & debt & vs & vl & Hc & Hs & Hns & Hi & Hl & Hnl & Hd).
  exists c, score, income, loan, debt.
  split; [ exact Hc | ].
  split; [ apply num_field_inv; eauto | ].
  split; [ exact Hi | ].
  split; [ apply num_field_inv; eauto | ].
  split; [ exact Hd | ].
  split; [ now apply debt_to_income_ok | ].
  unfold _calculate_risk_adjustment.
  rewrite Hs, Hc. cbn [bind].
  rewrite (normalize_ok _ (PStr c) _ Hns). cbn [bind].
  rewrite (debt_to_income_ok _ _ _ Hd Hi). cbn [bind].
  rewrite Hl. cbn [bind].
  rewrite (income_or_one_ok _ _ Hi). cbn [bind].
  rewrite Hnl. cbn [bind].
  rewrite py_div_ok by (pose proof (py_max_lb income 1); lra).
  reflexivity.
Qed.

(* ================================================================== *)
(** * Ints apart from floats: where the two runs agree *)

Lemma float_limit_large : 1000 < Overflow.float_limit.
Proof. vm_compute. reflexivity. Qed.

Lemma fits_iff (x : Q) :
  Overflow.fits x = true <-> - Overflow.float_limit < x < Overflow.float_limit.
Proof.
  unfold Overflow.fits. rewrite andb_true_iff, !Qltb_lt. tauto.
Qed.

Lemma fits_small (x : Q) : - 1000 <= x <= 1000 -> Overflow.fits x = true.
Proof.
  intro H. apply fits_iff. pose proof float_limit_large. lra.
Qed.

(** A quotient by a divisor of at least 1 is no larger. *)
Lemma fits_div (d m : Q) :
  Overflow.fits d = true -> 1 <= m -> Overflow.fits (d / m) = true.
Proof.
  rewrite !fits_iff. intros [Hlo Hhi] Hm.
  pose proof float_limit_large as HL.
  assert (Hprod : 0 <= Overflow.float_limit * (m - 1))
    by (apply Qmult_le_0_compat; lra).
  split.
  - apply Qlt_shift_div_l; [ lra | ].
    assert (E : - Overflow.float_limit * m
                == - Overflow.float_limit - Overflow.float_limit * (m - 1)) by ring.
    rewrite E. lra.
  - apply Qlt_shift_div_r; [ lra | ].
    assert (E : Overflow.float_limit * m
                == Overflow.float_limit + Overflow.float_limit * (m - 1)) by ring.
    rewrite E. lra.
Qed.

(** A score within range stays within range on the scale of its
    country. *)
Lemma fits_normalized (z width : Q) :
  Overflow.fits z = true -> 550 <= width <= 600 ->
  Overflow.fits ((z - 300) / width) = true.
Proof.
  rewrite !fits_iff. intros [Hlo Hhi] Hw.
  pose proof float_limit_large as HL.
  assert (Hprod : 0 <= Overflow.float_limit * (width - 1))
    by (apply Qmult_le_0_compat; lra).
  assert (Hprod' : 549 * 1000 <= Overflow.float_limit * (width - 1)).
  { assert (H1 : 0 <= (Overflow.float_limit - 1000) * (width - 1))
      by (apply Qmult_le_0_compat; lra).
    assert (E : (Overflow.float_limit - 1000) * (width - 1)
                == Overflow.float_limit * (width - 1) - 1000 * (width - 1)) by ring.
    rewrite E in H1. lra. }
  split.
  - apply Qlt_shift_div_l; [ lra | ].
    assert (E : - Overflow.float_limit * width
                == - Overflow.float_limit - Overflow.float_limit * (width - 1)) by ring.
    rewrite E. lra.
  - apply Qlt_shift_div_r; [ lra | ].
    assert (E : Overflow.float_limit * width
                == Overflow.float_limit + Overflow.float_limit * (width - 1)) by ring.
    rewrite E. lra.
Qed.

Lemma to_num_to_number (v : pyval) :
  to_num v = (let! n := Overflow.to_number v in Ok (Overflow.value n)).
Proof. destruct v; reflexivity. Qed.

Lemma in_range_number (v : pyval) (n : Overflow.num) :
  in_range v = true -> Overflow.to_number v = Ok n ->
  Overflow.is_int n = true -> Overflow.fits (Overflow.value n) = true.
Proof.
  destruct v; cbn [Overflow.to_number in_range]; try discriminate;
    intros Hr H; injection H as <-; cbn [Overflow.is_int Overflow.value Overflow.int Overflow.flt];
    intro Hint; try discriminate Hint; trivial.
  apply fits_small. destruct b; split; vm_compute; discriminate.
Qed.

(** ** The relation, step by step *)

Lemma refines_refl {A : Type} (within : Prop) (r : result A) : refines within r r.
Proof. split; auto. Qed.

Lemma refines_bind {A B : Type} (within : Prop) (m' m : result A)
    (f' f : A -> result B) :
  refines within m' m ->
  (forall a, m = Ok a -> refines within (f' a) (f a)) ->
  refines within (bind m' f') (bind m f).
Proof.
  intros [Heq Hor] Hf. split.
  - intro H. rewrite (Heq H). destruct m as [a|e]; cbn [bind]; trivial.
    exact (proj1 (Hf a eq_refl) H).
  - destruct Hor as [-> | ->]; [ | now right ].
    destruct m as [a|e]; cbn [bind]; [ | now left ].
    exact (proj2 (Hf a eq_refl)).
Qed.

(** A step that returns a number where the exact run returns its
    value. *)
Lemma refines_bind_value {B : Type} (within : Prop) (m' : result Overflow.num)
    (m : result Q) (f' : Overflow.num -> result B) (f : Q -> result B) :
  m = (let! n := m' in Ok (Overflow.value n)) ->
  (forall n, m' = Ok n -> refines within (f' n) (f (Overflow.value n))) ->
  refines within (bind m' f') (bind m f).
Proof.
  intros -> Hf. destruct m' as [n|e]; cbn [bind].
  - now apply Hf.
  - apply refines_refl.
Qed.

Lemma to_float_refines (within : Prop) (n : Overflow.num) :
  (within -> Overflow.is_int n = true -> Overflow.fits (Overflow.value n) = true) ->
  refines within (Overflow.to_float n) (Ok (Overflow.value n)).
Proof.
  intro H. unfold Overflow.to_float.
  destruct (Overflow.is_int n) eqn:Hint; cbn [andb]; [ | apply refines_refl ].
  destruct (Overflow.fits (Overflow.value n)) eqn:Hfits; cbn [negb];
    [ apply refines_refl | ].
  split; [ | now right ].
  intro Hw. specialize (H Hw eq_refl). congruence.
Qed.

Lemma as_float_refines (within : Prop) (v : pyval) :
  (within -> in_range v = true) ->
  refines within (Overflow.as_float v) (to_num v).
Proof.
  intro H. rewrite to_num_to_number. unfold Overflow.as_float.
  destruct (Overflow.to_number v) as [n|e] eqn:Hn; cbn [bind];
    [ | apply refines_refl ].
  apply to_float_refines. intros Hw Hint.
  exact (in_range_number v n (H Hw) Hn Hint).
Qed.

Lemma true_div_refines (within : Prop) (a b : Overflow.num) :
  (within -> Overflow.is_int a && Overflow.is_int b = true ->
   ~ Overflow.value b == 0 ->
   Overflow.fits (Overflow.value a / Overflow.value b) = true) ->
  (within -> Overflow.is_int a && Overflow.is_int b = false ->
   (Overflow.is_int a = true -> Overflow.fits (Overflow.value a) = true) /\
   (Overflow.is_int b = true -> Overflow.fits (Overflow.value b) = true)) ->
  refines within (Overflow.true_div a b) (py_div (Overflow.value a) (Overflow.value b)).
Proof.
  intros Hint Hflt. unfold Overflow.true_div.
  destruct (Overflow.is_int a && Overflow.is_int b) eqn:Hk.
  - unfold py_div. destruct (Qeq_bool (Overflow.value b) 0) eqn:Hz;
      [ apply refines_refl | ].
    destruct (Overflow.fits (Overflow.value a / Overflow.value b)) eqn:Hfits;
      [ apply refines_refl | ].
    split; [ | now right ].
    intro Hw. apply Qeq_bool_neq in Hz. specialize (Hint Hw eq_refl Hz). congruence.
  - change (py_div (Overflow.value a) (Overflow.value b))
      with (let! x := Ok (Overflow.value a) in
            let! y := Ok (Overflow.value b) in py_div x y).
    apply refines_bind.
    + apply to_float_refines. intros Hw. exact (proj1 (Hflt Hw eq_refl)).
    + intros x _. apply refines_bind; [ | intros; apply refines_refl ].
      apply to_float_refines. intros Hw. exact (proj2 (Hflt Hw eq_refl)).
Qed.

Lemma sub_constant (a : Overflow.num) (k : Z) :
  Overflow.fits (inject_Z k) = true ->
  Overflow.sub a (Overflow.int k) =
    Ok {| Overflow.is_int := Overflow.is_int a;
          Overflow.value := Overflow.value a - inject_Z k |}.
Proof.
  intro Hk. unfold Overflow.sub, Overflow.to_float.
  cbn [Overflow.is_int Overflow.value Overflow.int].
  destruct (Overflow.is_int a); cbn [andb bind]; [ reflexivity | ].
  rewrite Hk. reflexivity.
Qed.

Lemma normalize_refines (within : Prop) (credit_score country : pyval) :
  (within -> in_range credit_score = true) ->
  refines within (Overflow.normalize credit_score country)
                 (normalize credit_score country).
Proof.
  intro H.
  assert (H300 : Overflow.fits (inject_Z 300) = true)
    by (apply fits_small; split; vm_compute; discriminate).
  unfold Overflow.normalize, normalize.
  destruct (eq_str country "USA");
    rewrite to_num_to_number;
    (destruct (Overflow.to_number credit_score) as [n|e] eqn:Hn; cbn [bind];
       [ | apply refines_refl ]);
    rewrite !sub_constant by exact H300; cbn [bind];
    apply true_div_refines;
    cbn [Overflow.is_int Overflow.value Overflow.int];
    intros Hw Hk.
  - intros _. apply andb_true_iff in Hk as [Hk _].
    apply fits_normalized; [ | split; vm_compute; discriminate ].
    exact (in_range_number _ _ (H Hw) Hn Hk).
  - rewrite andb_true_r in Hk. split; [ congruence | ].
    intros _. apply fits_small. split; vm_compute; discriminate.
  - intros _. apply andb_true_iff in Hk as [Hk _].
    apply fits_normalized; [ | split; vm_compute; discriminate ].
    exact (in_range_number _ _ (H Hw) Hn Hk).
  - rewrite andb_true_r in Hk. split; [ congruence | ].
    intros _. apply fits_small. split; vm_compute; discriminate.
Qed.

Lemma income_or_one_value (applicant : dict) :
  income_or_one applicant =
    (let! m := Overflow.income_or_one applicant in Ok (Overflow.value m)).
Proof.
  unfold income_or_one, Overflow.income_or_one.
  destruct (getitem applicant "income") as [v|e]; cbn [bind]; trivial.
  rewrite to_num_to_number.
  destruct (Overflow.to_number v) as [n|e]; cbn [bind]; trivial.
  unfold Overflow.max_one, py_max.
  destruct (Qltb (Overflow.value n) 1); reflexivity.
Qed.

Lemma income_or_one_fits (applicant : dict) (m : Overflow.num) :
  has_opt in_range "income" applicant = true ->
  Overflow.income_or_one applicant = Ok m ->
  1 <= Overflow.value m /\
  (Overflow.is_int m = true -> Overflow.fits (Overflow.value m) = true).
Proof.
  intros Hr H. unfold Overflow.income_or_one, getitem in H.
  destruct (dict_get "income" applicant) as [v|] eqn:Hv; cbn [bind] in H;
    [ | discriminate H ].
  bind_inv H. injection H as <-.
  assert (Hin : in_range v = true) by (unfold has_opt in Hr; now rewrite Hv in Hr).
  unfold Overflow.max_one.
  destruct (Qltb (Overflow.value a) 1) eqn:Hlt.
  - cbn [Overflow.value Overflow.is_int Overflow.int].
    split; [ vm_compute; discriminate
           | intros _; apply fits_small; split; vm_compute; discriminate ].
  - apply Qltb_ge in Hlt. split; [ exact Hlt | ].
    exact (in_range_number v a Hin E).
Qed.

(** A number divided by [max(income, 1)]. *)
Lemma ratio_refines (within : Prop) (applicant : dict) (v : pyval)
    (n m : Overflow.num) :
  (within -> has_opt in_range "income" applicant = true) ->
  (within -> in_range v = true) ->
  Overflow.to_number v = Ok n ->
  Overflow.income_or_one applicant = Ok m ->
  refines within (Overflow.true_div n m)
                 (py_div (Overflow.value n) (Overflow.value m)).
Proof.
  intros Hi Hv Hn Hm.
  apply true_div_refines; intros Hw Hk.
  - intros _. apply andb_true_iff in Hk as [Hk _].
    destruct (income_or_one_fits applicant m (Hi Hw) Hm) as [Hge _].
    apply fits_div; [ | exact Hge ].
    exact (in_range_number v n (Hv Hw) Hn Hk).
  - split.
    + exact (in_range_number v n (Hv Hw) Hn).
    + exact (proj2 (income_or_one_fits applicant m (Hi Hw) Hm)).
Qed.

Lemma in_range_get_default (applicant : dict) (key : string) :
  has_opt in_range key applicant = true ->
  in_range (get_default applicant key (PInt 0)) = true.
Proof.
  unfold has_opt, get_default.
  destruct (dict_get key applicant); [ intro H; exact H | intros _ ].
  apply fits_small. split; vm_compute; discriminate.
Qed.

Lemma in_range_getitem (d : dict) (key : string) (v : pyval) :
  has_opt in_range key d = true -> getitem d key = Ok v -> in_range v = true.
Proof.
  unfold has_opt, getitem. destruct (dict_get key d); [ | discriminate ].
  intros H E. now injection E as <-.
Qed.

Lemma debt_to_income_refines (within : Prop) (applicant : dict) :
  (within -> has_opt in_range "income" applicant = true) ->
  (within -> has_opt in_range "existing_debt" applicant = true) ->
  refines within (Overflow.debt_to_income applicant) (debt_to_income applicant).
Proof.
  intros Hi Hd. unfold Overflow.debt_to_income, debt_to_income. cbv zeta.
  apply refines_bind_value; [ apply income_or_one_value | intros m Hm ].
  apply refines_bind_value; [ apply to_num_to_number | intros n Hn ].
  apply (ratio_refines within applicant
           (get_default applicant "existing_debt" (PInt 0)) n m); trivial.
  intro Hw. apply in_range_get_default. exact (Hd Hw).
Qed.

Lemma risk_adjustment_refines (within : Prop) (applicant : dict) :
  (within -> has_opt in_range "credit_score" applicant = true) ->
  (within -> has_opt in_range "income" applicant = true) ->
  (within -> has_opt in_range "loan_amount" applicant = true) ->
  (within -> has_opt in_range "existing_debt" applicant = true) ->
  refines within (Overflow._calculate_risk_adjustment applicant)
                 (_calculate_risk_adjustment applicant).
Proof.
  intros Hs Hi Hl Hd.
  unfold Overflow._calculate_risk_adjustment, _calculate_risk_adjustment.
  apply refines_bind; [ apply refines_refl | intros credit_score Hcs ].
  apply refines_bind; [ apply refines_refl | intros country _ ].
  apply refines_bind.
  { apply normalize_refines. intro Hw. exact (in_range_getitem _ _ _ (Hs Hw) Hcs). }
  intros normalized _.
  apply refines_bind; [ now apply debt_to_income_refines | intros dti _ ].
  apply refines_bind; [ apply refines_refl | intros loan_amount Hloan ].
  apply refines_bind_value; [ apply income_or_one_value | intros m Hm ].
  apply refines_bind_value; [ apply to_num_to_number | intros n Hn ].
  apply refines_bind; [ | intros; apply refines_refl ].
  apply (ratio_refines within applicant loan_amount n m); trivial.
  intro Hw. exact (in_range_getitem _ _ _ (Hl Hw) Hloan).
Qed.

Lemma default_probability_refines (within : Prop) (applicant : dict) :
  (within -> has_opt in_range "credit_score" applicant = true) ->
  (within -> has_opt in_range "income" applicant = true) ->
  (within -> has_opt in_range "existing_debt" applicant = true) ->
  refines within (Overflow._estimate_default_probability applicant)
                 (_estimate_default_probability applicant).
Proof.
  intros Hs Hi Hd.
  unfold Overflow._estimate_default_probability, _estimate_default_probability.
  apply refines_bind; [ apply refines_refl | intros credit_score Hcs ].
  apply refines_bind; [ apply refines_refl | intros country _ ].
  apply refines_bind.
  { apply normalize_refines. intro Hw. exact (in_range_getitem _ _ _ (Hs Hw) Hcs). }
  intros normalized _.
  apply refines_bind; [ now apply debt_to_income_refines | intros; apply refines_refl ].
Qed.

Lemma expected_profit_refines (within : Prop) (loan_amount : pyval)
    (rate default_prob : Q) :
  (within -> in_range loan_amount = true) ->
  refines within
    (Overflow._calculate_expected_profit loan_amount rate default_prob)
    (_calculate_expected_profit loan_amount rate default_prob).
Proof.
  intro H. unfold Overflow._calculate_expected_profit, _calculate_expected_profit.
  apply refines_bind; [ now apply as_float_refines | intros; apply refines_refl ].
Qed.

Lemma ints_in_range_inv (applicant cfg : dict) :
  ints_in_range applicant cfg = true ->
  has_opt in_range "credit_score" applicant = true /\
  has_opt in_range "income" applicant = true /\
  has_opt in_range "loan_amount" applicant = true /\
  has_opt in_range "existing_debt" applicant = true /\
  has_opt in_range "risk_weight" cfg = true /\
  has_opt in_range "market_weight" cfg = true /\
  has_opt in_range "profit_weight" cfg = true.
Proof.
  unfold ints_in_range. intro H.
  repeat (apply andb_true_iff in H as [H ?]). repeat split; assumption.
Qed.

(** The run with ints apart is the run on exact numbers when the ints
    are within range; otherwise it is that run, or it raises
    [OverflowError] and leaves the agent as it was. *)
Lemma calculate_rate_refines (applicant : dict) (now : string) (self : agent) :
  (ints_in_range applicant (config self) = true ->
   Overflow.calculate_rate applicant now self = calculate_rate applicant now self) /\
  (Overflow.calculate_rate applicant now self = calculate_rate applicant now self \/
   Overflow.calculate_rate applicant now self = (Raise OverflowError, self)).
Proof.
  set (within := ints_in_range applicant (config self) = true).
  assert (Hin : within ->
            has_opt in_range "credit_score" applicant = true /\
            has_opt in_range "income" applicant = true /\
            has_opt in_range "loan_amount" applicant = true /\
            has_opt in_range "existing_debt" applicant = true /\
            has_opt in_range "risk_weight" (config self) = true /\
            has_opt in_range "market_weight" (config self) = true /\
            has_opt in_range "profit_weight" (config self) = true)
    by apply ints_in_range_inv.
  cbv [Overflow.calculate_rate calculate_rate bindM gets lift ret].
  match goal with
  | |- (_ -> match ?P' with Ok _ => _ | Raise _ => _ end
             = match ?P with Ok _ => _ | Raise _ => _ end) /\ _ =>
      assert (HP : refines within P' P)
  end.
  { apply refines_bind; [ apply refines_refl | intros country _ ].
    apply refines_bind; [ apply refines_refl | intros base_rate _ ].
    apply refines_bind; [ apply risk_adjustment_refines; intro Hw; apply (Hin Hw) | ].
    intros risk _.
    apply refines_bind; [ apply refines_refl | intros market _ ].
    apply refines_bind; [ apply refines_refl | intros profit _ ].
    apply refines_bind; [ apply refines_refl | intros vr Hvr ].
    apply refines_bind.
    { apply as_float_refines. intro Hw.
      exact (in_range_getitem _ _ _ (proj1 (proj2 (proj2 (proj2 (proj2 (Hin Hw)))))) Hvr). }
    intros rw _.
    apply refines_bind; [ apply refines_refl | intros vm Hvm ].
    apply refines_bind.
    { apply as_float_refines. intro Hw.
      exact (in_range_getitem _ _ _
               (proj1 (proj2 (proj2 (proj2 (proj2 (proj2 (Hin Hw))))))) Hvm). }
    intros mw _.
    apply refines_bind; [ apply refines_refl | intros vp Hvp ].
    apply refines_bind.
    { apply as_float_refines. intro Hw.
      exact (in_range_getitem _ _ _
               (proj2 (proj2 (proj2 (proj2 (proj2 (proj2 (Hin Hw))))))) Hvp). }
    intros pw _.
    apply refines_bind;
      [ apply default_probability_refines; intro Hw; apply (Hin Hw) | intros dp _ ].
    apply refines_bind; [ apply refines_refl | intros loan Hloan ].
    apply refines_bind.
    { apply expected_profit_refines. intro Hw.
      exact (in_range_getitem _ _ _ (proj1 (proj2 (proj2 (Hin Hw)))) Hloan). }
    intros; apply refines_refl. }
  destruct HP as [Heq [E | E]].
  - split; [ intro Hw | left ]; now rewrite E.
  - split; [ intro Hw; now rewrite (Heq Hw) | right; now rewrite E ].
Qed.

(** A run with ints apart that returns, returns what the run on exact
    numbers returns. *)
Lemma calculate_rate_refines_ok (applicant : dict) (now : string)
    (self self' : agent) (decision : dict) :
  Overflow.calculate_rate applicant now self = (Ok decision, self') ->
  calculate_rate applicant now self = (Ok decision, self').
Proof.
  intro H.
  destruct (calculate_rate_refines applicant now self) as [_ [E | E]];
    rewrite E in H; [ exact H | discriminate H ].
Qed.

(** C7 (amended).  On a record whose required fields are present and
    numeric (zero income, debt and loan and out-of-range scores
    included), [calculate_rate] never divides by zero, on any agent: the
    debt-to-income and loan-to-income ratios are divided by
    [max(income, 1)], which is at least 1 and is the int 1 for an income
    below 1, and the divisors of the score are the constants 550 and
    600.  When the ints it converts are within the range of a float, and
    the total adjustments logged so far are floats, it raises no
    arithmetic error at all, and returns a decision on an agent that can
    log it. *)
Theorem calculate_rate_arithmetic_total (applicant : dict) (now : string) (self : agent) :
  numeric_applicant applicant = true ->
  (forall e self',
     Overflow.calculate_rate applicant now self = (Raise e, self') ->
     e <> ZeroDivisionError) /\
  (ints_in_range applicant (config self) = true ->
   float_ledger self = true ->
   (forall e self',
      Overflow.calculate_rate applicant now self = (Raise e, self') ->
      is_arithmetic_error e = false) /\
   (agent_ready self = true ->
    exists decision self',
      Overflow.calculate_rate applicant now self = (Ok decision, self'))) /\
  (exists country score income loan debt m,
     getitem applicant "country" = Ok (PStr country) /\
     num_field "credit_score" applicant = Ok score /\
     num_field "income" applicant = Ok income /\
     num_field "loan_amount" applicant = Ok loan /\
     to_num (get_default applicant "existing_debt" (PInt 0)) = Ok debt /\
     Overflow.income_or_one applicant = Ok m /\
     Overflow.value m = py_max income 1 /\
     1 <= py_max income 1 /\
     (income < 1 -> m = Overflow.int 1) /\
     (ints_in_range applicant (config self) = true ->
      Overflow.debt_to_income applicant = Ok (debt / py_max income 1) /\
      Overflow._calculate_risk_adjustment applicant =
        Ok (- 0.03 +
            ((1 - (score - 300) /
                  (if eq_str (PStr country) "USA" then 850 - 300 else 900 - 300)) * 0.5 +
             py_min (debt / py_max income 1) 1.0 * 0.3 +
             py_min (loan / py_max income 1) 1.0 * 0.2) * 0.11))).
Proof.
  intro Hnum.
  destruct (calculate_rate_refines applicant now self) as [Heq Hor].
  split; [ | split ].
  - intros e self' Hrun. destruct Hor as [E | E]; rewrite E in Hrun.
    + apply calculate_rate_no_arithmetic_error in Hrun.
      intros ->. discriminate Hrun.
    + injection Hrun as <- _. discriminate.
  - intros Hrange _. rewrite (Heq Hrange). split.
    + intros e self'. apply calculate_rate_no_arithmetic_error.
    + intro Hready.
      destruct (calculate_rate_succeeds applicant now self Hnum Hready)
        as (p & h & _ & _ & H).
      eauto.
  - destruct (risk_adjustment_formula applicant Hnum)
      as (c & score & income & loan & debt & Hc & Hs & Hi & Hl & Hd & Hdti & Hrisk).
    pose proof (income_or_one_value applicant) as Hvalue.
    rewrite (income_or_one_ok _ _ Hi) in Hvalue.
    destruct (Overflow.income_or_one applicant) as [m|e] eqn:Hm;
      cbn [bind] in Hvalue; [ | discriminate Hvalue ].
    injection Hvalue as Hvalue.
    exists c, score, income, loan, debt, m.
    do 5 (split; [ assumption | ]).
    split; [ reflexivity | ].
    split; [ now symmetry | ].
    split; [ apply py_max_lb | ].
    split.
    + intro Hlt. unfold Overflow.income_or_one in Hm.
      do 2 bind_inv Hm. injection Hm as <-.
      apply num_field_inv in Hi as (v & Hv & Hn).
      rewrite Hv in E. injection E as <-.
      rewrite to_num_to_number, E0 in Hn. cbn [bind] in Hn. injection Hn as Hn.
      unfold Overflow.max_one. rewrite Hn.
      apply Qltb_lt in Hlt. now rewrite Hlt.
    + intro Hrange.
      destruct (ints_in_range_inv _ _ Hrange) as (Rs & Ri & Rl & Rd & _).
      split.
      * rewrite <- Hdti.
        exact (proj1 (debt_to_income_refines True applicant
                        (fun _ => Ri) (fun _ => Rd)) I).
      * rewrite <- Hrisk.
        exact (proj1 (risk_adjustment_refines True applicant
                        (fun _ => Rs) (fun _ => Ri) (fun _ => Rl) (fun _ => Rd)) I).
Qed.

Lemma calculate_rate_arithmetic_total_witness :
  numeric_applicant edge_applicant = true /\
  ints_in_range edge_applicant (config (__init__ None)) = true /\
  (forall e self',
     Overflow.calculate_rate edge_applicant example_now (__init__ None) = (Raise e, self') ->
     is_arithmetic_error e = false) /\
  exists decision self',
    Overflow.calculate_rate edge_applicant example_now (__init__ None) = (Ok decision, self').
Proof.
  assert (Hrange : ints_in_range edge_applicant (config (__init__ None)) = true)
    by (vm_compute; reflexivity).
  split; [ reflexivity | ]. split; [ exact Hrange | ].
  destruct (calculate_rate_arithmetic_total edge_applicant example_now (__init__ None))
    as (_ & Htotal & _); [ reflexivity | ].
  destruct (Htotal Hrange eq_refl) as [Hnae Hok].
  split; [ exact Hnae | exact (Hok eq_refl) ].
Defined.

(** C7 as stated fails: a credit score of 10^400 is numeric, and
    [(credit_score - 300) / 550] raises [OverflowError], which is an
    arithmetic error; the agent is left as it was. *)
Lemma numeric_record_overflows :
  numeric_applicant huge_score_applicant = true /\
  ints_in_range huge_score_applicant (config (__init__ None)) = false /\
  Overflow.calculate_rate huge_score_applicant example_now (__init__ None)
    = (Raise OverflowError, __init__ None) /\
  is_arithmetic_error OverflowError = true /\
  exn_name OverflowError = "OverflowError".
Proof.
  split; [ reflexivity | ].
  split; [ vm_compute; reflexivity | ].
  split; [ vm_compute; reflexivity | ].
  split; reflexivity.
Qed.

(* ================================================================== *)
(** * Missing fields *)

Lemma has_opt_inv (check : pyval -> bool) (key : string) (d : dict) (v : pyval) :
  has_opt check key d = true -> dict_get key d = Some v -> check v = true.
Proof.
  unfold has_opt. intros H E. now rewrite E in H.
Qed.

Lemma getitem_missing (d : dict) (key : string) :
  dict_get key d = None -> getitem d key = Raise (KeyError key).
Proof.
  unfold getitem. now intros ->.
Qed.

Lemma getitem_present (d : dict) (key : string) (v : pyval) :
  dict_get key d = Some v -> getitem d key = Ok v.
Proof.
  unfold getitem. now intros ->.
Qed.

Lemma risk_adjustment_reads_income (applicant : dict) (r : Q) :
  _calculate_risk_adjustment applicant = Ok r ->
  exists v, dict_get "income" applicant = Some v.
Proof.
  unfold _calculate_risk_adjustment. intro H.
  do 4 bind_inv H.
  apply debt_to_income_inv in E2 as (debt & income & _ & Hi & _).
  apply num_field_inv in Hi as (v & Hv & _).
  unfold getitem in Hv. destruct (dict_get "income" applicant); [ eauto | discriminate ].
Qed.

(** A run that fails before the decision is built leaves the agent as
    it was; a record that lacks a required field always fails so. *)
Lemma calculate_rate_missing_fails (applicant : dict) (field : string)
    (now : string) (self : agent) :
  In field required_fields ->
  dict_get field applicant = None ->
  exists e, calculate_rate applicant now self = (Raise e, self).
Proof.
  intros Hin Hnone. cbv [calculate_rate bindM gets lift ret].
  match goal with
  | |- exists _, match ?P with Ok _ => _ | Raise _ => _ end = _ =>
      destruct P as [d|e] eqn:EP
  end; [ exfalso | eauto ].
  repeat bind_inv EP.
  apply risk_adjustment_reads_income in E1 as [vi Hvi].
  unfold getitem in E, E13, E11.
  simpl in Hin.
  destruct Hin as [<- | [<- | [<- | [<- | []]]]];
    rewrite Hnone in *; discriminate.
Qed.




(* ================================================================== *)
(** * The default probability *)

Lemma default_probability_inv (applicant : dict) (dp : Q) :
  _estimate_default_probability applicant = Ok dp ->
  exists country score debt income,
    getitem applicant "country" = Ok country /\
    num_field "credit_score" applicant = Ok score /\
    to_num (get_default applicant "existing_debt" (PInt 0)) = Ok debt /\
    num_field "income" applicant = Ok income /\
    dp = py_min
           (0.25 * (1 - (score - 300) /
                         (if eq_str country "USA" then 850 - 300 else 900 - 300)) +
            debt / py_max income 1 * 0.1)
           0.99.
Proof.
  unfold _estimate_default_probability. intro H. do 4 bind_inv H.
  injection H as <-.
  apply normalize_inv in E1 as (score & Hs & ->).
  apply debt_to_income_inv in E2 as (debt & income & Hd & Hi & ->).
  exists a0, score, debt, income.
  repeat split; trivial.
  apply num_field_inv. eauto.
Qed.

Lemma valid_applicant_inv (applicant : dict) :
  valid_applicant applicant = true ->
  exists country score income debt,
    dict_get "country" applicant = Some country /\
    num_field "credit_score" applicant = Ok score /\
    num_field "income" applicant = Ok income /\
    to_num (get_default applicant "existing_debt" (PInt 0)) = Ok debt /\
    300 <= score /\
    score <= (if eq_str country "USA" then 850 else 900) /\
    0 <= income /\ 0 <= debt.
Proof.
  unfold valid_applicant, score_range.
  destruct (dict_get "country" applicant) as [country|]; [ | discriminate ].
  destruct (num_field "credit_score" applicant) as [score|]; [ | discriminate ].
  destruct (num_field "income" applicant) as [income|]; [ | discriminate ].
  destruct (to_num _) as [debt|]; [ | discriminate ].
  intro H. repeat (apply andb_true_iff in H as [H ?]).
  repeat match goal with
         | Hb : Qle_bool _ _ = true |- _ => apply Qle_bool_iff in Hb
         end.
  exists country, score, income, debt.
  destruct (eq_str country "USA"); cbn [fst snd] in *; repeat split; trivial.
Qed.

Lemma py_round_lower_eq (x lo : Q) (n : Z) (d : nat) :
  lo == n # pow10 d -> lo <= x -> lo <= py_round x d.
Proof.
  intros E H. rewrite E in *. now apply py_round_lower.
Qed.

Lemma py_round_upper_eq (x hi : Q) (n : Z) (d : nat) :
  hi == n # pow10 d -> x <= hi -> py_round x d <= hi.
Proof.
  intros E H. rewrite E in *. now apply py_round_upper.
Qed.

Lemma ratio_nonneg (a b : Q) : 0 <= a -> 0 < b -> 0 <= a / b.
Proof.
  intros Ha Hb. apply Qle_shift_div_l; trivial. lra.
Qed.

(** C3.  For a valid applicant the stored [default_probability] lies
    in [0, 0.99].  It is [min(estimate, 0.99)] rounded: the upper bound
    is a clamp and holds for every applicant, the lower bound is not
    clamped and holds because the estimate of a valid applicant is not
    negative (the edge applicant, whose score is above its range, gets
    a negative one). *)
Theorem default_probability_bounds (applicant : dict) (now : string)
    (self self' : agent) (decision : dict) :
  calculate_rate applicant now self = (Ok decision, self') ->
  valid_applicant applicant = true ->
  (exists estimate dp,
     _estimate_default_probability applicant = Ok (py_min estimate 0.99) /\
     dp = py_round (py_min estimate 0.99) 4 /\
     float_field "default_probability" decision = Some dp /\
     0 <= estimate /\
     0 <= dp <= 0.99) /\
  (forall applicant' now' other other' decision',
     calculate_rate applicant' now' other = (Ok decision', other') ->
     exists dp', float_field "default_probability" decision' = Some dp' /\ dp' <= 0.99) /\
  (exists decision' other' dp',
     calculate_rate edge_applicant example_now (__init__ None) = (Ok decision', other') /\
     float_field "default_probability" decision' = Some dp' /\
     dp' < 0).
Proof.
  intros Hrun Hvalid. split; [ | split ].
  - apply calculate_rate_ok_inv in Hrun as (p & Hp & -> & _).
    destruct Hp as (_ & _ & _ & _ & _ & _ & _ & _ & _ & _ & Hdp & _).
    destruct (default_probability_inv _ _ Hdp)
      as (country & score & debt & income & Hc & Hs & Hd & Hi & Heq).
    destruct (valid_applicant_inv _ Hvalid)
      as (country' & score' & income' & debt' & Hc' & Hs' & Hi' & Hd'
          & Hlo & Hhi & Hinc & Hdebt).
    unfold getitem in Hc. rewrite Hc' in Hc. injection Hc as ->.
    rewrite Hs in Hs'. injection Hs' as <-.
    rewrite Hi in Hi'. injection Hi' as <-.
    rewrite Hd in Hd'. injection Hd' as <-.
    set (estimate := 0.25 * (1 - (score - 300) /
                        (if eq_str country "USA" then 850 - 300 else 900 - 300)) +
                     debt / py_max income 1 * 0.1) in *.
    assert (Hest : 0 <= estimate).
    { pose proof (py_max_lb income 1) as [_ Hm].
      assert (Hdti : 0 <= debt / py_max income 1) by (apply ratio_nonneg; lra).
      assert (Hn : (score - 300) /
                     (if eq_str country "USA" then 850 - 300 else 900 - 300) <= 1).
      { destruct (eq_str country "USA"); apply Qle_shift_div_r; lra. }
      unfold estimate. lra. }
    exists estimate, (py_round (py_min estimate 0.99) 4).
    split; [ now rewrite Hdp, Heq | ].
    split; [ reflexivity | ].
    split; [ cbv [float_field decision_of]; cbn; now rewrite Heq | ].
    split; [ exact Hest | ].
    split.
    + apply (py_round_lower_eq _ _ 0 4); [ reflexivity | ].
      destruct (py_min_cases estimate 0.99) as [[_ ->] | [_ ->]]; lra.
    + apply (py_round_upper_eq _ _ 9900 4); [ reflexivity | ].
      pose proof (py_min_ub estimate 0.99). lra.
  - intros applicant' now' other other' decision' Hrun'.
    apply calculate_rate_ok_inv in Hrun' as (p & Hp & -> & _).
    destruct Hp as (_ & _ & _ & _ & _ & _ & _ & _ & _ & _ & Hdp & _).
    destruct (default_probability_inv _ _ Hdp)
      as (country & score & debt & income & _ & _ & _ & _ & Heq).
    eexists. split; [ reflexivity | ].
    apply (py_round_upper_eq _ _ 9900 4); [ reflexivity | ]. rewrite Heq.
    match goal with |- py_min ?x _ <= _ => pose proof (py_min_ub x 0.99) end.
    lra.
  - eexists. eexists. eexists.
    split; [ vm_compute; reflexivity | ].
    split; [ vm_compute; reflexivity | ].
    reflexivity.
Qed.

Lemma default_probability_bounds_witness :
  exists decision self',
    calculate_rate usa_applicant example_now (__init__ None) = (Ok decision, self') /\
    valid_applicant usa_applicant = true /\
    exists estimate dp,
      _estimate_default_probability usa_applicant = Ok (py_min estimate 0.99) /\
      dp = py_round (py_min estimate 0.99) 4 /\
      float_field "default_probability" decision = Some dp /\
      0 <= estimate /\
      0 <= dp <= 0.99.
Proof.
  eexists. eexists.
  split; [ vm_compute; reflexivity | ].
  split; [ reflexivity | ].
  refine (proj1 (default_probability_bounds usa_applicant example_now
                   (__init__ None) _ _ _ _));
    [ vm_compute; reflexivity | reflexivity ].
Defined.

(* ================================================================== *)
(** * Scenario A *)

Ltac qcompute :=
  vm_compute;
  first [ reflexivity | discriminate | split; discriminate ].

(** C8.  The USA applicant (score 720, income 85000, loan 15000, debt
    12000) under the default configuration: base rate 0.12, market
    adjustment -0.01 (700 <= 720 < 750), profit adjustment -0.0025 (the
    15000 threshold is inclusive), risk adjustment -719/85000, which is
    -0.0085 to four decimals, total adjustment -0.00835 to four
    decimals, final rate 0.1117 to four decimals and within the bounds;
    the decision stores 0.12, -0.0085, -0.01, -0.0025, -0.0083 and
    0.1117. *)
Theorem scenario_A (now : string) :
  exists decision self' p,
    calculate_rate usa_applicant now (__init__ None) = (Ok decision, self') /\
    priced _default_config usa_applicant p /\
    p_base_rate p == 0.12 /\
    (Qgeb 720 700 = true /\ Qgeb 720 750 = false /\ p_market p == - 0.01) /\
    (Qgeb 15000 15000 = true /\ Qgeb 15000 25000 = false /\ p_profit p == - 0.0025) /\
    (p_risk p == - 719 # 85000 /\ approx (p_risk p) (- 0.0085)) /\
    approx (p_total p) (- 0.00835) /\
    (approx (p_final p) 0.1117 /\ min_rate <= p_final p <= max_rate) /\
    field_equals "base_rate" decision 0.12 /\
    field_equals "risk_adjustment" decision (- 0.0085) /\
    field_equals "market_adjustment" decision (- 0.01) /\
    field_equals "profit_adjustment" decision (- 0.0025) /\
    field_equals "total_adjustment" decision (- 0.0083) /\
    field_equals "final_rate" decision 0.1117.
Proof.
  destruct (calculate_rate_succeeds usa_applicant now (__init__ None))
    as (p & h & Hp & Hh & Hrun); try reflexivity.
  cbv zeta in Hrun.
  eexists. eexists. exists p.
  split; [ exact Hrun | ].
  split; [ exact Hp | ].
  destruct Hp as (Hc & Hs & Hl & Hb & Hrisk & Hmarket & Hprofit & Hrw & Hmw & Hpw & _).
  clear Hrun Hh.
  destruct p as [country score loan base risk market profit rw mw pw dp ep reasons].
  cbn [p_country p_credit_score p_loan_amount p_base_rate p_risk p_market p_profit
       p_risk_weight p_market_weight p_profit_weight] in *.
  vm_compute in Hc. injection Hc as <-.
  vm_compute in Hb. injection Hb as <-.
  vm_compute in Hrisk. injection Hrisk as <-.
  vm_compute in Hmarket. injection Hmarket as <-.
  vm_compute in Hprofit. injection Hprofit as <-.
  vm_compute in Hrw. injection Hrw as <-.
  vm_compute in Hmw. injection Hmw as <-.
  vm_compute in Hpw. injection Hpw as <-.
  split; [ qcompute | ].
  split; [ split; [ qcompute | split; qcompute ] | ].
  split; [ split; [ qcompute | split; qcompute ] | ].
  split; [ split; qcompute | ].
  split; [ qcompute | ].
  split; [ split; [ qcompute | split; qcompute ] | ].
  unfold field_equals.
  repeat split; eexists; (split; [ reflexivity | qcompute ]).
Qed.

(* ================================================================== *)
(** * Loading a ledger *)

(** C6.  [load_decisions] on a readable file succeeds, makes the loaded
    value the whole history, whatever the history was, and leaves the
    four stats and the config as they were: nothing is recomputed.  A
    new agent that loads a ledger of one decision still counts none. *)
Theorem load_decisions_replaces_history (self : agent) (filepath : string)
    (fs : files) (doc : json) :
  fs !! filepath = Some (JsonText doc) ->
  (exists self',
     load_decisions filepath fs self = (Ok tt, self') /\
     decision_history self' = load doc /\
     stats self' = stats self /\
     total_decisions (stats self') = total_decisions (stats self) /\
     avg_adjustment (stats self') = avg_adjustment (stats self) /\
     total_profit (stats self') = total_profit (stats self) /\
     default_rate (stats self') = default_rate (stats self) /\
     config self' = config self) /\
  (exists loaded decision,
     load_decisions "ledger.json" ledger_of_one (__init__ None) = (Ok tt, loaded) /\
     decision_history loaded = PList [decision] /\
     total_decisions (stats loaded) = 0%Z /\
     total_profit (stats loaded) = 0.0).
Proof.
  intro Hfile. split.
  - unfold load_decisions. rewrite Hfile.
    eexists. split; [ reflexivity | ]. repeat split.
  - eexists. eexists.
    split; [ vm_compute; reflexivity | ].
    repeat split.
Qed.

Lemma load_decisions_replaces_history_witness :
  ledger_of_one !! "ledger.json" = Some (JsonText (dump (decision_history agent_after_one))) /\
  exists self',
    load_decisions "ledger.json" ledger_of_one agent_emptied = (Ok tt, self') /\
    decision_history self' = load (dump (decision_history agent_after_one)) /\
    stats self' = stats agent_emptied /\
    total_decisions (stats self') = total_decisions (stats agent_emptied) /\
    avg_adjustment (stats self') = avg_adjustment (stats agent_emptied) /\
    total_profit (stats self') = total_profit (stats agent_emptied) /\
    default_rate (stats self') = default_rate (stats agent_emptied) /\
    config self' = config agent_emptied.
Proof.
  split; [ vm_compute; reflexivity | ].
  refine (proj1 (load_decisions_replaces_history agent_emptied "ledger.json"
                   ledger_of_one _ _)).
  vm_compute. reflexivity.
Defined.

(** A load that cannot read the file raises and changes nothing. *)
Lemma load_decisions_failure (self self' : agent) (filepath : string)
    (fs : files) (e : exn) :
  load_decisions filepath fs self = (Raise e, self') ->
  self' = self /\
  ((fs !! filepath = None /\ e = FileNotFoundError filepath) \/
   (fs !! filepath = Some OtherText /\ e = JSONDecodeError)).
Proof.
  unfold load_decisions, lift, modify.
  destruct (fs !! filepath) as [[doc|]|]; intro H; try discriminate H;
    injection H as <- <-; auto.
Qed.

(* ================================================================== *)
(** * Statistics of an empty history *)

(** C10 (amended).  With an empty history [get_statistics] does not
    fail: it returns the running stats record, with the keys
    total_decisions, avg_adjustment, total_profit and default_rate; on a
    new agent that record is the initial one, all zeros.  With a history
    that is not empty it returns other keys: total_decisions,
    avg_rate_adjustment, avg_final_rate, total_expected_profit and
    avg_default_probability. *)
Theorem empty_history_statistics (self : agent) :
  decision_history self = PList [] ->
  get_statistics self = Ok (stats_dict (stats self)) /\
  keys (stats_dict (stats self)) =
    ["total_decisions"; "avg_adjustment"; "total_profit"; "default_rate"] /\
  (forall cfg,
     get_statistics (__init__ cfg) =
       Ok [("total_decisions", PInt 0); ("avg_adjustment", PFloat 0.0);
           ("total_profit", PFloat 0.0); ("default_rate", PFloat 0.0)]) /\
  (forall other d,
     truthy (decision_history other) = true ->
     get_statistics other = Ok d ->
     keys d =
       ["total_decisions"; "avg_rate_adjustment"; "avg_final_rate";
        "total_expected_profit"; "avg_default_probability"] /\
     keys d <> keys (stats_dict (stats self))).
Proof.
  intro Hempty. split; [ | split; [ | split ] ].
  - unfold get_statistics. rewrite Hempty. reflexivity.
  - reflexivity.
  - intro cfg. reflexivity.
  - intros other d Htruthy Hd. unfold get_statistics in Hd.
    rewrite Htruthy in Hd. cbn [negb] in Hd.
    do 4 bind_inv Hd. injection Hd as <-.
    split; [ reflexivity | discriminate ].
Qed.

Lemma empty_history_statistics_witness :
  decision_history agent_emptied = PList [] /\
  get_statistics agent_emptied = Ok (stats_dict (stats agent_emptied)).
Proof.
  split; [ vm_compute; reflexivity | ].
  refine (proj1 (empty_history_statistics agent_emptied _)).
  vm_compute. reflexivity.
Defined.

(** C10 as stated fails: an agent that priced one applicant and then
    loaded an empty ledger has an empty history, and [get_statistics]
    returns its stats, which count one decision, not the initial
    zeros. *)
Lemma emptied_agent_statistics_not_initial :
  load_decisions "ledger.json" empty_ledger agent_after_one = (Ok tt, agent_emptied) /\
  decision_history agent_emptied = PList [] /\
  (exists st,
     get_statistics agent_emptied = Ok st /\
     dict_get "total_decisions" st = Some (PInt 1)) /\
  get_statistics agent_emptied <> get_statistics (__init__ None).
Proof.
  split; [ vm_compute; reflexivity | ].
  split; [ vm_compute; reflexivity | ].
  split.
  - eexists. split; vm_compute; reflexivity.
  - vm_compute. discriminate.
Qed.

(* ================================================================== *)
(** * Countries without a base rate *)

Lemma dict_get_set (k k' : string) (v : pyval) (d : dict) :
  dict_get k (dict_set k' v d) = if String.eqb k' k then Some v else dict_get k d.
Proof.
  induction d as [ | [k0 v0] d IH ]; cbn [dict_set dict_get].
  - destruct (String.eqb k' k); reflexivity.
  - destruct (String.eqb k0 k') eqn:E0; cbn [dict_get].
    + apply String.eqb_eq in E0 as ->.
      destruct (String.eqb k' k); reflexivity.
    + destruct (String.eqb k0 k) eqn:E1; [ | exact IH ].
      apply String.eqb_eq in E1 as ->.
      rewrite String.eqb_sym, E0. reflexivity.
Qed.

Lemma eq_str_not_usa (c : string) : c <> "USA" -> eq_str (PStr c) "USA" = false.
Proof.
  intro H. cbn [eq_str]. now apply String.eqb_neq.
Qed.

Lemma normalize_not_usa (credit_score : pyval) (c : string) :
  c <> "USA" ->
  normalize credit_score (PStr c) =
    (let! score := to_num credit_score in py_div (score - 300) (900 - 300)).
Proof.
  intro H. unfold normalize. now rewrite (eq_str_not_usa c H).
Qed.

Lemma base_rate_default (c : string) :
  c <> "USA" -> c <> "India" -> base_rates_get (PStr c) 0.15 = Ok 0.15.
Proof.
  intros Hnot_usa Hnot_india.
  unfold base_rates_get, base_rates. cbn [hashable find fst snd].
  rewrite (proj2 (String.eqb_neq "USA" c)) by congruence.
  rewrite (proj2 (String.eqb_neq "India" c)) by congruence.
  reflexivity.
Qed.

Ltac split_tests :=
  repeat match goal with
         | |- context [Qltb ?x ?y] =>
             let E := fresh "E" in
             destruct (Qltb x y) eqn:E;
             [ apply Qltb_lt in E | apply Qltb_ge in E ]
         | |- context [Qgeb ?x ?y] =>
             let E := fresh "E" in
             destruct (Qgeb x y) eqn:E;
             [ apply Qgeb_ge in E | apply Qgeb_lt in E ]
         end.

Ltac member :=
  solve [ cbn [In]; repeat first [ left; reflexivity | right ] ].

Ltac not_member H :=
  cbn [In] in H;
  repeat match type of H with
         | _ \/ _ => destruct H as [H | H]; [ discriminate H | ]
         end;
  first [ discriminate H | contradiction H ].

Section OtherCountry.

Variable applicant : dict.
Variables (c : string) (credit_score : pyval) (score : Q).
Hypothesis Hcountry : dict_get "country" applicant = Some (PStr c).
Hypothesis Hnot_usa : c <> "USA".
Hypothesis Hcredit_score : getitem applicant "credit_score" = Ok credit_score.
Hypothesis Hscore : to_num credit_score = Ok score.

(** The thresholds of the branch that is not for 'USA'. *)
Lemma market_adjustment_not_usa :
  _calculate_market_adjustment applicant =
    Ok (if Qgeb score 800 then - 0.02
        else if Qgeb score 750 then - 0.01 else 0.0).
Proof.
  unfold _calculate_market_adjustment.
  rewrite Hcredit_score, (getitem_present _ _ _ Hcountry). cbn [bind].
  rewrite (eq_str_not_usa c Hnot_usa), Hscore. cbn [bind].
  destruct (Qgeb score 800); [ reflexivity | ].
  destruct (Qgeb score 750); reflexivity.
Qed.

(** The score bands of the branch that is not for 'USA'. *)
Lemma reasoning_not_usa (risk market profit : Q) :
  exists reasons,
    _generate_reasoning risk market profit applicant = Ok reasons /\
    (In "Excellent CIBIL score (800+)" reasons <-> 800 <= score) /\
    (In "Below-average CIBIL score" reasons <-> score < 700) /\
    ~ In "Excellent FICO score (750+)" reasons /\
    ~ In "Below-average FICO score" reasons.
Proof.
  unfold _generate_reasoning. cbv zeta.
  rewrite Hcredit_score, (getitem_present _ _ _ Hcountry). cbn [bind].
  rewrite (eq_str_not_usa c Hnot_usa), Hscore. cbn [bind].
  split_tests; cbn [app]; eexists; (split; [ reflexivity | ]);
    (split; [ split; intro Hin;
                first [ assumption | member | solve [ exfalso; lra ] | not_member Hin ] | ]);
    (split; [ split; intro Hin;
                first [ assumption | member | solve [ exfalso; lra ] | not_member Hin ] | ]);
    split; intro Hin; not_member Hin.
Qed.

End OtherCountry.

Lemma default_probability_formula (applicant : dict) :
  numeric_applicant applicant = true ->
  exists country score debt income,
    getitem applicant "country" = Ok country /\
    num_field "credit_score" applicant = Ok score /\
    to_num (get_default applicant "existing_debt" (PInt 0)) = Ok debt /\
    num_field "income" applicant = Ok income /\
    _estimate_default_probability applicant =
      Ok (py_min
            (0.25 * (1 - (score - 300) /
                          (if eq_str country "USA" then 850 - 300 else 900 - 300)) +
             debt / py_max income 1 * 0.1)
            0.99).
Proof.
  intro Hnum.
  destruct (default_probability_ok applicant Hnum) as [dp Hdp].
  destruct (default_probability_inv _ _ Hdp)
    as (country & score & debt & income & Hc & Hs & Hd & Hi & ->).
  exists country, score, debt, income. repeat split; assumption.
Qed.

(** C9.  A country string other than 'USA' and 'India' gets the base
    rate 0.15, and every branch on the country is the one that is not
    for 'USA'.  The score is normalised on 300-900: so it is in the risk
    adjustment and in the default probability.  The market adjustment is
    -0.02 from 800 and -0.01 from 750.  The reasons name the CIBIL
    bands, excellent from 800 and below average under 700, and never a
    FICO band.  Nothing fails for the country: a numeric record, with
    ints within the range of a float, is priced at the base rate 0.15 by
    an agent that can log it. *)
Theorem unknown_country_fallback (applicant : dict) (c : string) :
  dict_get "country" applicant = Some (PStr c) ->
  c <> "USA" ->
  c <> "India" ->
  base_rates_get (PStr c) 0.15 = Ok 0.15 /\
  (forall now self decision self',
     Overflow.calculate_rate applicant now self = (Ok decision, self') ->
     field_equals "base_rate" decision 0.15) /\
  (forall credit_score score,
     to_num credit_score = Ok score ->
     in_range credit_score = true ->
     Overflow.normalize credit_score (PStr c) = Ok ((score - 300) / (900 - 300))) /\
  (forall score,
     num_field "credit_score" applicant = Ok score ->
     _calculate_market_adjustment applicant =
       Ok (if Qgeb score 800 then - 0.02
           else if Qgeb score 750 then - 0.01 else 0.0) /\
     forall risk market profit,
       exists reasons,
         _generate_reasoning risk market profit applicant = Ok reasons /\
         (In "Excellent CIBIL score (800+)" reasons <-> 800 <= score) /\
         (In "Below-average CIBIL score" reasons <-> score < 700) /\
         ~ In "Excellent FICO score (750+)" reasons /\
         ~ In "Below-average FICO score" reasons) /\
  (numeric_applicant applicant = true ->
   exists score income loan debt,
     num_field "credit_score" applicant = Ok score /\
     num_field "income" applicant = Ok income /\
     num_field "loan_amount" applicant = Ok loan /\
     to_num (get_default applicant "existing_debt" (PInt 0)) = Ok debt /\
     forall now self,
       ints_in_range applicant (config self) = true ->
       Overflow._calculate_risk_adjustment applicant =
         Ok (- 0.03 +
             ((1 - (score - 300) / (900 - 300)) * 0.5 +
              py_min (debt / py_max income 1) 1.0 * 0.3 +
              py_min (loan / py_max income 1) 1.0 * 0.2) * 0.11) /\
       Overflow._estimate_default_probability applicant =
         Ok (py_min
               (0.25 * (1 - (score - 300) / (900 - 300)) +
                debt / py_max income 1 * 0.1)
               0.99) /\
       (agent_ready self = true ->
        float_ledger self = true ->
        exists decision self',
          Overflow.calculate_rate applicant now self = (Ok decision, self') /\
          field_equals "base_rate" decision 0.15)).
Proof.
  intros Hcountry Hnot_usa Hnot_india.
  assert (Hbase : forall now self decision self',
            Overflow.calculate_rate applicant now self = (Ok decision, self') ->
            field_equals "base_rate" decision 0.15).
  { intros now self decision self' Hrun.
    apply calculate_rate_refines_ok in Hrun.
    apply calculate_rate_ok_inv in Hrun as (p & Hp & -> & _).
    destruct Hp as (Hc & _ & _ & Hb & _).
    rewrite (getitem_present _ _ _ Hcountry) in Hc. injection Hc as Hc.
    rewrite <- Hc, (base_rate_default c Hnot_usa Hnot_india) in Hb. injection Hb as Hb.
    exists (py_round (p_base_rate p) 4). split; [ reflexivity | ].
    rewrite <- Hb. vm_compute. reflexivity. }
  split; [ now apply base_rate_default | ].
  split; [ exact Hbase | ].
  split; [ | split ].
  - intros credit_score score Hscore Hrange.
    rewrite (proj1 (normalize_refines True credit_score (PStr c) (fun _ => Hrange)) I).
    rewrite (normalize_not_usa _ c Hnot_usa), Hscore. cbn [bind].
    apply py_div_ok. vm_compute. discriminate.
  - intros score Hs. apply num_field_inv in Hs as (v & Hv & Hn).
    split.
    + exact (market_adjustment_not_usa applicant c v score Hcountry Hnot_usa Hv Hn).
    + exact (reasoning_not_usa applicant c v score Hcountry Hnot_usa Hv Hn).
  - intro Hnum.
    destruct (risk_adjustment_formula applicant Hnum)
      as (c' & score & income & loan & debt & Hc & Hs & Hi & Hl & Hd & _ & Hrisk).
    rewrite (getitem_present _ _ _ Hcountry) in Hc. injection Hc as <-.
    rewrite (eq_str_not_usa c Hnot_usa) in Hrisk.
    destruct (default_probability_formula applicant Hnum)
      as (country & score' & debt' & income' & Hc' & Hs' & Hd' & Hi' & Hdp).
    rewrite (getitem_present _ _ _ Hcountry) in Hc'. injection Hc' as <-.
    rewrite (eq_str_not_usa c Hnot_usa) in Hdp.
    assert (score' = score) by congruence. subst score'.
    assert (debt' = debt) by congruence. subst debt'.
    assert (income' = income) by congruence. subst income'.
    exists score, income, loan, debt.
    do 4 (split; [ assumption | ]).
    intros now self Hrange.
    destruct (ints_in_range_inv _ _ Hrange) as (Rs & Ri & Rl & Rd & _).
    split; [ | split ].
    + rewrite <- Hrisk.
      exact (proj1 (risk_adjustment_refines True applicant
                      (fun _ => Rs) (fun _ => Ri) (fun _ => Rl) (fun _ => Rd)) I).
    + rewrite <- Hdp.
      exact (proj1 (default_probability_refines True applicant
                      (fun _ => Rs) (fun _ => Ri) (fun _ => Rd)) I).
    + intros Hready _.
      destruct (calculate_rate_succeeds applicant now self Hnum Hready)
        as (p & h & _ & _ & H).
      cbv zeta in H.
      rewrite <- (proj1 (calculate_rate_refines applicant now self) Hrange) in H.
      eexists. eexists. split; [ exact H | ].
      exact (Hbase _ _ _ _ H).
Qed.

Lemma unknown_country_fallback_witness :
  dict_get "country" brazil_applicant = Some (PStr "Brazil") /\
  "Brazil" <> "USA" /\
  "Brazil" <> "India" /\
  base_rates_get (PStr "Brazil") 0.15 = Ok 0.15 /\
  _calculate_market_adjustment brazil_applicant = Ok 0.0 /\
  exists decision self',
    Overflow.calculate_rate brazil_applicant example_now (__init__ None)
      = (Ok decision, self') /\
    field_equals "base_rate" decision 0.15.
Proof.
  assert (H1 : "Brazil" <> "USA") by discriminate.
  assert (H2 : "Brazil" <> "India") by discriminate.
  split; [ reflexivity | ].
  split; [ exact H1 | ].
  split; [ exact H2 | ].
  destruct (unknown_country_fallback brazil_applicant "Brazil" eq_refl H1 H2)
    as (Hb & _ & _ & Hm & Hnum).
  split; [ exact Hb | ].
  split; [ exact (proj1 (Hm 720 eq_refl)) | ].
  destruct (Hnum eq_refl) as (score & income & loan & debt & _ & _ & _ & _ & Hrun).
  assert (Hrange : ints_in_range brazil_applicant (config (__init__ None)) = true)
    by (vm_compute; reflexivity).
  exact (proj2 (proj2 (Hrun example_now (__init__ None) Hrange)) eq_refl eq_refl).
Defined.

(* ================================================================== *)
(** * Statistics of a long history *)

Lemma forallb_skipn {A : Type} (f : A -> bool) (n : nat) (l : list A) :
  forallb f l = true -> forallb f (skipn n l) = true.
Proof.
  revert l. induction n as [ | n IH ]; intros [ | a l ]; cbn [skipn]; trivial.
  cbn [forallb]. intro H. apply andb_true_iff in H as [_ H]. now apply IH.
Qed.

Lemma last_n_length {A : Type} (n : nat) (l : list A) :
  List.length (last_n n l) = Nat.min n (List.length l).
Proof.
  unfold last_n. rewrite length_skipn. lia.
Qed.

Lemma ledger_entry_numeric (v : pyval) :
  ledger_entry v = true ->
  numeric_at "total_adjustment" v = true /\
  numeric_at "final_rate" v = true /\
  numeric_at "default_probability" v = true /\
  numeric_at "expected_profit" v = true.
Proof.
  unfold ledger_entry. intro H.
  repeat (apply andb_true_iff in H as [H ?]). tauto.
Qed.

Lemma ledger_entries_numeric (key : string) (h : list pyval) :
  In key ["total_adjustment"; "final_rate"; "default_probability"; "expected_profit"] ->
  forallb ledger_entry h = true ->
  forallb (numeric_at key) h = true.
Proof.
  intros Hkey. rewrite !forallb_forall. intros H v Hv.
  destruct (ledger_entry_numeric v (H v Hv)) as (H1 & H2 & H3 & H4).
  simpl in Hkey.
  destruct Hkey as [<- | [<- | [<- | [<- | []]]]]; assumption.
Qed.

Lemma fold_left_Qplus_comp (xs : list Q) (a b : Q) :
  a == b -> fold_left Qplus xs a == fold_left Qplus xs b.
Proof.
  revert a b. induction xs as [ | x xs IH ]; intros a b E; cbn [fold_left]; trivial.
  apply IH. now rewrite E.
Qed.

(** Logging a list of entries appends them all, counts them all and
    adds up all their profits. *)
Lemma log_all_ok (decisions : list dict) :
  forallb ledger_entry (map PDict decisions) = true ->
  forall (self : agent) (h : list pyval),
    decision_history self = PList h ->
    forallb ledger_entry h = true ->
    exists self',
      log_all decisions self = (Ok tt, self') /\
      config self' = config self /\
      decision_history self' = PList (h ++ map PDict decisions) /\
      total_decisions (stats self') =
        (total_decisions (stats self) + Z.of_nat (List.length decisions))%Z /\
      total_profit (stats self') =
        fold_left Qplus (values_at "expected_profit" (map PDict decisions))
          (total_profit (stats self)) /\
      default_rate (stats self') = default_rate (stats self).
Proof.
  induction decisions as [ | d ds IH ]; intros Hall self h Hh Hhist.
  - exists self. cbn [log_all ret map]. rewrite app_nil_r, Z.add_0_r.
    repeat split; trivial.
  - cbn [map forallb] in Hall. apply andb_true_iff in Hall as [Hd Hds].
    destruct (ledger_entry_numeric _ Hd) as (Hadj & _ & _ & Hprofit).
    cbn [log_all]. unfold bindM.
    rewrite (_log_decision_ok d self h Hh
               (ledger_entries_total_adjustment h Hhist) Hadj Hprofit).
    match goal with
    | |- exists _, log_all ds ?s = _ /\ _ =>
        destruct (IH Hds s (h ++ [PDict d])) as (self' & Hrun & Hcfg & Hhist' & Hcount & Hsum & Hrate)
    end.
    + reflexivity.
    + rewrite forallb_app, Hhist. cbn [forallb]. now rewrite Hd.
    + exists self'. cbn [config decision_history stats total_decisions
                         total_profit default_rate] in *.
      split; [ exact Hrun | ]. split; [ exact Hcfg | ].
      split; [ rewrite Hhist', <- app_assoc; reflexivity | ].
      split; [ rewrite Hcount; cbn [List.length]; rewrite Nat2Z.inj_succ; ring | ].
      split; [ exact Hsum | exact Hrate ].
Qed.

(** The statistics of a history that is a list of entries, and not
    empty. *)
Lemma get_statistics_ok (self : agent) (h : list pyval) :
  decision_history self = PList h ->
  forallb ledger_entry h = true ->
  h <> [] ->
  let recent_decisions := last_n 100 h in
  let count := inject_Z (Z.of_nat (List.length recent_decisions)) in
  get_statistics self =
    Ok [("total_decisions", PInt (total_decisions (stats self)));
        ("avg_rate_adjustment",
         PFloat (py_round (Qsum (values_at "total_adjustment" recent_decisions) / count) 4));
        ("avg_final_rate",
         PFloat (py_round (Qsum (values_at "final_rate" recent_decisions) / count) 4));
        ("total_expected_profit", PFloat (py_round (total_profit (stats self)) 2));
        ("avg_default_probability",
         PFloat (py_round (Qsum (values_at "default_probability" recent_decisions) / count) 4))].
Proof.
  intros Hh Hall Hne. cbv zeta.
  assert (Hrecent : forallb ledger_entry (last_n 100 h) = true)
    by now apply forallb_skipn.
  assert (Hne' : last_n 100 h <> []).
  { intro E. apply (f_equal (@List.length pyval)) in E.
    rewrite last_n_length in E. destruct h; [ congruence | ].
    cbn [List.length] in E. lia. }
  unfold get_statistics. rewrite Hh.
  assert (Ht : truthy (PList h) = true) by (destruct h; [ congruence | reflexivity ]).
  rewrite Ht. cbn [negb recent items_of bind].
  rewrite !np_mean_of_ok; trivial;
    apply ledger_entries_numeric; trivial; simpl; tauto.
Qed.

(** C4.  After more than 100 decisions have been logged on a new
    agent, [get_statistics] returns the means of total_adjustment,
    final_rate and default_probability over the last 100 of them only,
    while total_decisions counts, and total_expected_profit sums, all
    of them. *)
Theorem statistics_window (cfg : option dict) (decisions : list dict) :
  forallb ledger_entry (map PDict decisions) = true ->
  (100 < List.length decisions)%nat ->
  exists self,
    log_all decisions (__init__ cfg) = (Ok tt, self) /\
    decision_history self = PList (map PDict decisions) /\
    let recent_decisions := last_n 100 (map PDict decisions) in
    List.length recent_decisions = 100%nat /\
    get_statistics self =
      Ok [("total_decisions", PInt (Z.of_nat (List.length decisions)));
          ("avg_rate_adjustment",
           PFloat (py_round (Qsum (values_at "total_adjustment" recent_decisions) / 100) 4));
          ("avg_final_rate",
           PFloat (py_round (Qsum (values_at "final_rate" recent_decisions) / 100) 4));
          ("total_expected_profit",
           PFloat (py_round
                     (Qsum (values_at "expected_profit" (map PDict decisions))) 2));
          ("avg_default_probability",
           PFloat (py_round
                     (Qsum (values_at "default_probability" recent_decisions) / 100) 4))].
Proof.
  intros Hall Hlen.
  destruct (log_all_ok decisions Hall (__init__ cfg) []) as
    (self & Hrun & _ & Hhist & Hcount & Hsum & _); try reflexivity.
  cbn [app] in Hhist.
  exists self. split; [ exact Hrun | ]. split; [ exact Hhist | ].
  cbv zeta.
  assert (Hrecent : List.length (last_n 100 (map PDict decisions)) = 100%nat).
  { rewrite last_n_length, length_map. unfold dict in *. lia. }
  split; [ exact Hrecent | ].
  rewrite (get_statistics_ok self _ Hhist Hall).
  - cbv zeta. rewrite Hrecent, Hcount, Hsum.
    cbn [__init__ stats total_decisions total_profit]. rewrite Z.add_0_l.
    rewrite (py_round_comp
               (fold_left Qplus (values_at "expected_profit" (map PDict decisions)) 0.0)
               (Qsum (values_at "expected_profit" (map PDict decisions))) 2).
    + reflexivity.
    + apply fold_left_Qplus_comp. reflexivity.
  - destruct decisions; [ cbn [List.length] in Hlen; lia | discriminate ].
Qed.

Lemma statistics_window_witness :
  forallb ledger_entry (map PDict (repeat decision_A 101)) = true /\
  (100 < List.length (repeat decision_A 101))%nat /\
  exists self,
    log_all (repeat decision_A 101) (__init__ None) = (Ok tt, self) /\
    decision_history self = PList (map PDict (repeat decision_A 101)).
Proof.
  split; [ vm_compute; reflexivity | ].
  split; [ vm_compute; lia | ].
  destruct (statistics_window None (repeat decision_A 101))
    as (self & Hrun & Hhist & _).
  - vm_compute. reflexivity.
  - vm_compute. lia.
  - exists self. split; [ exact Hrun | exact Hhist ].
Defined.

(* ================================================================== *)
(** * Export and load *)

Lemma dict_set_fresh (k : string) (v : pyval) (d : dict) :
  existsb (String.eqb k) (map fst d) = false ->
  dict_set k v d = d ++ [(k, v)].
Proof.
  induction d as [ | [k0 v0] d IH ]; cbn [dict_set map fst existsb app]; trivial.
  intro H. apply orb_false_iff in H as [Hk Hd].
  rewrite String.eqb_sym, Hk. now rewrite IH.
Qed.

Lemma existsb_app_false {A : Type} (f : A -> bool) (l1 l2 : list A) :
  existsb f (l1 ++ l2) = false <-> existsb f l1 = false /\ existsb f l2 = false.
Proof.
  rewrite existsb_app. apply orb_false_iff.
Qed.

Lemma distinct_app_cons (l1 l2 : list string) (k : string) :
  distinct (l1 ++ k :: l2) = true ->
  existsb (String.eqb k) l1 = false /\ distinct ((l1 ++ [k]) ++ l2) = true.
Proof.
  induction l1 as [ | x l1 IH ]; cbn [app distinct].
  - intro H. split; trivial.
  - intro H. apply andb_true_iff in H as [Hx Hd].
    apply negb_true_iff in Hx. apply existsb_app_false in Hx as [Hx1 Hx2].
    cbn [existsb] in Hx2. apply orb_false_iff in Hx2 as [Hxk Hx2].
    destruct (IH Hd) as [Hk Hd'].
    split.
    + cbn [existsb]. rewrite String.eqb_sym, Hxk. exact Hk.
    + rewrite Hd'. rewrite andb_true_r. apply negb_true_iff.
      apply existsb_app_false. split; trivial.
      apply existsb_app_false. split; trivial.
      cbn [existsb]. now rewrite Hxk.
Qed.

Lemma fold_dict_set_distinct (members acc : dict) :
  distinct (map fst (acc ++ members)) = true ->
  fold_left (fun d kv => dict_set (fst kv) (snd kv) d) members acc = acc ++ members.
Proof.
  revert acc. induction members as [ | [k v] members IH ]; intros acc H;
    cbn [fold_left fst snd].
  - now rewrite app_nil_r.
  - rewrite map_app in H. cbn [map fst] in H.
    apply distinct_app_cons in H as [Hk Hd].
    rewrite (dict_set_fresh k v acc Hk).
    rewrite IH.
    + now rewrite <- app_assoc.
    + rewrite !map_app. exact Hd.
Qed.

(** A proper dict is the dict of its own items. *)
Lemma dict_of_members_distinct (d : dict) :
  distinct (map fst d) = true -> dict_of_members d = d.
Proof.
  intro H. unfold dict_of_members. now rewrite fold_dict_set_distinct.
Qed.

(** What [json] writes for a JSON-shaped value, it reads back as that
    value. *)
Lemma load_dump (v : pyval) : json_shaped v = true -> load (dump v) = v.
Proof.
  induction v as [ | b | z | q | s | items IH | items IH | d IH ]
    using pyval_induction; cbn [json_shaped dump load]; trivial.
  - intro H. f_equal. rewrite map_map.
    induction IH as [ | x items Hx _ IHitems ]; cbn [map]; trivial.
    cbn [forallb] in H. apply andb_true_iff in H as [H1 H2].
    now rewrite Hx, IHitems.
  - discriminate.
  - intro H. apply andb_true_iff in H as [Hkeys Hvalues]. f_equal.
    rewrite map_map. cbn [fst snd].
    assert (E : map (fun kv : string * pyval => (fst kv, load (dump (snd kv)))) d = d).
    { clear Hkeys. induction IH as [ | [k x] d Hx _ IHd ]; cbn [map]; trivial.
      cbn [forallb snd fst] in *. apply andb_true_iff in Hvalues as [H1 H2].
      now rewrite Hx, IHd. }
    rewrite E. now apply dict_of_members_distinct.
Qed.

(** ** What a file can yield *)

Lemma dict_set_keys (k : string) (v : pyval) (d : dict) :
  distinct (map fst d) = true ->
  distinct (map fst (dict_set k v d)) = true.
Proof.
  induction d as [ | [k0 v0] d IH ]; cbn [dict_set map fst distinct]; trivial.
  intro H. apply andb_true_iff in H as [Hk Hd].
  destruct (String.eqb k0 k) eqn:E; cbn [map fst distinct].
  - now rewrite Hk, Hd.
  - rewrite (IH Hd), andb_true_r.
    apply negb_true_iff. apply negb_true_iff in Hk.
    clear IH Hd. induction d as [ | [k1 v1] d IHd ]; cbn [dict_set map fst existsb] in *.
    + now rewrite E.
    + apply orb_false_iff in Hk as [Hk1 Hk].
      destruct (String.eqb k1 k); cbn [map fst existsb].
      * now rewrite Hk1, Hk.
      * now rewrite Hk1, IHd.
Qed.

Lemma dict_set_values (P : pyval -> bool) (k : string) (v : pyval) (d : dict) :
  P v = true ->
  forallb (fun kv => P (snd kv)) d = true ->
  forallb (fun kv => P (snd kv)) (dict_set k v d) = true.
Proof.
  intro Hv. induction d as [ | [k0 v0] d IH ]; cbn [dict_set forallb snd].
  - now rewrite Hv.
  - intro H. apply andb_true_iff in H as [H0 Hd].
    destruct (String.eqb k0 k); cbn [forallb snd].
    + now rewrite Hv, Hd.
    + now rewrite H0, IH.
Qed.

Lemma dict_of_members_shaped (members : dict) :
  forallb (fun kv => json_shaped (snd kv)) members = true ->
  json_shaped (PDict (dict_of_members members)) = true.
Proof.
  unfold dict_of_members. intro H.
  assert (G : forall acc,
             json_shaped (PDict acc) = true ->
             json_shaped (PDict (fold_left
               (fun d kv => dict_set (fst kv) (snd kv) d) members acc)) = true).
  { induction members as [ | [k v] members IH ]; intros acc Hacc; cbn [fold_left]; trivial.
    cbn [forallb snd] in H. apply andb_true_iff in H as [Hv Hm].
    apply (IH Hm). cbn [json_shaped fst snd] in *.
    apply andb_true_iff in Hacc as [Hk Hvs].
    rewrite (dict_set_keys _ _ _ Hk).
    now rewrite (dict_set_values json_shaped). }
  now apply G.
Qed.

(** Whatever [json.load] returns is JSON-shaped. *)
Lemma load_shaped (j : json) : json_shaped (load j) = true.
Proof.
  induction j as [ | b | z | q | s | elements IH | members IH ]
    using json_induction; cbn [load]; trivial.
  - cbn [json_shaped].
    induction IH as [ | x l Hx _ IHl ]; cbn [map forallb]; trivial.
    now rewrite Hx, IHl.
  - apply dict_of_members_shaped.
    induction IH as [ | [k x] l Hx _ IHl ]; cbn [map forallb snd fst]; trivial.
    cbn [snd] in Hx. now rewrite Hx, IHl.
Qed.

(** ** The histories an agent can hold *)

Lemma strings_shaped (l : list string) : forallb json_shaped (map PStr l) = true.
Proof.
  induction l as [ | s l IH ]; cbn [map forallb json_shaped]; trivial.
Qed.

Lemma decision_of_shaped (now : string) (applicant_id : pyval) (p : pricing) :
  json_shaped applicant_id = true ->
  json_shaped (p_country p) = true ->
  json_shaped (p_credit_score p) = true ->
  json_shaped (p_loan_amount p) = true ->
  json_shaped (PDict (decision_of now applicant_id p)) = true.
Proof.
  intros Hid Hc Hs Hl. unfold decision_of.
  cbn [json_shaped map fst snd forallb].
  rewrite Hid, Hc, Hs, Hl, strings_shaped. reflexivity.
Qed.

Lemma has_opt_getitem (check : pyval -> bool) (key : string) (d : dict) (v : pyval) :
  has_opt check key d = true -> getitem d key = Ok v -> check v = true.
Proof.
  unfold has_opt, getitem. destruct (dict_get key d); intros H E;
    [ injection E as <-; exact H | discriminate E ].
Qed.

Lemma has_opt_get_default (check : pyval -> bool) (key : string) (d : dict)
    (default : pyval) :
  has_opt check key d = true -> check default = true ->
  check (get_default d key default) = true.
Proof.
  unfold has_opt, get_default. destruct (dict_get key d); trivial.
Qed.

(** [_log_decision] either leaves the history alone or appends the
    decision to it, however it ends. *)
Lemma _log_decision_history (decision : dict) (self self' : agent)
    (outcome : result unit) :
  _log_decision decision self = (outcome, self') ->
  config self' = config self /\
  (decision_history self' = decision_history self \/
   exists h,
     decision_history self = PList h /\
     decision_history self' = PList (h ++ [PDict decision])).
Proof.
  cbv [_log_decision bindM gets lift modify ret].
  destruct (decision_history self) as [ | | | | | h | | ] eqn:Hh; cbn [append];
    try (intro H; injection H as _ <-; split; [ reflexivity | left; now rewrite Hh ]).
  cbn [decision_history set_stats set_decision_history].
  destruct (bind (items_of _) _) as [avg|e1].
  - destruct (bind (getitem decision "expected_profit") _) as [p|e2];
      intro H; injection H as _ <-; (split; [ reflexivity | right; eauto ]).
  - intro H. injection H as _ <-. split; [ reflexivity | right; eauto ].
Qed.

(** A run of [calculate_rate] either raises before it logs, and then
    changes nothing, or prices the applicant and is the logging of the
    decision. *)
Lemma calculate_rate_cases (applicant : dict) (now : string) (self : agent) :
  (exists e, calculate_rate applicant now self = (Raise e, self)) \/
  (exists p,
     priced (config self) applicant p /\
     calculate_rate applicant now self =
       let decision :=
         decision_of now (get_default applicant "id" (PStr "unknown")) p in
       match _log_decision decision self with
       | (Ok _, self') => (Ok decision, self')
       | (Raise e, self') => (Raise e, self')
       end).
Proof.
  destruct (calculate_rate applicant now self) as [outcome self'] eqn:H.
  pose proof H as H0.
  cbv [calculate_rate bindM gets lift ret] in H0.
  match type of H0 with
  | match ?P with Ok _ => _ | Raise _ => _ end = _ => destruct P as [d|e] eqn:EP
  end.
  - right. clear H0. repeat bind_inv EP. injection EP as <-.
    exists {| p_country := a; p_credit_score := a13; p_loan_amount := a11;
              p_base_rate := a0; p_risk := a1; p_market := a2; p_profit := a3;
              p_risk_weight := a5; p_market_weight := a7; p_profit_weight := a9;
              p_default_prob := a10; p_expected_profit := a12;
              p_reasoning := a14 |}.
    assert (Hp : priced (config self) applicant
              {| p_country := a; p_credit_score := a13; p_loan_amount := a11;
                 p_base_rate := a0; p_risk := a1; p_market := a2; p_profit := a3;
                 p_risk_weight := a5; p_market_weight := a7; p_profit_weight := a9;
                 p_default_prob := a10; p_expected_profit := a12;
                 p_reasoning := a14 |}).
    { unfold priced, p_final, p_total, num_field.
      cbn [p_country p_credit_score p_loan_amount p_base_rate p_risk p_market
           p_profit p_risk_weight p_market_weight p_profit_weight p_default_prob
           p_expected_profit p_reasoning].
      rewrite E4, E6, E8. cbn [bind]. repeat split; trivial. }
    split; [ exact Hp | ].
    rewrite <- H. now apply calculate_rate_priced.
  - left. exists e. injection H0 as <- <-. reflexivity.
Qed.

Lemma calculate_rate_shaped (applicant : dict) (now : string)
    (self self' : agent) (outcome : result dict) :
  json_applicant applicant = true ->
  calculate_rate applicant now self = (outcome, self') ->
  json_shaped (decision_history self) = true ->
  json_shaped (decision_history self') = true.
Proof.
  intros Happ Hrun Hshaped.
  destruct (calculate_rate_cases applicant now self) as [[e He] | (p & Hp & Hc)].
  - rewrite He in Hrun. now injection Hrun as _ <-.
  - rewrite Hc in Hrun. cbv zeta in Hrun.
    destruct (_log_decision _ self) as [r s] eqn:Hlog.
    assert (Hs : s = self') by (destruct r; now injection Hrun).
    subst s. apply _log_decision_history in Hlog as [_ [Hsame | (h & Hh & Hh')]].
    + now rewrite Hsame.
    + rewrite Hh in Hshaped. rewrite Hh'. cbn [json_shaped] in *.
      rewrite forallb_app, Hshaped. cbn [forallb]. rewrite andb_true_r.
      unfold json_applicant in Happ.
      repeat (apply andb_true_iff in Happ as [Happ ?]).
      destruct Hp as (Hpc & Hps & Hpl & _).
      apply decision_of_shaped.
      * now apply has_opt_get_default.
      * exact (has_opt_getitem _ _ _ _ H1 Hpc).
      * exact (has_opt_getitem _ _ _ _ H0 Hps).
      * exact (has_opt_getitem _ _ _ _ H Hpl).
Qed.

Lemma load_decisions_shaped (filepath : string) (fs : files)
    (self self' : agent) (outcome : result unit) :
  load_decisions filepath fs self = (outcome, self') ->
  json_shaped (decision_history self) = true ->
  json_shaped (decision_history self') = true.
Proof.
  unfold load_decisions, lift, modify.
  destruct (fs !! filepath) as [[doc|]|]; intros H Hs; injection H as _ <-; trivial.
  apply load_shaped.
Qed.

(** Every history an agent comes to hold is JSON-shaped. *)
Lemma reachable_shaped (self : agent) :
  reachable self -> json_shaped (decision_history self) = true.
Proof.
  induction 1 as [ cfg | self self' applicant now outcome _ IH Happ Hrun
                 | self self' filepath fs outcome _ IH Hload ].
  - reflexivity.
  - exact (calculate_rate_shaped _ _ _ _ _ Happ Hrun IH).
  - exact (load_decisions_shaped _ _ _ _ _ Hload IH).
Qed.

Lemma read_after_write (fs : files) (filepath : string) (content : file) :
  (<[filepath := content]> fs : files) !! filepath = Some content.
Proof.
  apply lookup_insert_eq.
Qed.




(* ================================================================== *)
(** * Pricing feeds the ledger *)

(** Every decision [calculate_rate] builds is a ledger entry. *)
Lemma decision_of_ledger_entry (now : string) (applicant_id : pyval) (p : pricing) :
  ledger_entry (PDict (decision_of now applicant_id p)) = true.
Proof. reflexivity. Qed.

(** A successful run logs exactly the decision it returns, and a ready
    agent stays ready. *)
Lemma calculate_rate_logs (applicant : dict) (now : string)
    (self self' : agent) (decision : dict) :
  calculate_rate applicant now self = (Ok decision, self') ->
  ledger_entry (PDict decision) = true /\
  _log_decision decision self = (Ok tt, self') /\
  log_all [decision] self = (Ok tt, self').
Proof.
  intro H. apply calculate_rate_ok_inv in H as (p & _ & -> & Hlog).
  split; [ apply decision_of_ledger_entry | ].
  split; [ exact Hlog | ].
  cbn [log_all]. unfold bindM. rewrite Hlog. reflexivity.
Qed.

Lemma calculate_rate_keeps_ready (applicant : dict) (now : string)
    (self self' : agent) (decision : dict) :
  agent_ready self = true ->
  calculate_rate applicant now self = (Ok decision, self') ->
  agent_ready self' = true.
Proof.
  intros Hready H. apply calculate_rate_ok_inv in H as (p & _ & -> & Hlog).
  unfold agent_ready in *.
  repeat (apply andb_true_iff in Hready as [Hready ?]).
  destruct (decision_history self) as [ | | | | | h | | ] eqn:Hh; try discriminate.
  rewrite (_log_decision_ok _ self h Hh) in Hlog;
    [ | now apply ledger_entries_total_adjustment | reflexivity | reflexivity ].
  injection Hlog as <-. cbn [config decision_history].
  rewrite Hready, H1, H0. cbn [andb].
  rewrite forallb_app, H. reflexivity.
Qed.

(** Pricing a list of applicants logs the decisions it returns. *)
Lemma price_all_logs (requests : list (dict * string)) :
  forall (self self' : agent) (decisions : list dict),
    price_all requests self = (Ok decisions, self') ->
    List.length decisions = List.length requests /\
    forallb ledger_entry (map PDict decisions) = true /\
    log_all decisions self = (Ok tt, self').
Proof.
  induction requests as [ | [applicant now] rest IH ]; intros self self' decisions H.
  - cbn [price_all ret] in H. injection H as <- <-. repeat split.
  - cbn [price_all] in H. unfold bindM at 1 in H.
    destruct (calculate_rate applicant now self) as [[d|e] s] eqn:Hrun;
      [ | discriminate H ].
    unfold bindM in H.
    destruct (price_all rest s) as [[ds|e] s'] eqn:Hrest; [ | discriminate H ].
    cbn [ret] in H. injection H as <- <-.
    destruct (IH _ _ _ Hrest) as (Hlen & Hall & Hlog).
    destruct (calculate_rate_logs _ _ _ _ _ Hrun) as (Hd & Hlogd & _).
    split; [ cbn [List.length]; now rewrite Hlen | ].
    split; [ cbn [map forallb]; now rewrite Hd, Hall | ].
    cbn [log_all]. unfold bindM. now rewrite Hlogd.
Qed.

(** The window on the entry point: after more than 100 applicants have
    been priced on a new agent, the means are those of the last 100
    decisions returned, the count and the profit those of all. *)
Lemma statistics_after_pricing (cfg : option dict) (requests : list (dict * string))
    (decisions : list dict) (self : agent) :
  price_all requests (__init__ cfg) = (Ok decisions, self) ->
  (100 < List.length requests)%nat ->
  let recent_decisions := last_n 100 (map PDict decisions) in
  List.length recent_decisions = 100%nat /\
  get_statistics self =
    Ok [("total_decisions", PInt (Z.of_nat (List.length requests)));
        ("avg_rate_adjustment",
         PFloat (py_round (Qsum (values_at "total_adjustment" recent_decisions) / 100) 4));
        ("avg_final_rate",
         PFloat (py_round (Qsum (values_at "final_rate" recent_decisions) / 100) 4));
        ("total_expected_profit",
         PFloat (py_round
                   (Qsum (values_at "expected_profit" (map PDict decisions))) 2));
        ("avg_default_probability",
         PFloat (py_round
                   (Qsum (values_at "default_probability" recent_decisions) / 100) 4))].
Proof.
  intros Hrun Hlen. cbv zeta.
  destruct (price_all_logs _ _ _ _ Hrun) as (Hcount & Hall & Hlog).
  assert (Hlen' : (100 < List.length decisions)%nat) by now rewrite Hcount.
  destruct (log_all_ok decisions Hall (__init__ cfg) []) as
    (self0 & Hrun0 & _ & Hhist & Hcnt & Hsum & _); try reflexivity.
  rewrite Hlog in Hrun0. injection Hrun0 as <-.
  cbn [app] in Hhist.
  assert (Hrecent : List.length (last_n 100 (map PDict decisions)) = 100%nat).
  { rewrite last_n_length, length_map. unfold dict in *. lia. }
  split; [ exact Hrecent | ].
  rewrite (get_statistics_ok self _ Hhist Hall).
  - cbv zeta. rewrite Hrecent, Hcnt, Hsum, Hcount.
    cbn [__init__ stats total_decisions total_profit]. rewrite Z.add_0_l.
    rewrite (py_round_comp
               (fold_left Qplus (values_at "expected_profit" (map PDict decisions)) 0.0)
               (Qsum (values_at "expected_profit" (map PDict decisions))) 2).
    + reflexivity.
    + apply fold_left_Qplus_comp. reflexivity.
  - destruct decisions; [ cbn [List.length] in Hlen'; lia | discriminate ].
Qed.

(* ================================================================== *)
(** * Scenario A on binary64 numbers *)

Set Warnings "-inexact-float".

(** The example run computed on IEEE binary64 numbers: each quantity is
    within 10^-15 of the rational one, and rounds to the same decimals,
    so the decision of Scenario A is the same on the machine's
    numbers. *)
Lemma scenario_A_binary64 :
  let risk := Binary64._calculate_risk_adjustment true 720 85000 15000 12000 in
  let market := Binary64._calculate_market_adjustment true 720 in
  let profit := Binary64._calculate_profit_adjustment 15000 in
  let total := Binary64.total_adjustment risk market profit in
  let final := Binary64.final_rate 0.12 total in
  let default_prob := Binary64._estimate_default_probability true 720 85000 12000 in
  let expected_profit := Binary64._calculate_expected_profit 15000 final default_prob in
  exists p,
    priced _default_config usa_applicant p /\
    close (Binary64.to_Q risk) (p_risk p) /\
    close (Binary64.to_Q market) (p_market p) /\
    close (Binary64.to_Q profit) (p_profit p) /\
    close (Binary64.to_Q total) (p_total p) /\
    close (Binary64.to_Q final) (p_final p) /\
    close (Binary64.to_Q default_prob) (p_default_prob p) /\
    py_round (Binary64.to_Q risk) 4 == - 0.0085 /\
    py_round (Binary64.to_Q market) 4 == - 0.01 /\
    py_round (Binary64.to_Q profit) 4 == - 0.0025 /\
    py_round (Binary64.to_Q total) 4 == - 0.0083 /\
    py_round (Binary64.to_Q final) 4 == 0.1117 /\
    py_round (Binary64.to_Q default_prob) 4 == py_round (p_default_prob p) 4 /\
    py_round (Binary64.to_Q expected_profit) 2 == py_round (p_expected_profit p) 2.
Proof.
  cbv zeta.
  destruct (priced_exists usa_applicant eq_refl _default_config) as [p Hp];
    try reflexivity.
  exists p. split; [ exact Hp | ].
  destruct Hp as (Hc & Hs & Hl & Hb & Hrisk & Hmarket & Hprofit & Hrw & Hmw & Hpw
                  & Hdp & Hep & _).
  destruct p as [country score loan base risk market profit rw mw pw dp ep reasons].
  unfold p_final, p_total in *.
  cbn [p_country p_credit_score p_loan_amount p_base_rate p_risk p_market p_profit
       p_risk_weight p_market_weight p_profit_weight p_default_prob
       p_expected_profit] in *.
  vm_compute in Hc. injection Hc as <-.
  vm_compute in Hl. injection Hl as <-.
  vm_compute in Hb. injection Hb as <-.
  vm_compute in Hrisk. injection Hrisk as <-.
  vm_compute in Hmarket. injection Hmarket as <-.
  vm_compute in Hprofit. injection Hprofit as <-.
  vm_compute in Hrw. injection Hrw as <-.
  vm_compute in Hmw. injection Hmw as <-.
  vm_compute in Hpw. injection Hpw as <-.
  vm_compute in Hdp. injection Hdp as <-.
  vm_compute in Hep. injection Hep as <-.
  unfold close. repeat split; qcompute.
Qed.

(** The clamp on binary64 numbers, nan included: the final rate is a
    bound or lies strictly between the bounds. *)
Lemma final_rate_binary64_clamped (base_rate total : float) :
  let r := Binary64.final_rate base_rate total in
  r = 0.08%float \/ r = 0.36%float \/
  ((0.08 <? r)%float = true /\ (r <? 0.36)%float = true).
Proof.
  cbv zeta. unfold Binary64.final_rate, Binary64.py_min.
  destruct (base_rate + total <? 0.36)%float eqn:Hhi.
  - unfold Binary64.py_max.
    destruct (0.08 <? base_rate + total)%float eqn:Hlo; auto.
  - right. left. vm_compute. reflexivity.
Qed.

(* ================================================================== *)
(** * The rate components, one by one *)

Lemma risk_adjustment_inv (applicant : dict) (r : Q) :
  _calculate_risk_adjustment applicant = Ok r ->
  exists country score income loan debt,
    getitem applicant "country" = Ok country /\
    num_field "credit_score" applicant = Ok score /\
    num_field "income" applicant = Ok income /\
    num_field "loan_amount" applicant = Ok loan /\
    to_num (get_default applicant "existing_debt" (PInt 0)) = Ok debt /\
    r = - 0.03 +
        ((1 - (score - 300) /
              (if eq_str country "USA" then 850 - 300 else 900 - 300)) * 0.5 +
         py_min (debt / py_max income 1) 1.0 * 0.3 +
         py_min (loan / py_max income 1) 1.0 * 0.2) * 0.11.
Proof.
  unfold _calculate_risk_adjustment. intro H. do 8 bind_inv H.
  injection H as <-.
  apply normalize_inv in E1 as (score & Hs & ->).
  apply debt_to_income_inv in E2 as (debt & income & Hd & Hi & ->).
  apply income_or_one_inv in E4 as (income' & Hi' & -> & _).
  rewrite Hi in Hi'. injection Hi' as <-.
  apply py_div_inv in E6 as [-> _].
  exists a0, score, income, a5, debt.
  split; [ reflexivity | ].
  split; [ apply num_field_inv; eauto | ].
  split; [ exact Hi | ].
  split; [ apply num_field_inv; eauto | ].
  split; [ exact Hd | reflexivity ].
Qed.

Lemma py_min_unit (x : Q) : 0 <= x -> 0 <= py_min x 1.0 <= 1.
Proof.
  intro H. destruct (py_min_cases x 1.0) as [[Hlt ->] | [Hle ->]]; lra.
Qed.

Lemma normalized_unit (score : Q) (usa : bool) :
  300 <= score -> score <= (if usa then 850 else 900) ->
  0 <= (score - 300) / (if usa then 850 - 300 else 900 - 300) <= 1.
Proof.
  intros Hlo Hhi. split.
  - apply ratio_nonneg; destruct usa; lra.
  - destruct usa; apply Qle_shift_div_r; lra.
Qed.

Lemma risk_components_unit (applicant : dict) (r loan : Q) :
  _calculate_risk_adjustment applicant = Ok r ->
  valid_applicant applicant = true ->
  num_field "loan_amount" applicant = Ok loan ->
  0 <= loan ->
  exists n d l : Q,
    0 <= n <= 1 /\ 0 <= d <= 1 /\ 0 <= l <= 1 /\
    r = - 0.03 + ((1 - n) * 0.5 + d * 0.3 + l * 0.2) * 0.11.
Proof.
  intros Hr Hvalid Hloan Hpos.
  destruct (risk_adjustment_inv _ _ Hr)
    as (country & score & income & loan' & debt & Hc & Hs & Hi & Hl & Hd & ->).
  destruct (valid_applicant_inv _ Hvalid)
    as (country' & score' & income' & debt' & Hc' & Hs' & Hi' & Hd'
        & Hlo & Hhi & Hinc & Hdebt).
  unfold getitem in Hc. rewrite Hc' in Hc. injection Hc as ->.
  rewrite Hs in Hs'. injection Hs' as <-.
  rewrite Hi in Hi'. injection Hi' as <-.
  rewrite Hd in Hd'. injection Hd' as <-.
  rewrite Hl in Hloan. injection Hloan as ->.
  pose proof (normalized_unit score (eq_str country "USA") Hlo Hhi) as Hn.
  pose proof (py_max_lb income 1) as [_ Hm].
  assert (Hdti : 0 <= debt / py_max income 1) by (apply ratio_nonneg; lra).
  assert (Hlti : 0 <= loan / py_max income 1) by (apply ratio_nonneg; lra).
  pose proof (py_min_unit _ Hdti) as H1.
  pose proof (py_min_unit _ Hlti) as H2.
  eexists _, _, _.
  split; [ exact Hn | ]. split; [ exact H1 | ]. split; [ exact H2 | reflexivity ].
Qed.

(** X1.  The risk adjustment of a valid applicant with a loan that is
    not negative lies between -3% and +8%, as the source comments. *)
Theorem risk_adjustment_range (applicant : dict) (r loan : Q) :
  _calculate_risk_adjustment applicant = Ok r ->
  valid_applicant applicant = true ->
  num_field "loan_amount" applicant = Ok loan ->
  0 <= loan ->
  - 0.03 <= r <= 0.08.
Proof.
  intros Hr Hvalid Hloan Hpos.
  destruct (risk_components_unit _ _ _ Hr Hvalid Hloan Hpos)
    as (n & d & l & Hn & Hd & Hl & ->).
  lra.
Qed.

Lemma risk_adjustment_range_witness :
  exists r,
    _calculate_risk_adjustment usa_applicant = Ok r /\
    valid_applicant usa_applicant = true /\
    num_field "loan_amount" usa_applicant = Ok 15000 /\
    0 <= 15000 /\
    - 0.03 <= r <= 0.08.
Proof.
  destruct (risk_adjustment_ok usa_applicant eq_refl) as [r Hr].
  exists r.
  assert (Hpos : 0 <= 15000) by (vm_compute; discriminate).
  split; [ exact Hr | ]. split; [ reflexivity | ]. split; [ reflexivity | ].
  split; [ exact Hpos | ].
  exact (risk_adjustment_range usa_applicant r 15000 Hr eq_refl eq_refl Hpos).
Defined.

Lemma market_adjustment_inv (applicant : dict) (m : Q) :
  _calculate_market_adjustment applicant = Ok m ->
  exists country score,
    getitem applicant "country" = Ok country /\
    num_field "credit_score" applicant = Ok score /\
    m = (if eq_str country "USA"
         then if Qgeb score 750 then - 0.02 else if Qgeb score 700 then - 0.01 else 0.0
         else if Qgeb score 800 then - 0.02 else if Qgeb score 750 then - 0.01 else 0.0).
Proof.
  unfold _calculate_market_adjustment. intro H. do 2 bind_inv H.
  exists a0. destruct (eq_str a0 "USA"); bind_inv H;
    exists a1; (split; [ reflexivity | ]);
    (split; [ apply num_field_inv; eauto | ]);
    repeat match type of H with
           | (if ?b then _ else _) = _ => destruct b
           end;
    now injection H as <-.
Qed.

(** X2.  The market adjustment is -0.02, -0.01 or 0, never positive,
    and within a country a higher score never gets a smaller discount.
    It depends on nothing but the country and the score. *)
Theorem market_adjustment_steps (a1 a2 : dict) (m1 m2 s1 s2 : Q) :
  _calculate_market_adjustment a1 = Ok m1 ->
  _calculate_market_adjustment a2 = Ok m2 ->
  getitem a1 "country" = getitem a2 "country" ->
  num_field "credit_score" a1 = Ok s1 ->
  num_field "credit_score" a2 = Ok s2 ->
  s1 <= s2 ->
  (m1 = - 0.02 \/ m1 = - 0.01 \/ m1 = 0.0) /\
  m1 <= 0 /\
  m2 <= m1 /\
  (s1 == s2 -> m1 = m2).
Proof.
  intros H1 H2 Hc Hs1 Hs2 Hle.
  destruct (market_adjustment_inv _ _ H1) as (c1 & s1' & Hc1 & Hs1' & ->).
  destruct (market_adjustment_inv _ _ H2) as (c2 & s2' & Hc2 & Hs2' & ->).
  rewrite Hc1, Hc2 in Hc. injection Hc as <-.
  rewrite Hs1 in Hs1'. injection Hs1' as <-.
  rewrite Hs2 in Hs2'. injection Hs2' as <-.
  destruct (eq_str c1 "USA");
    repeat match goal with
           | |- context [Qgeb ?x ?y] =>
               let E := fresh "E" in
               destruct (Qgeb x y) eqn:E;
               [ apply Qgeb_ge in E | apply Qgeb_lt in E ]
           end;
    (split; [ tauto | ]); (split; [ lra | ]); (split; [ lra | ]);
    intro Heq; first [ reflexivity | exfalso; lra ].
Qed.

Lemma market_adjustment_steps_witness :
  exists m1 m2,
    _calculate_market_adjustment usa_applicant = Ok m1 /\
    _calculate_market_adjustment (dict_set "credit_score" (PInt 780) usa_applicant) = Ok m2 /\
    m2 <= m1 /\ m1 <= 0.
Proof.
  exists (- 0.01), (- 0.02).
  assert (H1 : _calculate_market_adjustment usa_applicant = Ok (- 0.01))
    by (vm_compute; reflexivity).
  assert (H2 : _calculate_market_adjustment
                 (dict_set "credit_score" (PInt 780) usa_applicant) = Ok (- 0.02))
    by (vm_compute; reflexivity).
  split; [ exact H1 | ]. split; [ exact H2 | ].
  assert (Hle : 720 <= 780) by (vm_compute; discriminate).
  destruct (market_adjustment_steps usa_applicant
              (dict_set "credit_score" (PInt 780) usa_applicant)
              (- 0.01) (- 0.02) 720 780 H1 H2 eq_refl eq_refl eq_refl Hle)
    as (_ & Hneg & Hmono & _).
  split; [ exact Hmono | exact Hneg ].
Defined.

Lemma profit_adjustment_inv (applicant : dict) (m : Q) :
  _calculate_profit_adjustment applicant = Ok m ->
  exists loan,
    num_field "loan_amount" applicant = Ok loan /\
    m = (if Qgeb loan 25000 then - 0.005
         else if Qgeb loan 15000 then - 0.0025 else 0.0).
Proof.
  unfold _calculate_profit_adjustment. intro H. do 2 bind_inv H.
  exists a0. split; [ apply num_field_inv; eauto | ].
  repeat match type of H with
         | (if ?b then _ else _) = _ => destruct b
         end;
    now injection H as <-.
Qed.

(** X3.  The profit adjustment is -0.005 from 25000 on, -0.0025 from
    15000 on and 0 below; it is never positive and a larger loan never
    gets a smaller discount.  It depends on the loan amount only. *)
Theorem profit_adjustment_steps (a1 a2 : dict) (m1 m2 l1 l2 : Q) :
  _calculate_profit_adjustment a1 = Ok m1 ->
  _calculate_profit_adjustment a2 = Ok m2 ->
  num_field "loan_amount" a1 = Ok l1 ->
  num_field "loan_amount" a2 = Ok l2 ->
  l1 <= l2 ->
  (25000 <= l1 /\ m1 = - 0.005 \/
   15000 <= l1 < 25000 /\ m1 = - 0.0025 \/
   l1 < 15000 /\ m1 = 0.0) /\
  m1 <= 0 /\
  m2 <= m1 /\
  (l1 == l2 -> m1 = m2).
Proof.
  intros H1 H2 Hl1 Hl2 Hle.
  destruct (profit_adjustment_inv _ _ H1) as (l1' & Hl1' & ->).
  destruct (profit_adjustment_inv _ _ H2) as (l2' & Hl2' & ->).
  rewrite Hl1 in Hl1'. injection Hl1' as <-.
  rewrite Hl2 in Hl2'. injection Hl2' as <-.
  repeat match goal with
         | |- context [Qgeb ?x ?y] =>
             let E := fresh "E" in
             destruct (Qgeb x y) eqn:E;
             [ apply Qgeb_ge in E | apply Qgeb_lt in E ]
         end;
    (split; [ first [ left; split; [ lra | reflexivity ]
                    | right; left; split; [ lra | reflexivity ]
                    | right; right; split; [ lra | reflexivity ] ] | ]);
    (split; [ lra | ]); (split; [ lra | ]);
    intro Heq; first [ reflexivity | exfalso; lra ].
Qed.

Lemma profit_adjustment_steps_witness :
  exists m1 m2,
    _calculate_profit_adjustment usa_applicant = Ok m1 /\
    _calculate_profit_adjustment (dict_set "loan_amount" (PInt 30000) usa_applicant) = Ok m2 /\
    m2 <= m1 /\ m1 <= 0.
Proof.
  exists (- 0.0025), (- 0.005).
  assert (H1 : _calculate_profit_adjustment usa_applicant = Ok (- 0.0025))
    by (vm_compute; reflexivity).
  assert (H2 : _calculate_profit_adjustment
                 (dict_set "loan_amount" (PInt 30000) usa_applicant) = Ok (- 0.005))
    by (vm_compute; reflexivity).
  split; [ exact H1 | ]. split; [ exact H2 | ].
  assert (Hle : 15000 <= 30000) by (vm_compute; discriminate).
  destruct (profit_adjustment_steps usa_applicant
              (dict_set "loan_amount" (PInt 30000) usa_applicant)
              (- 0.0025) (- 0.005) 15000 30000 H1 H2 eq_refl eq_refl Hle)
    as (_ & Hneg & Hmono & _).
  split; [ exact Hmono | exact Hneg ].
Defined.

Lemma base_rate_values (country : pyval) (b : Q) :
  base_rates_get country 0.15 = Ok b -> b = 0.12 \/ b = 0.18 \/ b = 0.15.
Proof.
  unfold base_rates_get. destruct (hashable country); [ | discriminate ].
  destruct country;
    try (intro H; injection H as <-; right; right; reflexivity).
  change (find (fun entry => String.eqb (fst entry) s) base_rates)
    with (if String.eqb "USA" s then Some ("USA", 0.12)
          else if String.eqb "India" s then Some ("India", 0.18) else None).
  destruct (String.eqb "USA" s);
    [ intro H; injection H as <-; left; reflexivity | ].
  destruct (String.eqb "India" s);
    intro H; injection H as <-; [ right; left | right; right ]; reflexivity.
Qed.

Lemma default_weights :
  num_field "risk_weight" _default_config = Ok 0.6 /\
  num_field "market_weight" _default_config = Ok 0.3 /\
  num_field "profit_weight" _default_config = Ok 0.1.
Proof. repeat split. Qed.

(** X4.  With the default weights the limits are never reached for a
    valid applicant whose loan is not negative: the total adjustment
    lies in [-0.0245, 0.048], so the final rate is the base rate plus the
    total adjustment, unclamped, between 9.55% and 22.8%. *)
Theorem default_weights_never_clamp (applicant : dict) (p : pricing) (loan : Q) :
  priced _default_config applicant p ->
  valid_applicant applicant = true ->
  num_field "loan_amount" applicant = Ok loan ->
  0 <= loan ->
  - 0.0245 <= p_total p <= 0.048 /\
  p_final p = p_base_rate p + p_total p /\
  0.0955 <= p_final p <= 0.228.
Proof.
  intros Hp Hvalid Hloan Hpos.
  destruct Hp as (Hc & Hs & Hl & Hb & Hrisk & Hmarket & Hprofit & Hrw & Hmw & Hpw & _).
  assert (Hr : - 0.03 <= p_risk p <= 0.08).
  { destruct (risk_components_unit _ _ _ Hrisk Hvalid Hloan Hpos)
      as (n & d & l & Bn & Bd & Bl & ->).
    lra. }
  destruct (market_adjustment_inv _ _ Hmarket) as (c & s & _ & _ & Hm).
  destruct (profit_adjustment_inv _ _ Hprofit) as (l & _ & Hpr).
  destruct default_weights as (Dr & Dm & Dp).
  assert (Erw : p_risk_weight p = 0.6) by congruence.
  assert (Emw : p_market_weight p = 0.3) by congruence.
  assert (Epw : p_profit_weight p = 0.1) by congruence.
  assert (Hmb : - 0.02 <= p_market p <= 0).
  { rewrite Hm. destruct (eq_str c "USA");
      repeat match goal with |- context [if ?b then _ else _] => destruct b end; lra. }
  assert (Hpb : - 0.005 <= p_profit p <= 0).
  { rewrite Hpr.
    repeat match goal with |- context [if ?b then _ else _] => destruct b end; lra. }
  assert (Ht : - 0.0245 <= p_total p <= 0.048).
  { unfold p_total. rewrite Erw, Emw, Epw. lra. }
  assert (Hbase : 0.12 <= p_base_rate p <= 0.18).
  { destruct (base_rate_values _ _ Hb) as [-> | [-> | ->]]; lra. }
  assert (Heq : p_final p = p_base_rate p + p_total p).
  { unfold p_final, py_min, py_max, min_rate, max_rate.
    assert (H1 : Qltb (p_base_rate p + p_total p) 0.36 = true)
      by (apply Qltb_lt; lra).
    rewrite H1.
    assert (H2 : Qltb 0.08 (p_base_rate p + p_total p) = true)
      by (apply Qltb_lt; lra).
    now rewrite H2. }
  split; [ exact Ht | ]. split; [ exact Heq | ].
  rewrite Heq. lra.
Qed.

Lemma default_weights_never_clamp_witness :
  exists p,
    priced _default_config usa_applicant p /\
    valid_applicant usa_applicant = true /\
    num_field "loan_amount" usa_applicant = Ok 15000 /\
    0 <= 15000 /\
    p_final p = p_base_rate p + p_total p.
Proof.
  destruct (priced_exists usa_applicant eq_refl _default_config eq_refl eq_refl eq_refl)
    as [p Hp].
  exists p.
  assert (Hpos : 0 <= 15000) by (vm_compute; discriminate).
  split; [ exact Hp | ]. split; [ reflexivity | ]. split; [ reflexivity | ].
  split; [ exact Hpos | ].
  exact (proj1 (proj2 (default_weights_never_clamp usa_applicant p 15000
                         Hp eq_refl eq_refl Hpos))).
Defined.

(* ================================================================== *)
(** * A better score never costs more *)

Lemma round_half_even_near (x : Q) :
  inject_Z (round_half_even x) - (1 # 2) <= x <= inject_Z (round_half_even x) + (1 # 2).
Proof.
  unfold round_half_even.
  pose proof (Qfloor_le x) as Hlo.
  pose proof (Qlt_floor x) as Hhi.
  rewrite inject_Z_plus in Hhi. change (inject_Z 1) with 1 in Hhi.
  destruct (Qcompare (x - inject_Z (Qfloor x)) (1 # 2)) eqn:E.
  - apply Qeq_alt in E. destruct (Z.even (Qfloor x)).
    + lra.
    + rewrite inject_Z_plus. change (inject_Z 1) with 1. lra.
  - apply Qlt_alt in E. lra.
  - apply Qgt_alt in E. rewrite inject_Z_plus. change (inject_Z 1) with 1. lra.
Qed.

Lemma round_half_even_mono (x y : Q) :
  x <= y -> (round_half_even x <= round_half_even y)%Z.
Proof.
  intro Hle.
  destruct (Qlt_le_dec x y) as [Hlt | Hge].
  - pose proof (round_half_even_near x) as [Hx _].
    pose proof (round_half_even_near y) as [_ Hy].
    assert (H : inject_Z (round_half_even x) < inject_Z (round_half_even y) + 1) by lra.
    rewrite <- (inject_Z_plus _ 1), <- Zlt_Qlt in H. lia.
  - assert (E : x == y) by lra.
    rewrite (round_half_even_comp _ _ E). lia.
Qed.

Lemma py_round_mono (x y : Q) (d : nat) : x <= y -> py_round x d <= py_round y d.
Proof.
  intro H. unfold py_round, Qle. cbn [Qnum Qden].
  apply Z.mul_le_mono_nonneg_r; [ lia | ].
  apply round_half_even_mono.
  apply Qmult_le_compat_r; [ exact H | ].
  unfold Qle. simpl. lia.
Qed.

Lemma py_min_mono (x y c : Q) : x <= y -> py_min x c <= py_min y c.
Proof.
  intro H.
  destruct (py_min_cases x c) as [[H1 ->] | [H1 ->]];
    destruct (py_min_cases y c) as [[H2 ->] | [H2 ->]]; lra.
Qed.

Lemma clamp_mono (lo hi x y : Q) :
  x <= y -> py_max lo (py_min hi x) <= py_max lo (py_min hi y).
Proof.
  intro H.
  assert (Hm : py_min hi x <= py_min hi y).
  { destruct (py_min_cases hi x) as [[H1 ->] | [H1 ->]];
      destruct (py_min_cases hi y) as [[H2 ->] | [H2 ->]]; lra. }
  destruct (py_max_cases lo (py_min hi x)) as [[H1 ->] | [H1 ->]];
    destruct (py_max_cases lo (py_min hi y)) as [[H2 ->] | [H2 ->]]; lra.
Qed.

Section SameButScore.

Variables a1 a2 : dict.
Hypothesis Hsame : same_but "credit_score" a1 a2.

Lemma same_getitem (key : string) :
  key <> "credit_score" -> getitem a1 key = getitem a2 key.
Proof.
  intro H. unfold getitem. now rewrite (Hsame key H).
Qed.

Lemma same_num_field (key : string) :
  key <> "credit_score" -> num_field key a1 = num_field key a2.
Proof.
  intro H. unfold num_field. now rewrite same_getitem.
Qed.

Lemma same_existing_debt :
  get_default a1 "existing_debt" (PInt 0) = get_default a2 "existing_debt" (PInt 0).
Proof.
  unfold get_default. now rewrite (Hsame "existing_debt") by discriminate.
Qed.

End SameButScore.

(** Of two records that differ in the credit score only, priced under
    the same config with risk and market weights that are not negative,
    the one with the higher score gets components that are no higher. *)
Lemma priced_score_mono (cfg a1 a2 : dict) (p1 p2 : pricing) (s1 s2 : Q) :
  same_but "credit_score" a1 a2 ->
  priced cfg a1 p1 ->
  priced cfg a2 p2 ->
  num_field "credit_score" a1 = Ok s1 ->
  num_field "credit_score" a2 = Ok s2 ->
  s1 <= s2 ->
  0 <= p_risk_weight p1 ->
  0 <= p_market_weight p1 ->
  p_risk p2 <= p_risk p1 /\
  p_market p2 <= p_market p1 /\
  p_profit p2 = p_profit p1 /\
  p_default_prob p2 <= p_default_prob p1 /\
  p_final p2 <= p_final p1 /\
  py_round (p_final p2) 4 <= py_round (p_final p1) 4 /\
  py_round (p_default_prob p2) 4 <= py_round (p_default_prob p1) 4.
Proof.
  intros Hsame Hp1 Hp2 Hs1 Hs2 Hle Hrw Hmw.
  destruct Hp1 as (Hc1 & _ & _ & Hb1 & Hr1 & Hm1 & Hpr1 & Hrw1 & Hmw1 & Hpw1 & Hdp1 & _).
  destruct Hp2 as (Hc2 & _ & _ & Hb2 & Hr2 & Hm2 & Hpr2 & Hrw2 & Hmw2 & Hpw2 & Hdp2 & _).
  assert (Ecountry : getitem a1 "country" = getitem a2 "country")
    by (apply same_getitem; [ exact Hsame | discriminate ]).
  assert (Ec : p_country p1 = p_country p2) by congruence.
  assert (Eb : p_base_rate p1 = p_base_rate p2) by congruence.
  assert (Erw : p_risk_weight p1 = p_risk_weight p2) by congruence.
  assert (Emw : p_market_weight p1 = p_market_weight p2) by congruence.
  assert (Epw : p_profit_weight p1 = p_profit_weight p2) by congruence.
  (* risk *)
  destruct (risk_adjustment_inv _ _ Hr1)
    as (c1 & s1' & i1 & l1 & d1 & Gc1 & Gs1 & Gi1 & Gl1 & Gd1 & Er1).
  destruct (risk_adjustment_inv _ _ Hr2)
    as (c2 & s2' & i2 & l2 & d2 & Gc2 & Gs2 & Gi2 & Gl2 & Gd2 & Er2).
  assert (c1 = c2) by congruence. subst c2.
  assert (s1' = s1) by congruence. subst s1'.
  assert (s2' = s2) by congruence. subst s2'.
  rewrite (same_num_field a1 a2 Hsame "income") in Gi1 by discriminate.
  rewrite (same_num_field a1 a2 Hsame "loan_amount") in Gl1 by discriminate.
  rewrite (same_existing_debt a1 a2 Hsame) in Gd1.
  assert (i1 = i2) by congruence. subst i2.
  assert (l1 = l2) by congruence. subst l2.
  assert (d1 = d2) by congruence. subst d2.
  assert (Hn : (s1 - 300) / (if eq_str c1 "USA" then 850 - 300 else 900 - 300) <=
               (s2 - 300) / (if eq_str c1 "USA" then 850 - 300 else 900 - 300)).
  { destruct (eq_str c1 "USA"); unfold Qdiv;
      (apply Qmult_le_compat_r; [ lra | vm_compute; discriminate ]). }
  assert (Hrisk : p_risk p2 <= p_risk p1).
  { rewrite Er1, Er2.
    set (n1 := (s1 - 300) / _) in *. set (n2 := (s2 - 300) / _) in *.
    set (d := py_min (d1 / py_max i1 1) 1.0).
    set (l := py_min (l1 / py_max i1 1) 1.0).
    lra. }
  (* market and profit *)
  destruct (market_adjustment_inv _ _ Hm1) as (mc1 & ms1 & Mc1 & Ms1 & Em1).
  destruct (market_adjustment_inv _ _ Hm2) as (mc2 & ms2 & Mc2 & Ms2 & Em2).
  assert (mc1 = c1) by congruence. subst mc1.
  assert (mc2 = c1) by congruence. subst mc2.
  assert (ms1 = s1) by congruence. subst ms1.
  assert (ms2 = s2) by congruence. subst ms2.
  assert (Hmarket : p_market p2 <= p_market p1).
  { rewrite Em1, Em2.
    destruct (eq_str c1 "USA");
      repeat match goal with
             | |- context [Qgeb ?x ?y] =>
                 let E := fresh "E" in
                 destruct (Qgeb x y) eqn:E;
                 [ apply Qgeb_ge in E | apply Qgeb_lt in E ]
             end; lra. }
  destruct (profit_adjustment_inv _ _ Hpr1) as (pl1 & Pl1 & Ep1).
  destruct (profit_adjustment_inv _ _ Hpr2) as (pl2 & Pl2 & Ep2).
  rewrite (same_num_field a1 a2 Hsame "loan_amount") in Pl1 by discriminate.
  assert (pl1 = l1) by congruence. subst pl1.
  assert (pl2 = l1) by congruence. subst pl2.
  assert (Hprofit : p_profit p2 = p_profit p1) by congruence.
  (* default probability *)
  destruct (default_probability_inv _ _ Hdp1)
    as (c1' & t1 & e1 & j1 & Fc1 & Fs1 & Fd1 & Fi1 & Edp1).
  destruct (default_probability_inv _ _ Hdp2)
    as (c2' & t2 & e2 & j2 & Fc2 & Fs2 & Fd2 & Fi2 & Edp2).
  assert (c1' = c1) by congruence. subst c1'.
  assert (c2' = c1) by congruence. subst c2'.
  assert (t1 = s1) by congruence. subst t1.
  assert (t2 = s2) by congruence. subst t2.
  rewrite (same_existing_debt a1 a2 Hsame) in Fd1.
  rewrite (same_num_field a1 a2 Hsame "income") in Fi1 by discriminate.
  assert (e1 = d1) by congruence. subst e1.
  assert (e2 = d1) by congruence. subst e2.
  assert (j1 = i1) by congruence. subst j1.
  assert (j2 = i1) by congruence. subst j2.
  assert (Hdp : p_default_prob p2 <= p_default_prob p1).
  { rewrite Edp1, Edp2. apply py_min_mono.
    set (n1 := (s1 - 300) / _) in *. set (n2 := (s2 - 300) / _) in *.
    lra. }
  (* the final rate *)
  assert (Hfinal : p_final p2 <= p_final p1).
  { unfold p_final. apply clamp_mono. unfold p_total.
    rewrite <- Eb, <- Erw, <- Emw, <- Epw, Hprofit.
    assert (H1 : p_risk p2 * p_risk_weight p1 <= p_risk p1 * p_risk_weight p1)
      by (apply Qmult_le_compat_r; assumption).
    assert (H2 : p_market p2 * p_market_weight p1 <= p_market p1 * p_market_weight p1)
      by (apply Qmult_le_compat_r; assumption).
    lra. }
  repeat split; trivial; now apply py_round_mono.
Qed.

Lemma decision_of_final_rate (now : string) (applicant_id : pyval) (p : pricing) :
  float_field "final_rate" (decision_of now applicant_id p) = Some (py_round (p_final p) 4).
Proof. reflexivity. Qed.

Lemma decision_of_default_probability (now : string) (applicant_id : pyval) (p : pricing) :
  float_field "default_probability" (decision_of now applicant_id p)
  = Some (py_round (p_default_prob p) 4).
Proof. reflexivity. Qed.

Lemma same_but_dict_set (key : string) (v : pyval) (d : dict) :
  same_but key d (dict_set key v d).
Proof.
  intros k Hk. rewrite dict_get_set.
  destruct (String.eqb key k) eqn:E; [ | reflexivity ].
  apply String.eqb_eq in E. congruence.
Qed.

(** X5.  Two applicants who differ in the credit score only are priced
    by agents with the same config, whose risk and market weights are
    not negative.  The decision for the higher score then shows a final
    rate and a default probability that are no higher. *)
Theorem higher_score_never_costs_more
    (a1 a2 : dict) (now1 now2 : string) (self1 self2 self1' self2' : agent)
    (d1 d2 : dict) (s1 s2 rw mw : Q) :
  same_but "credit_score" a1 a2 ->
  config self1 = config self2 ->
  calculate_rate a1 now1 self1 = (Ok d1, self1') ->
  calculate_rate a2 now2 self2 = (Ok d2, self2') ->
  num_field "credit_score" a1 = Ok s1 ->
  num_field "credit_score" a2 = Ok s2 ->
  s1 <= s2 ->
  num_field "risk_weight" (config self1) = Ok rw ->
  num_field "market_weight" (config self1) = Ok mw ->
  0 <= rw ->
  0 <= mw ->
  exists rate1 rate2 dp1 dp2,
    float_field "final_rate" d1 = Some rate1 /\
    float_field "final_rate" d2 = Some rate2 /\
    rate2 <= rate1 /\
    float_field "default_probability" d1 = Some dp1 /\
    float_field "default_probability" d2 = Some dp2 /\
    dp2 <= dp1.
Proof.
  intros Hsame Hcfg H1 H2 Hs1 Hs2 Hle Hrw Hmw Hr Hm.
  apply calculate_rate_ok_inv in H1 as (p1 & Hp1 & -> & _).
  apply calculate_rate_ok_inv in H2 as (p2 & Hp2 & -> & _).
  rewrite <- Hcfg in Hp2.
  assert (Erw : p_risk_weight p1 = rw).
  { destruct Hp1 as (_ & _ & _ & _ & _ & _ & _ & E & _). congruence. }
  assert (Emw : p_market_weight p1 = mw).
  { destruct Hp1 as (_ & _ & _ & _ & _ & _ & _ & _ & E & _). congruence. }
  rewrite <- Erw in Hr. rewrite <- Emw in Hm.
  destruct (priced_score_mono _ _ _ _ _ _ _ Hsame Hp1 Hp2 Hs1 Hs2 Hle Hr Hm)
    as (_ & _ & _ & _ & _ & Hrate & Hdp).
  exists (py_round (p_final p1) 4), (py_round (p_final p2) 4),
         (py_round (p_default_prob p1) 4), (py_round (p_default_prob p2) 4).
  rewrite !decision_of_final_rate, !decision_of_default_probability.
  repeat split; assumption.
Qed.

Lemma higher_score_never_costs_more_witness :
  exists d1 d2 rate1 rate2,
    calculate_rate usa_applicant example_now (__init__ None) = (Ok d1, agent_after_one) /\
    fst (calculate_rate (dict_set "credit_score" (PInt 780) usa_applicant)
           example_now (__init__ None)) = Ok d2 /\
    float_field "final_rate" d1 = Some rate1 /\
    float_field "final_rate" d2 = Some rate2 /\
    rate2 <= rate1.
Proof.
  set (a2 := dict_set "credit_score" (PInt 780) usa_applicant).
  destruct (calculate_rate a2 example_now (__init__ None)) as [[d2|e] s2] eqn:H2;
    [ | vm_compute in H2; discriminate H2 ].
  assert (H1 : calculate_rate usa_applicant example_now (__init__ None)
               = (Ok decision_A, agent_after_one)) by (vm_compute; reflexivity).
  assert (Hle : 720 <= 780) by (vm_compute; discriminate).
  assert (Hr : 0 <= 0.6) by (vm_compute; discriminate).
  assert (Hm : 0 <= 0.3) by (vm_compute; discriminate).
  destruct (higher_score_never_costs_more usa_applicant a2 example_now example_now
              (__init__ None) (__init__ None) agent_after_one s2 decision_A d2
              720 780 0.6 0.3
              (same_but_dict_set "credit_score" (PInt 780) usa_applicant)
              eq_refl H1 H2 eq_refl eq_refl Hle eq_refl eq_refl Hr Hm)
    as (rate1 & rate2 & dp1 & dp2 & F1 & F2 & Hrate & _).
  exists decision_A, d2, rate1, rate2.
  split; [ exact H1 | ]. split; [ reflexivity | ].
  split; [ exact F1 | ]. split; [ exact F2 | exact Hrate ].
Defined.

(* ================================================================== *)
(** * The reasons of a decision *)

(** X6.  A decision carries one to four reasons.  The first is one of
    the three risk reasons; the competitive-rate reason is there exactly
    when the market adjustment is negative, and the volume-discount
    reason exactly when the profit adjustment is. *)
Theorem reasoning_structure (risk market profit : Q) (applicant : dict)
    (reasons : list string) :
  _generate_reasoning risk market profit applicant = Ok reasons ->
  (exists first rest, reasons = first :: rest /\ In first risk_reasons) /\
  (1 <= List.length reasons <= 4)%nat /\
  (In market_reason reasons <-> market < 0) /\
  (In profit_reason reasons <-> profit < 0).
Proof.
  unfold _generate_reasoning. intro H. do 2 bind_inv H.
  unfold risk_reasons, market_reason, profit_reason.
  destruct (eq_str a0 "USA"); bind_inv H; revert H; split_tests;
    intro H; injection H as <-; cbn [app List.length];
    (split; [ eexists; eexists; split; [ reflexivity | member ] | ]);
    (split; [ lia | ]);
    (split; split; intro Hin;
       first [ assumption | member | not_member Hin | exfalso; lra ]).
Qed.

Lemma reasoning_structure_witness :
  exists reasons,
    _generate_reasoning (- 0.0005) (- 0.01) (- 0.0025) usa_applicant = Ok reasons /\
    (1 <= List.length reasons <= 4)%nat /\
    (In market_reason reasons <-> - 0.01 < 0).
Proof.
  eexists.
  assert (H : _generate_reasoning (- 0.0005) (- 0.01) (- 0.0025) usa_applicant
              = Ok ["Standard risk assessment"; market_reason; profit_reason])
    by (vm_compute; reflexivity).
  split; [ exact H | ].
  destruct (reasoning_structure _ _ _ _ _ H) as (_ & Hlen & Hmarket & _).
  split; [ exact Hlen | exact Hmarket ].
Defined.

(* ================================================================== *)
(** * The expected profit *)

Lemma expected_profit_inv (loan_amount : pyval) (rate default_prob ep : Q) :
  _calculate_expected_profit loan_amount rate default_prob = Ok ep ->
  exists loan,
    to_num loan_amount = Ok loan /\
    ep = loan * rate * (1 - default_prob) - loan * 0.4 * default_prob.
Proof.
  unfold _calculate_expected_profit. intro H. bind_inv H.
  injection H as <-. eauto.
Qed.

(** X7.  For a loan that is not negative, a rate that is not negative
    and a default probability in [0, 1], the expected profit is at most
    the full interest and at least minus 40% of the loan.  For a positive
    loan it is not negative exactly when the default probability times
    (rate + 0.4) is at most the rate. *)
Theorem expected_profit_break_even (loan_amount : pyval) (loan rate default_prob ep : Q) :
  _calculate_expected_profit loan_amount rate default_prob = Ok ep ->
  to_num loan_amount = Ok loan ->
  0 <= loan ->
  0 <= rate ->
  0 <= default_prob <= 1 ->
  - (0.4 * loan) <= ep <= loan * rate /\
  (0 < loan -> (0 <= ep <-> default_prob * (rate + 0.4) <= rate)).
Proof.
  intros H Hl Hloan Hrate Hdp.
  apply expected_profit_inv in H as (loan' & Hl' & ->).
  rewrite Hl in Hl'. injection Hl' as <-.
  assert (E : loan * rate * (1 - default_prob) - loan * 0.4 * default_prob
              == loan * (rate - default_prob * (rate + 0.4))) by ring.
  assert (Hup : loan * (default_prob * (rate + 0.4)) >= 0).
  { apply Qmult_le_0_compat; [ exact Hloan | ].
    apply Qmult_le_0_compat; lra. }
  assert (Hlo : 0 <= loan * ((1 - default_prob) * (rate + 0.4))).
  { apply Qmult_le_0_compat; [ exact Hloan | ].
    apply Qmult_le_0_compat; lra. }
  split.
  - rewrite E. split.
    + assert (E2 : loan * (rate - default_prob * (rate + 0.4))
                   == loan * ((1 - default_prob) * (rate + 0.4)) - 0.4 * loan) by ring.
      rewrite E2. lra.
    + assert (E2 : loan * (rate - default_prob * (rate + 0.4))
                   == loan * rate - loan * (default_prob * (rate + 0.4))) by ring.
      rewrite E2. lra.
  - intro Hpos. rewrite E. split.
    + intro Hep.
      destruct (Qlt_le_dec rate (default_prob * (rate + 0.4))) as [Hlt | Hge];
        [ exfalso | exact Hge ].
      assert (Hneg : 0 < loan * (default_prob * (rate + 0.4) - rate)).
      { apply Qmult_lt_0_compat; lra. }
      assert (E2 : loan * (default_prob * (rate + 0.4) - rate)
                   == - (loan * (rate - default_prob * (rate + 0.4)))) by ring.
      rewrite E2 in Hneg. lra.
    + intro Hle. apply Qmult_le_0_compat; lra.
Qed.

Lemma expected_profit_break_even_witness :
  exists ep,
    _calculate_expected_profit (PInt 15000) 0.13 0.08 = Ok ep /\
    0 <= ep <= 15000 * 0.13.
Proof.
  eexists.
  assert (H : _calculate_expected_profit (PInt 15000) 0.13 0.08
              = Ok (15000 * 0.13 * (1 - 0.08) - 15000 * 0.4 * 0.08)) by reflexivity.
  split; [ exact H | ].
  assert (Hloan : 0 <= 15000) by (vm_compute; discriminate).
  assert (Hpos : 0 < 15000) by reflexivity.
  assert (Hrate : 0 <= 0.13) by (vm_compute; discriminate).
  assert (Hdp : 0 <= 0.08 <= 1) by (split; vm_compute; discriminate).
  assert (Hbe : 0.08 * (0.13 + 0.4) <= 0.13) by (vm_compute; discriminate).
  destruct (expected_profit_break_even (PInt 15000) 15000 0.13 0.08 _
              H eq_refl Hloan Hrate Hdp) as [[_ Hup] Hiff].
  split; [ exact (proj2 (Hiff Hpos) Hbe) | exact Hup ].
Defined.

(* ================================================================== *)
(** * The ledger after pricing *)

Lemma log_all_avg (decisions : list dict) :
  decisions <> [] ->
  forallb ledger_entry (map PDict decisions) = true ->
  forall (self self' : agent) (h : list pyval),
    decision_history self = PList h ->
    forallb ledger_entry h = true ->
    log_all decisions self = (Ok tt, self') ->
    avg_adjustment (stats self') =
      Qsum (values_at "total_adjustment" (h ++ map PDict decisions)) /
      inject_Z (Z.of_nat (List.length (h ++ map PDict decisions))).
Proof.
  induction decisions as [ | d ds IH ]; intros Hne Hall self self' h Hh Hhist Hrun;
    [ congruence | ].
  cbn [map forallb] in Hall. apply andb_true_iff in Hall as [Hd Hds].
  destruct (ledger_entry_numeric _ Hd) as (Hadj & _ & _ & Hprofit).
  cbn [log_all] in Hrun. unfold bindM in Hrun.
  rewrite (_log_decision_ok d self h Hh
             (ledger_entries_total_adjustment h Hhist) Hadj Hprofit) in Hrun.
  destruct ds as [ | d' ds' ].
  - cbn [log_all ret] in Hrun. injection Hrun as <-. reflexivity.
  - cbn [map]. change (h ++ PDict d :: PDict d' :: map PDict ds')
      with (h ++ [PDict d] ++ map PDict (d' :: ds')).
    rewrite app_assoc.
    refine (IH _ Hds _ self' (h ++ [PDict d]) _ _ Hrun).
    + discriminate.
    + reflexivity.
    + rewrite forallb_app, Hhist. cbn [forallb]. now rewrite Hd.
Qed.

Lemma Qsum_from_zero (xs : list Q) : fold_left Qplus xs 0.0 == Qsum xs.
Proof.
  apply fold_left_Qplus_comp. reflexivity.
Qed.

(** What a run of pricing calls leaves on a new agent. *)
Lemma price_all_ledger (cfg : option dict) (requests : list (dict * string))
    (decisions : list dict) (self : agent) :
  price_all requests (__init__ cfg) = (Ok decisions, self) ->
  List.length decisions = List.length requests /\
  forallb ledger_entry (map PDict decisions) = true /\
  config self = config (__init__ cfg) /\
  decision_history self = PList (map PDict decisions) /\
  total_decisions (stats self) = Z.of_nat (List.length requests) /\
  total_profit (stats self) == Qsum (values_at "expected_profit" (map PDict decisions)) /\
  default_rate (stats self) = 0.0 /\
  (requests <> [] ->
   avg_adjustment (stats self) =
     Qsum (values_at "total_adjustment" (map PDict decisions)) /
     inject_Z (Z.of_nat (List.length (map PDict decisions)))).
Proof.
  intro Hrun.
  destruct (price_all_logs _ _ _ _ Hrun) as (Hcount & Hall & Hlog).
  destruct (log_all_ok decisions Hall (__init__ cfg) []) as
    (self0 & Hrun0 & Hcfg & Hhist & Hcnt & Hsum & Hrate); try reflexivity.
  rewrite Hlog in Hrun0. injection Hrun0 as <-.
  cbn [app] in Hhist.
  split; [ exact Hcount | ]. split; [ exact Hall | ].
  split; [ exact Hcfg | ]. split; [ exact Hhist | ].
  split; [ rewrite Hcnt, Hcount; reflexivity | ].
  split; [ rewrite Hsum; apply Qsum_from_zero | ].
  split; [ exact Hrate | ].
  intro Hne.
  apply (log_all_avg decisions) with (self := __init__ cfg) (h := []); trivial.
  destruct decisions; [ | discriminate ].
  destruct requests; [ congruence | discriminate Hcount ].
Qed.

(** X8.  After any run of successful pricing calls on a new agent the
    ledger agrees with what was returned: the history holds the
    decisions returned, in order; total_decisions is their number;
    total_profit is the sum of their expected profits; the running
    avg_adjustment is the mean of all their total adjustments, however
    many; default_rate is still 0. *)
Theorem pricing_keeps_ledger_consistent (cfg : option dict)
    (requests : list (dict * string)) (decisions : list dict) (self : agent) :
  price_all requests (__init__ cfg) = (Ok decisions, self) ->
  requests <> [] ->
  decision_history self = PList (map PDict decisions) /\
  total_decisions (stats self) = Z.of_nat (List.length decisions) /\
  total_profit (stats self) == Qsum (values_at "expected_profit" (map PDict decisions)) /\
  avg_adjustment (stats self) =
    Qsum (values_at "total_adjustment" (map PDict decisions)) /
    inject_Z (Z.of_nat (List.length decisions)) /\
  default_rate (stats self) = 0.0.
Proof.
  intros Hrun Hne.
  destruct (price_all_ledger _ _ _ _ Hrun)
    as (Hcount & _ & _ & Hhist & Hcnt & Hsum & Hrate & Havg).
  split; [ exact Hhist | ].
  split; [ now rewrite Hcnt, Hcount | ].
  split; [ exact Hsum | ].
  split; [ rewrite (Havg Hne), length_map; reflexivity | exact Hrate ].
Qed.

Lemma pricing_keeps_ledger_consistent_witness :
  price_all [(usa_applicant, example_now)] (__init__ None)
    = (Ok [decision_A], agent_after_one) /\
  decision_history agent_after_one = PList [PDict decision_A] /\
  total_decisions (stats agent_after_one) = 1%Z.
Proof.
  assert (H : price_all [(usa_applicant, example_now)] (__init__ None)
              = (Ok [decision_A], agent_after_one)) by (vm_compute; reflexivity).
  split; [ exact H | ].
  destruct (pricing_keeps_ledger_consistent None _ _ _ H ltac:(discriminate))
    as (Hhist & Hcnt & _).
  split; [ exact Hhist | exact Hcnt ].
Defined.

Lemma last_n_all {A : Type} (n : nat) (l : list A) :
  (List.length l <= n)%nat -> last_n n l = l.
Proof.
  intro H. unfold last_n.
  replace (List.length l - n)%nat with 0%nat by lia. reflexivity.
Qed.

(** X9.  Up to 100 pricing calls on a new agent: [get_statistics]
    reports the number of calls, the means over all the decisions
    returned and the sum of their expected profits; its mean adjustment
    is the running avg_adjustment of the agent, rounded. *)
Theorem statistics_cover_all_up_to_100 (cfg : option dict)
    (requests : list (dict * string)) (decisions : list dict) (self : agent) :
  price_all requests (__init__ cfg) = (Ok decisions, self) ->
  (0 < List.length requests <= 100)%nat ->
  let all := map PDict decisions in
  let count := inject_Z (Z.of_nat (List.length requests)) in
  get_statistics self =
    Ok [("total_decisions", PInt (Z.of_nat (List.length requests)));
        ("avg_rate_adjustment",
         PFloat (py_round (Qsum (values_at "total_adjustment" all) / count) 4));
        ("avg_final_rate",
         PFloat (py_round (Qsum (values_at "final_rate" all) / count) 4));
        ("total_expected_profit",
         PFloat (py_round (Qsum (values_at "expected_profit" all)) 2));
        ("avg_default_probability",
         PFloat (py_round (Qsum (values_at "default_probability" all) / count) 4))] /\
  float_field "avg_rate_adjustment"
    (match get_statistics self with Ok st => st | Raise _ => [] end)
  = Some (py_round (avg_adjustment (stats self)) 4).
Proof.
  intros Hrun Hlen. cbv zeta.
  assert (Hne : requests <> []) by (destruct requests; [ simpl in Hlen; lia | discriminate ]).
  destruct (price_all_ledger _ _ _ _ Hrun)
    as (Hcount & Hall & _ & Hhist & Hcnt & Hsum & _ & Havg).
  specialize (Havg Hne).
  assert (Hdne : map PDict decisions <> []).
  { destruct decisions; [ | discriminate ].
    destruct requests; [ congruence | discriminate Hcount ]. }
  assert (Hrecent : last_n 100 (map PDict decisions) = map PDict decisions).
  { apply last_n_all. rewrite length_map. unfold dict in *. lia. }
  rewrite (get_statistics_ok self _ Hhist Hall Hdne). cbv zeta.
  rewrite Hrecent, Hcnt, Havg, length_map.
  unfold dict in *. rewrite Hcount.
  rewrite (py_round_comp (total_profit (stats self))
             (Qsum (values_at "expected_profit" (map PDict decisions))) 2 Hsum).
  split; reflexivity.
Qed.

Lemma statistics_cover_all_up_to_100_witness :
  price_all [(usa_applicant, example_now)] (__init__ None)
    = (Ok [decision_A], agent_after_one) /\
  (0 < 1 <= 100)%nat /\
  dict_get "total_decisions"
    (match get_statistics agent_after_one with Ok st => st | Raise _ => [] end)
  = Some (PInt 1).
Proof.
  assert (H : price_all [(usa_applicant, example_now)] (__init__ None)
              = (Ok [decision_A], agent_after_one)) by (vm_compute; reflexivity).
  assert (Hlen : (0 < 1 <= 100)%nat) by lia.
  split; [ exact H | ]. split; [ exact Hlen | ].
  destruct (statistics_cover_all_up_to_100 None _ _ _ H Hlen) as [Hst _].
  rewrite Hst. reflexivity.
Defined.

(* ================================================================== *)
(** * Calls that fail *)

(** X10.  A pricing call that fails on an agent that is ready, whose
    logged total adjustments are floats, leaves the agent as it was:
    nothing is appended and nothing is counted.  The cause is the
    applicant record or the size of an int: the record is not a numeric
    one, or the call raised [OverflowError] on an int beyond the range
    of a float. *)
Theorem failed_pricing_changes_nothing (applicant : dict) (now : string)
    (self self' : agent) (e : exn) :
  agent_ready self = true ->
  float_ledger self = true ->
  Overflow.calculate_rate applicant now self = (Raise e, self') ->
  self' = self /\
  (numeric_applicant applicant = false \/
   (e = OverflowError /\ ints_in_range applicant (config self) = false)).
Proof.
  intros Hready _ Hrun.
  assert (Hexact : forall e0 s,
            calculate_rate applicant now self = (Raise e0, s) ->
            s = self /\ numeric_applicant applicant = false).
  { intros e0 s H. split.
    - destruct (calculate_rate_cases applicant now self) as [[e1 He] | (p & Hp & Hc)].
      + rewrite He in H. now injection H as _ <-.
      + exfalso. rewrite Hc in H. cbv zeta in H.
        unfold agent_ready in Hready.
        repeat (apply andb_true_iff in Hready as [Hready ?]).
        destruct (decision_history self) as [ | | | | | h | | ] eqn:Hh; try discriminate.
        rewrite (_log_decision_ok _ self h Hh) in H;
          [ discriminate H
          | now apply ledger_entries_total_adjustment | reflexivity | reflexivity ].
    - destruct (numeric_applicant applicant) eqn:Hnum; [ exfalso | reflexivity ].
      destruct (calculate_rate_succeeds applicant now self Hnum Hready)
        as (p & h & _ & _ & Hok).
      cbv zeta in Hok. rewrite Hok in H. discriminate H. }
  destruct (calculate_rate_refines applicant now self) as [Heq [E | E]].
  - rewrite E in Hrun. destruct (Hexact e self' Hrun) as [-> Hnum].
    split; [ reflexivity | now left ].
  - pose proof Hrun as Hrun'. rewrite E in Hrun'. injection Hrun' as <- <-.
    split; [ reflexivity | ].
    destruct (ints_in_range applicant (config self)) eqn:Hrange; [ | now right ].
    left. rewrite (Heq eq_refl) in E.
    exact (proj2 (Hexact OverflowError self E)).
Qed.

Lemma failed_pricing_changes_nothing_witness :
  agent_ready agent_after_one = true /\
  float_ledger agent_after_one = true /\
  Overflow.calculate_rate huge_score_applicant example_now agent_after_one
    = (Raise OverflowError, agent_after_one) /\
  exists e,
    Overflow.calculate_rate applicant_without_income example_now agent_after_one
      = (Raise e, agent_after_one).
Proof.
  assert (Hready : agent_ready agent_after_one = true) by (vm_compute; reflexivity).
  assert (Hfloats : float_ledger agent_after_one = true) by (vm_compute; reflexivity).
  split; [ exact Hready | ]. split; [ exact Hfloats | ].
  split; [ vm_compute; reflexivity | ].
  destruct (Overflow.calculate_rate applicant_without_income example_now agent_after_one)
    as [[d|e] s] eqn:H; [ vm_compute in H; discriminate H | ].
  exists e.
  destruct (failed_pricing_changes_nothing _ _ _ _ _ Hready Hfloats H) as [-> _].
  reflexivity.
Defined.

(* ================================================================== *)
(** * Histories that were loaded *)

Lemma mapM_raise {A B : Type} (f : A -> result B) (l : list A) (e : exn) :
  mapM f l = Raise e -> exists a, In a l /\ f a = Raise e.
Proof.
  induction l as [ | a l IH ]; cbn [mapM]; [ discriminate | ].
  destruct (f a) as [b|e'] eqn:Ha; cbn [bind].
  - destruct (mapM f l) as [bs|e'']; cbn [bind]; [ discriminate | ].
    intro H. injection H as ->.
    destruct (IH eq_refl) as (x & Hin & Hx). exists x. split; [ now right | exact Hx ].
  - intro H. injection H as ->. exists a. split; [ now left | exact Ha ].
Qed.

Lemma mapM_all {A B : Type} (f : A -> result B) (l : list A) (bs : list B) :
  mapM f l = Ok bs -> Forall2 (fun a b => f a = Ok b) l bs.
Proof.
  revert bs. induction l as [ | a l IH ]; cbn [mapM]; intros bs H.
  - injection H as <-. constructor.
  - destruct (f a) as [b|e] eqn:Ha; cbn [bind] in H; [ | discriminate H ].
    destruct (mapM f l) as [bs'|e]; cbn [bind] in H; [ | discriminate H ].
    injection H as <-. constructor; [ exact Ha | now apply IH ].
Qed.

Lemma subscript_raise (v : pyval) (key : string) (e : exn) :
  subscript v key = Raise e -> e = KeyError key \/ e = TypeError.
Proof.
  destruct v; cbn [subscript]; try (intro H; injection H as <-; now right).
  unfold getitem. destruct (dict_get key d); [ discriminate | ].
  intro H. injection H as <-. now left.
Qed.

Lemma to_num_raise (v : pyval) (e : exn) : to_num v = Raise e -> e = TypeError.
Proof.
  destruct v; cbn [to_num]; try discriminate; intro H; now injection H as <-.
Qed.

Lemma np_mean_of_raise (key : string) (ds : list pyval) (e : exn) :
  ds <> [] ->
  np_mean_of key ds = Raise e ->
  e = KeyError key \/ e = TypeError.
Proof.
  intros Hne H. unfold np_mean_of in H.
  destruct (mapM (fun d => subscript d key) ds) as [vs|e1] eqn:E1; cbn [bind] in H.
  - destruct (mapM to_num vs) as [xs|e2] eqn:E2; cbn [bind] in H.
    + exfalso. apply mapM_all in E1. apply mapM_all in E2.
      destruct ds; [ congruence | ].
      inversion E1; subst. inversion E2; subst. discriminate H.
    + injection H as <-. apply mapM_raise in E2 as (v & _ & Hv).
      right. exact (to_num_raise _ _ Hv).
  - injection H as <-. apply mapM_raise in E1 as (v & _ & Hv).
    exact (subscript_raise _ _ _ Hv).
Qed.

(** An entry without a number under the key makes the mean raise. *)
Lemma np_mean_of_fails (key : string) (ds : list pyval) :
  forallb (numeric_at key) ds = false ->
  forallb (flat_at key) ds = true ->
  exists e, np_mean_of key ds = Raise e.
Proof.
  intros Hbad Hflat.
  destruct (np_mean_of key ds) as [m|e] eqn:H; [ exfalso | eauto ].
  unfold np_mean_of in H.
  destruct (mapM (fun d => subscript d key) ds) as [vs|e1] eqn:E1;
    cbn [bind] in H; [ | discriminate H ].
  destruct (mapM to_num vs) as [xs|e2] eqn:E2; cbn [bind] in H; [ | discriminate H ].
  apply mapM_all in E1. apply mapM_all in E2.
  assert (Hall : forallb (numeric_at key) ds = true).
  { clear H Hbad. revert xs E2.
    induction E1 as [ | d v ds vs Hd _ IH ]; intros xs E2; [ reflexivity | ].
    inversion E2 as [ | v' x vs' xs' Hv Hrest ]; subst.
    cbn [forallb] in Hflat. apply andb_true_iff in Hflat as [Hfd Hfds].
    cbn [forallb]. rewrite (IH Hfds _ Hrest), andb_true_r.
    unfold flat_at in Hfd. rewrite Hd in Hfd.
    destruct d; cbn [subscript] in Hd; try discriminate Hd.
    cbn [numeric_at]. unfold has. unfold getitem in Hd.
    destruct (dict_get key d) as [w|]; [ | discriminate Hd ].
    injection Hd as ->.
    destruct v; try discriminate Hv; try discriminate Hfd; reflexivity. }
  congruence.
Qed.

(** [_log_decision] when the mean raises: the decision is appended and
    counted, and the rest is left. *)
Lemma _log_decision_half (decision : dict) (self : agent) (h : list pyval) (e : exn) :
  decision_history self = PList h ->
  np_mean_of "total_adjustment" (h ++ [PDict decision]) = Raise e ->
  _log_decision decision self = (Raise e, half_logged decision h self).
Proof.
  intros Hh Hmean.
  cbv [_log_decision bindM gets lift modify ret].
  rewrite Hh. cbn [append]. cbn [decision_history set_stats set_decision_history].
  cbn [items_of bind]. rewrite Hmean. reflexivity.
Qed.



Lemma _log_decision_non_list (decision : dict) (self : agent) :
  is_list (decision_history self) = false ->
  _log_decision decision self = (Raise AttributeError, self).
Proof.
  intro H. cbv [_log_decision bindM gets lift modify ret].
  destruct (decision_history self); try discriminate H; reflexivity.
Qed.



(* ================================================================== *)
(** * A config of the caller *)

Lemma first_missing_weight_inv (cfg : dict) (key : string) :
  first_missing_weight cfg = Some key ->
  weights_typed_where_present cfg = true ->
  dict_get key cfg = None /\
  ((key = "risk_weight") \/
   (key = "market_weight" /\ has is_number "risk_weight" cfg = true) \/
   (key = "profit_weight" /\ has is_number "risk_weight" cfg = true /\
    has is_number "market_weight" cfg = true)).
Proof.
  unfold first_missing_weight, weights, weights_typed_where_present, has, has_opt.
  cbn [find]. intros Hfirst Htyped.
  destruct (dict_get "risk_weight" cfg) as [vr|] eqn:Er; cbn [negb] in Hfirst.
  2:{ injection Hfirst as <-. split; [ exact Er | now left ]. }
  destruct (dict_get "market_weight" cfg) as [vm|] eqn:Em; cbn [negb] in Hfirst.
  2:{ injection Hfirst as <-. split; [ exact Em | ]. right. left.
      split; [ reflexivity | ].
      repeat (apply andb_true_iff in Htyped as [Htyped ?]). exact Htyped. }
  destruct (dict_get "profit_weight" cfg) as [vp|] eqn:Ep; cbn [negb] in Hfirst;
    [ discriminate Hfirst | ].
  injection Hfirst as <-. split; [ exact Ep | ]. right. right.
  split; [ reflexivity | ].
  repeat (apply andb_true_iff in Htyped as [Htyped ?]). now split.
Qed.



(* ================================================================== *)
(** * Loading, then exporting *)

Lemma dump_load (j : json) : json_proper j = true -> dump (load j) = j.
Proof.
  induction j as [ | b | z | q | s | elements IH | members IH ]
    using json_induction; cbn [json_proper load dump]; trivial.
  - intro H. f_equal. rewrite map_map.
    induction IH as [ | x l Hx _ IHl ]; cbn [map]; trivial.
    cbn [forallb] in H. apply andb_true_iff in H as [H1 H2].
    now rewrite Hx, IHl.
  - intro H. apply andb_true_iff in H as [Hkeys Hvalues].
    rewrite dict_of_members_distinct
      by (rewrite map_map; cbn [fst]; exact Hkeys).
    f_equal. rewrite map_map. cbn [fst snd].
    clear Hkeys. induction IH as [ | [k x] l Hx _ IHl ]; cbn [map]; trivial.
    cbn [forallb snd fst] in *. apply andb_true_iff in Hvalues as [H1 H2].
    now rewrite Hx, IHl.
Qed.



(* ================================================================== *)
(** * Pricing has no memory *)

Lemma priced_functional (cfg1 cfg2 applicant : dict) (p1 p2 : pricing) :
  (forall key, In key weights -> dict_get key cfg1 = dict_get key cfg2) ->
  priced cfg1 applicant p1 ->
  priced cfg2 applicant p2 ->
  p1 = p2.
Proof.
  intros Hcfg H1 H2.
  assert (Hw : forall key, In key weights -> num_field key cfg1 = num_field key cfg2).
  { intros key Hin. unfold num_field, getitem. now rewrite (Hcfg key Hin). }
  pose proof (Hw "risk_weight" ltac:(simpl; tauto)) as Wr.
  pose proof (Hw "market_weight" ltac:(simpl; tauto)) as Wm.
  pose proof (Hw "profit_weight" ltac:(simpl; tauto)) as Wp.
  unfold priced, p_final, p_total in H1, H2.
  destruct p1, p2. cbn [p_country p_credit_score p_loan_amount p_base_rate p_risk
    p_market p_profit p_risk_weight p_market_weight p_profit_weight p_default_prob
    p_expected_profit p_reasoning] in *.
  destruct H1 as (A1 & A2 & A3 & A4 & A5 & A6 & A7 & A8 & A9 & A10 & A11 & A12 & A13).
  destruct H2 as (B1 & B2 & B3 & B4 & B5 & B6 & B7 & B8 & B9 & B10 & B11 & B12 & B13).
  assert (p_country0 = p_country1) by congruence. subst.
  assert (p_credit_score0 = p_credit_score1) by congruence. subst.
  assert (p_loan_amount0 = p_loan_amount1) by congruence. subst.
  assert (p_base_rate0 = p_base_rate1) by congruence. subst.
  assert (p_risk0 = p_risk1) by congruence. subst.
  assert (p_market0 = p_market1) by congruence. subst.
  assert (p_profit0 = p_profit1) by congruence. subst.
  assert (p_risk_weight0 = p_risk_weight1) by congruence. subst.
  assert (p_market_weight0 = p_market_weight1) by congruence. subst.
  assert (p_profit_weight0 = p_profit_weight1) by congruence. subst.
  assert (p_default_prob0 = p_default_prob1) by congruence. subst.
  assert (p_expected_profit0 = p_expected_profit1) by congruence. subst.
  assert (p_reasoning0 = p_reasoning1) by congruence. subst.
  reflexivity.
Qed.

(** X15.  Pricing has no memory: two agents whose configs hold the
    same three weights return the same decision for the same applicant
    at the same clock reading, whatever their histories and stats, and
    whatever else the configs hold (the learning rate is never read).
    [learn_from_outcome] changes nothing. *)
Theorem decision_independent_of_history (applicant : dict) (now : string)
    (self1 self2 self1' self2' : agent) (d1 d2 : dict) :
  (forall key, In key weights ->
     dict_get key (config self1) = dict_get key (config self2)) ->
  calculate_rate applicant now self1 = (Ok d1, self1') ->
  calculate_rate applicant now self2 = (Ok d2, self2') ->
  d1 = d2 /\
  (forall decision_id actual_outcome,
     learn_from_outcome decision_id actual_outcome self1 = (Ok tt, self1)).
Proof.
  intros Hcfg H1 H2.
  apply calculate_rate_ok_inv in H1 as (p1 & Hp1 & -> & _).
  apply calculate_rate_ok_inv in H2 as (p2 & Hp2 & -> & _).
  rewrite (priced_functional _ _ _ _ _ Hcfg Hp1 Hp2).
  split; reflexivity.
Qed.

Lemma decision_independent_of_history_witness :
  exists self',
    calculate_rate usa_applicant example_now agent_after_one = (Ok decision_A, self').
Proof.
  destruct (calculate_rate usa_applicant example_now agent_after_one)
    as [[d|e] self'] eqn:H2; [ | vm_compute in H2; discriminate H2 ].
  assert (H1 : calculate_rate usa_applicant example_now (__init__ None)
               = (Ok decision_A, agent_after_one)) by (vm_compute; reflexivity).
  destruct (decision_independent_of_history usa_applicant example_now
              (__init__ None) agent_after_one agent_after_one self' decision_A d
              (fun key _ => eq_refl) H1 H2) as [<- _].
  exists self'. reflexivity.
Defined.

(* ================================================================== *)
(** * The handlers of the pricing tab *)

Lemma decision_values_of (now : string) (applicant_id : pyval) (p : pricing) :
  decision_values (decision_of now applicant_id p) =
    Ok ([PFloat (py_round (p_base_rate p) 4);
         PFloat (py_round (p_risk p) 4);
         PFloat (py_round (p_market p) 4);
         PFloat (py_round (p_profit p) 4);
         PFloat (py_round (p_final p) 4);
         PFloat (py_round (p_expected_profit p) 2);
         PFloat (py_round (p_default_prob p) 4)] ++ map PStr (p_reasoning p)).
Proof. reflexivity. Qed.

Lemma strings_are_str (l : list string) : forallb is_str (map PStr l) = true.
Proof.
  induction l as [ | s l IH ]; cbn [map forallb is_str]; trivial.
Qed.

Lemma priced_reasons (cfg applicant : dict) (p : pricing) :
  priced cfg applicant p -> (1 <= List.length (p_reasoning p) <= 4)%nat.
Proof.
  intros (_ & _ & _ & _ & _ & _ & _ & _ & _ & _ & _ & _ & H).
  unfold _generate_reasoning in H. do 2 bind_inv H.
  destruct (eq_str a0 "USA"); bind_inv H; revert H; split_tests;
    intro H; injection H as <-; cbn [app List.length]; lia.
Qed.

Lemma pricing_handler_ok (prefix country : string) (a b c d e : Q) (now : string)
    (self : agent) (h : list pyval) :
  agent_ready self = true ->
  decision_history self = PList h ->
  exists output stats_output decision self',
    pricing_handler prefix country a b c d e now self
      = (Ok (output, stats_output), self') /\
    formattable output stats_output (total_decisions (stats self) + 1) /\
    decision_history self' = PList (h ++ [PDict decision]) /\
    dict_get "applicant_id" decision
      = Some (PStr (String.append prefix (str (Z.of_nat (List.length h) + 1)))) /\
    dict_get "country" decision = Some (PStr country) /\
    agent_ready self' = true /\
    total_decisions (stats self') = (total_decisions (stats self) + 1)%Z.
Proof.
  intros Hready Hh.
  cbv [pricing_handler bindM gets lift ret]. rewrite Hh. cbn [py_len].
  match goal with
  | |- context [calculate_rate ?x now self] => set (applicant := x)
  end.
  assert (Hnum : numeric_applicant applicant = true) by reflexivity.
  destruct (calculate_rate_succeeds applicant now self Hnum Hready)
    as (p & h' & Hp & Hh' & Hrun).
  rewrite Hh in Hh'. injection Hh' as <-.
  cbv zeta in Hrun. rewrite Hrun.
  rewrite decision_values_of.
  set (decision := decision_of now (get_default applicant "id" (PStr "unknown")) p) in *.
  match goal with
  | |- context [get_statistics ?s] => set (self' := s) in *
  end.
  assert (Hready' : agent_ready self' = true)
    by exact (calculate_rate_keeps_ready _ _ _ _ _ Hready Hrun).
  assert (Hall : forallb ledger_entry (h ++ [PDict decision]) = true).
  { unfold agent_ready in Hready'.
    repeat (apply andb_true_iff in Hready' as [Hready' ?]). assumption. }
  rewrite (get_statistics_ok self' (h ++ [PDict decision]) eq_refl Hall)
    by (intro Hn; apply app_eq_nil in Hn as [_ Hn]; discriminate Hn).
  cbv zeta. cbn [stats_values getitem dict_get String.eqb Ascii.eqb Bool.eqb bind].
  eexists. eexists. exists decision, self'.
  split; [ reflexivity | ].
  split.
  { split; [ reflexivity | ].
    split; [ apply strings_are_str | ].
    split.
    - rewrite length_app, length_map. cbn [List.length].
      pose proof (priced_reasons _ _ _ Hp). lia.
    - cbn [self' stats total_decisions]. eauto. }
  split; [ reflexivity | ].
  split; [ reflexivity | ].
  split; [ | split; [ exact Hready' | reflexivity ] ].
  destruct Hp as (Hc & _). unfold decision, decision_of. cbn [dict_get String.eqb Ascii.eqb Bool.eqb].
  cbn in Hc. injection Hc as <-. reflexivity.
Qed.

(** What the tab's agent always satisfies. *)
Lemma tab_agent_ready :
  forall self : agent,
  tab_agent self ->
  agent_ready self = true /\
  exists h,
    decision_history self = PList h /\
    total_decisions (stats self) = Z.of_nat (List.length h).
Proof.
  assert (Hstep : forall prefix country a b c d e now self self' outcome,
            (agent_ready self = true /\
             exists h, decision_history self = PList h /\
                       total_decisions (stats self) = Z.of_nat (List.length h)) ->
            pricing_handler prefix country a b c d e now self = (outcome, self') ->
            agent_ready self' = true /\
            exists h, decision_history self' = PList h /\
                      total_decisions (stats self') = Z.of_nat (List.length h)).
  { intros prefix country a b c d e now s s' outcome (Hready & h & Hh & Hcnt) Hrun.
    destruct (pricing_handler_ok prefix country a b c d e now s h Hready Hh)
      as (output & stats_output & decision & self0 & Hok & _ & Hh0 & _ & _ & Hready0 & Hcnt0).
    rewrite Hok in Hrun. injection Hrun as _ <-.
    split; [ exact Hready0 | ].
    exists (h ++ [PDict decision]). split; [ exact Hh0 | ].
    rewrite Hcnt0, Hcnt, length_app. cbn [List.length]. lia. }
  induction 1 as [ | self self' a b c d e now outcome _ IH Hrun
                   | self self' a b c d e now outcome _ IH Hrun ].
  - split; [ reflexivity | ]. exists []. split; reflexivity.
  - exact (Hstep _ _ _ _ _ _ _ _ _ _ _ IH Hrun).
  - exact (Hstep _ _ _ _ _ _ _ _ _ _ _ IH Hrun).
Qed.

(** X16.  On the agent of the pricing tab, whatever calls came before,
    neither handler raises, for any five numbers: the history is a list
    of n decisions and total_decisions is n; the call prices an applicant
    with id USA_(n+1) or IND_(n+1), logs its decision, and every value the
    two texts format is there, numbers where numbers are formatted and
    strings for the reasons; the count shown is n+1.  The statistics are
    read after a decision was logged, so they hold the keys that are
    read. *)
Theorem tab_handlers_never_fail (self : agent) (a b c d e : Q) (now : string) :
  tab_agent self ->
  exists h,
    decision_history self = PList h /\
    total_decisions (stats self) = Z.of_nat (List.length h) /\
    handled (agent_pricing_usa a b c d e now self) h
      (String.append "USA_" (str (Z.of_nat (List.length h) + 1))) "USA" /\
    handled (agent_pricing_india a b c d e now self) h
      (String.append "IND_" (str (Z.of_nat (List.length h) + 1))) "India".
Proof.
  intro Htab.
  destruct (tab_agent_ready self Htab) as (Hready & h & Hh & Hcnt).
  exists h. split; [ exact Hh | ]. split; [ exact Hcnt | ].
  split.
  - destruct (pricing_handler_ok "USA_" "USA" a b c d e now self h Hready Hh)
      as (output & stats_output & decision & self' & Hok & Hfmt & Hh' & Hid & Hc & _).
    exists output, stats_output, decision, self'.
    rewrite Hcnt in Hfmt. repeat split; trivial; apply Hfmt.
  - destruct (pricing_handler_ok "IND_" "India" a b c d e now self h Hready Hh)
      as (output & stats_output & decision & self' & Hok & Hfmt & Hh' & Hid & Hc & _).
    exists output, stats_output, decision, self'.
    rewrite Hcnt in Hfmt. repeat split; trivial; apply Hfmt.
Qed.

Lemma tab_handlers_never_fail_witness :
  tab_agent (__init__ None) /\
  handled (agent_pricing_usa 720 85000 15000 12000 5 example_now (__init__ None))
    [] "USA_1" "USA".
Proof.
  split; [ exact tab_new | ].
  destruct (tab_handlers_never_fail (__init__ None) 720 85000 15000 12000 5
              example_now tab_new) as (h & Hh & _ & Husa & _).
  injection Hh as <-. exact Husa.
Defined.
